(** * Sparse MDP PRCTL model checker: a shallow embedding

    The development follows [SparseMdpPrctlModelChecker<Type>] as it is
    written in [src/modelchecker/AbstractModelChecker.cpp] (second part of
    that file).  The value type is the template parameter [Type], states are
    natural numbers, bit vectors are boolean lists indexed by state, a sparse
    matrix is a list of rows and a row is a list of (column, value) entries.

    The member functions of the checker read and write the mutable
    [minimumOperatorStack] and talk to the equation solver; both are kept in
    an explicit checker state that survives a thrown exception, as the C++
    object does. *)

From Stdlib Require Import String QArith Qabs Lqa List Bool Arith Lia.
Import ListNotations.
Close Scope Q_scope.

Set Implicit Arguments.

(* ================================================================== *)
(** ** The value type *)
(* ================================================================== *)

(** The operations the checker uses on the template parameter [Type]:
    [constGetZero], [constGetOne], [constGetInfinity], the literal
    [Type(0.5)], addition, multiplication and the comparison [<]. *)
Class ValueType (T : Type) : Type := {
  constGetZero : T;
  constGetOne : T;
  constGetInfinity : T;
  constHalf : T;
  vadd : T -> T -> T;
  vmul : T -> T -> T;
  vltb : T -> T -> bool
}.

(** [a <= b] is "not [b < a]", the reading the comparisons of the code have
    on a totally ordered value type. *)
Definition vle {T} `{ValueType T} (a b : T) : Prop := vltb b a = false.

(** The order facts the proofs rely on. *)
Class OrderedValueType (T : Type) `{ValueType T} : Prop := {
  vltb_irrefl : forall a : T, vltb a a = false;
  vltb_trans : forall a b c : T, vltb a b = true -> vltb b c = true -> vltb a c = true;
  vltb_cotrans : forall a b c : T, vltb a c = true -> vltb a b = false -> vltb b c = true;
  zero_le_half : vle (constGetZero : T) constHalf;
  half_le_one : vle (constHalf : T) constGetOne
}.

(** A value lies in the probability domain. *)
Definition inUnitInterval {T} `{ValueType T} (v : T) : Prop :=
  vle constGetZero v /\ vle v constGetOne.

(** The same test as a boolean. *)
Definition inUnitIntervalb {T} `{ValueType T} (v : T) : bool :=
  negb (vltb v constGetZero) && negb (vltb constGetOne v).

(* ================================================================== *)
(** ** Bit vectors *)
(* ================================================================== *)

(** Modelled from the spec: [storm::storage::BitVector] is missing; an
    "ordered boolean indicator set over states" with
    "set/complement/intersect/difference", here the list of its bits. *)
Definition BitVector := list bool.

Module BV.

(** [bv.get(i)]; a position outside the vector is not set. *)
Definition get (bv : BitVector) (i : nat) : bool := nth i bv false.

(** [bv.size()] *)
Definition size (bv : BitVector) : nat := length bv.

(** [BitVector(n, true)]: all of the [n] positions set. *)
Definition full (n : nat) : BitVector := repeat true n.

(** [operator~]: the complement within the size of the vector. *)
Definition complement (bv : BitVector) : BitVector := map negb bv.

(** [operator|] (union) and [operator&] (intersection): bitwise over the
    common size of the two vectors. *)
Fixpoint bor (a b : BitVector) : BitVector :=
  match a, b with
  | x :: a', y :: b' => (x || y) :: bor a' b'
  | _, _ => []
  end.

Fixpoint band (a b : BitVector) : BitVector :=
  match a, b with
  | x :: a', y :: b' => (x && y) :: band a' b'
  | _, _ => []
  end.

(** [a.isDisjointFrom(b)]: no position is set in both. *)
Fixpoint isDisjointFrom (a b : BitVector) : bool :=
  match a, b with
  | x :: a', y :: b' => negb (x && y) && isDisjointFrom a' b'
  | _, _ => true
  end.

(** [bv.getNumberOfSetBits()] *)
Definition getNumberOfSetBits (bv : BitVector) : nat := count_occ bool_dec bv true.

(** [a % filter]: the bits of [a] at the positions set in [filter], one
    bit per set position of [filter]. *)
Fixpoint restrict (a filter : BitVector) : BitVector :=
  match a, filter with
  | x :: a', true :: f' => x :: restrict a' f'
  | _ :: a', false :: f' => restrict a' f'
  | [], true :: f' => false :: restrict [] f'
  | [], false :: f' => restrict [] f'
  | _, [] => []
  end.

(** The set positions in increasing order: [for (auto position : bv)]. *)
Fixpoint setBitsFrom (i : nat) (bv : BitVector) : list nat :=
  match bv with
  | [] => []
  | true :: bv' => i :: setBitsFrom (S i) bv'
  | false :: bv' => setBitsFrom (S i) bv'
  end.

Definition setBits (bv : BitVector) : list nat := setBitsFrom 0 bv.

End BV.

(* ================================================================== *)
(** ** Exceptions and the checker state *)
(* ================================================================== *)

(** The exceptions of the checker: the two it throws itself, and the
    [std::length_error] of the constructor of [std::vector] for a size
    beyond [max_size()]. *)
Inductive Exception : Type :=
| InvalidArgumentException (message : string)
| InvalidPropertyException (message : string)
| LengthError.

(** The error kinds of the specification. *)
Definition isInvalidArgument (e : Exception) : bool :=
  match e with InvalidArgumentException _ => true | _ => false end.

Definition missingRewardModelMessage : string :=
  "Missing reward model for formula.".

Definition missingStateRewardModelMessage : string :=
  "Missing (state-based) reward model for formula.".

(** MissingRewardModel is the [InvalidPropertyException] the reward solvers
    throw with one of the two "Missing ... reward model" messages. *)
Definition isMissingRewardModel (e : Exception) : bool :=
  match e with
  | InvalidPropertyException m =>
      String.eqb m missingRewardModelMessage || String.eqb m missingStateRewardModelMessage
  | _ => false
  end.

Inductive Outcome (A : Type) : Type :=
| Returns (a : A)
| Throws (e : Exception)
| Undefined.

Arguments Throws {A} e.
Arguments Undefined {A}.

Section Checker.

Context {T : Type} `{VT : ValueType T}.

(** [std::vector<Type>] *)
Definition Vec := list T.

(** Modelled from the spec: [storm::storage::SparseMatrix<Type>] is
    missing; a "row-grouped transition matrix: states own contiguous groups
    of rows, one row per available action, each row a sub-probability
    distribution over successor states".  A row lists its entries as
    (column, value) pairs; the grouping is kept apart, in the vector of
    nondeterministic choice indices. *)
Definition Row := list (nat * T).
Definition SparseMatrix := list Row.

(** A request sent to a solver object. *)
Inductive SolverCall : Type :=
| SolveEquationSystem (minimize : bool) (A : SparseMatrix) (x b : Vec) (rowGroups : list nat)
| PerformMatrixVectorMultiplication (minimize : bool) (A : SparseMatrix) (x : Vec)
    (rowGroups : list nat) (b : option Vec) (n : nat)
| GmmxxMatrixVectorMultiplication (A : SparseMatrix) (x : Vec) (n : nat).

Definition isNondeterministicSolverCall (c : SolverCall) : bool :=
  match c with
  | GmmxxMatrixVectorMultiplication _ _ _ => false
  | _ => true
  end.

(** [minimumOperatorStack] is the mutable member of the checker; the top
    is the head.  [solverCalls] lists the requests made so far, oldest
    first. *)
Record CheckerState : Type := {
  minimumOperatorStack : list bool;
  solverCalls : list SolverCall
}.

Definition M (A : Type) : Type := CheckerState -> Outcome A * CheckerState.

Definition ret {A} (a : A) : M A := fun st => (Returns a, st).

Definition bind {A B} (m : M A) (k : A -> M B) : M B :=
  fun st =>
    match m st with
    | (Returns a, st') => k a st'
    | (Throws e, st') => (Throws e, st')
    | (Undefined, st') => (Undefined, st')
    end.

Definition throw {A} (e : Exception) : M A := fun st => (Throws e, st).

(** [minimumOperatorStack.push(b)] *)
Definition push (b : bool) : M unit :=
  fun st => (Returns tt, {| minimumOperatorStack := b :: minimumOperatorStack st;
                            solverCalls := solverCalls st |}).

(** [minimumOperatorStack.pop()]; undefined on an empty [std::stack]. *)
Definition pop : M unit :=
  fun st =>
    match minimumOperatorStack st with
    | [] => (Undefined, st)
    | _ :: rest => (Returns tt, {| minimumOperatorStack := rest; solverCalls := solverCalls st |})
    end.

(** [minimumOperatorStack.top()]; undefined on an empty [std::stack]. *)
Definition top : M bool :=
  fun st =>
    match minimumOperatorStack st with
    | [] => (Undefined, st)
    | b :: _ => (Returns b, st)
    end.

(** The checker state after [minimumOperatorStack.push(b)]. *)
Definition pushed (b : bool) (st : CheckerState) : CheckerState :=
  {| minimumOperatorStack := b :: minimumOperatorStack st; solverCalls := solverCalls st |}.

Definition depth (st : CheckerState) : nat := length (minimumOperatorStack st).

(** The checker state after one more solver request. *)
Definition logged (c : SolverCall) (st : CheckerState) : CheckerState :=
  {| minimumOperatorStack := minimumOperatorStack st; solverCalls := solverCalls st ++ [c] |}.

Definition logCall (c : SolverCall) : M unit :=
  fun st => (Returns tt, logged c st).

End Checker.

Declare Scope checker_scope.
Delimit Scope checker_scope with checker.
Notation "x <- m ;; k" := (bind m (fun x => k))
  (at level 61, m at next level, right associativity) : checker_scope.
Notation "m ;;; k" := (bind m (fun _ => k))
  (at level 61, right associativity) : checker_scope.


(* ================================================================== *)
(** ** Vector and matrix utilities *)
(* ================================================================== *)

(** The helpers of [storm::utility::vector] and the methods of
    [storm::storage::SparseMatrix] that the checker calls.  Their sources
    are not part of the files at hand; they are written down from what the
    specification says they do.  An access outside a vector is undefined
    in C++; here such a write is dropped and such a read gives zero. *)

Section Utilities.

Context {T : Type} `{VT : ValueType T}.

(** [l[from], ..., l[to - 1]] *)
Definition slice {A : Type} (l : list A) (from to : nat) : list A :=
  firstn (to - from) (skipn from l).

(** Writes [values] over the first entries of [vector], keeping its size. *)
Definition overwritePrefix {A : Type} (vector values : list A) : list A :=
  firstn (length vector) values ++ skipn (length values) vector.

(** Modelled from the spec: [vector::setVectorValues(vector, positions,
    value)] is missing; it assigns [value] to every set position ("assign
    the sentinel to maybeStates", "0 on prob0, 1 on prob1"). *)
Fixpoint setVectorValues (vector : @Vec T) (positions : BitVector) (value : T) : Vec :=
  match vector, positions with
  | v :: vs, b :: bs => (if b then value else v) :: setVectorValues vs bs value
  | _, _ => vector
  end.

(** Modelled from the spec: [vector::setVectorValues(vector, positions,
    values)] is missing; the k-th set position receives [values[k]] ("x on
    maybeStates"). *)
Fixpoint setVectorValuesFrom (vector : @Vec T) (positions : BitVector) (values : Vec) : Vec :=
  match vector, positions with
  | v :: vs, true :: bs => hd constGetZero values :: setVectorValuesFrom vs bs (tl values)
  | v :: vs, false :: bs => v :: setVectorValuesFrom vs bs values
  | _, _ => vector
  end.

(** Modelled from the spec: [vector::selectVectorValues(vector, positions,
    rowGrouping, values)] is missing; it collects, for every set position,
    the entries of [values] at the rows of that state ("per maybe-state
    action row"). *)
Definition selectVectorValues (vector : @Vec T) (positions : BitVector)
    (rowGrouping : list nat) (values : Vec) : Vec :=
  overwritePrefix vector
    (flat_map (fun p => slice values (nth p rowGrouping 0) (nth (S p) rowGrouping 0))
              (BV.setBits positions)).

(** Modelled from the spec: [vector::selectVectorValuesRepeatedly] is
    missing; for every set position it writes the state's own value once
    per row of the state ("the state's own reward (duplicated across every
    row of that state)"). *)
Definition selectVectorValuesRepeatedly (vector : @Vec T) (positions : BitVector)
    (rowGrouping : list nat) (values : Vec) : Vec :=
  overwritePrefix vector
    (flat_map (fun p => repeat (nth p values constGetZero)
                               (nth (S p) rowGrouping 0 - nth p rowGrouping 0))
              (BV.setBits positions)).

(** Modelled from the spec: [vector::addVectorsInPlace(target, summand)] is
    missing; entrywise sum stored in [target]. *)
Fixpoint addVectorsInPlace (target summand : @Vec T) : Vec :=
  match target, summand with
  | t :: ts, s :: ss => vadd t s :: addVectorsInPlace ts ss
  | _, _ => target
  end.

(** Modelled from the spec: [vector::getConstrainedOffsetVector] is
    missing; the row grouping of the states kept by [constraint] ("states
    own contiguous groups of rows"). *)
Fixpoint offsetsFrom (current : nat) (sizes : list nat) : list nat :=
  match sizes with
  | [] => []
  | n :: rest => (current + n) :: offsetsFrom (current + n) rest
  end.

Definition getConstrainedOffsetVector (offsetVector : list nat) (constraint : BitVector) : list nat :=
  0 :: offsetsFrom 0 (map (fun p => nth (S p) offsetVector 0 - nth p offsetVector 0)
                          (BV.setBits constraint)).

(** One pass over the rows of a state: the running extremum [best], the
    local row index [choice] at which it was found, and the local index
    [local] of the next row. *)
Fixpoint reduceGroup (filter : T -> T -> bool) (best : T) (choice local : nat)
    (rows : @Vec T) : T * nat :=
  match rows with
  | [] => (best, choice)
  | v :: rows' =>
      if filter v best then reduceGroup filter v local (S local) rows'
      else reduceGroup filter best choice (S local) rows'
  end.

Definition reduceState (filter : T -> T -> bool) (source : @Vec T) (rowGrouping : list nat)
    (s : nat) : T * nat :=
  match slice source (nth s rowGrouping 0) (nth (S s) rowGrouping 0) with
  | [] => (constGetZero, 0)
  | v :: rows => reduceGroup filter v 0 1 rows
  end.

(** Modelled from the spec: [vector::reduceVectorMin] / [reduceVectorMax]
    are missing; "each sweep reduces all action-rows of a state to the
    extremal one", "per state choose argmin (minimize) / argmax (maximize)
    over its rows, first index on ties".  A later row replaces the current
    one only when it passes the strict [filter]. *)
Definition reduceVector (filter : T -> T -> bool) (source target : @Vec T)
    (rowGrouping : list nat) (choices : list nat) : Vec * list nat :=
  let reduced := map (reduceState filter source rowGrouping) (seq 0 (length rowGrouping - 1)) in
  (overwritePrefix target (map fst reduced), overwritePrefix choices (map snd reduced)).

Definition reduceVectorMin := reduceVector (fun a b => vltb a b).
Definition reduceVectorMax := reduceVector (fun a b => vltb b a).

(** The product of one matrix row with a vector. *)
Definition rowTimesVector (row : @Row T) (x : @Vec T) : T :=
  fold_right (fun e acc => vadd (vmul (snd e) (nth (fst e) x constGetZero)) acc) constGetZero row.

Definition multiplyWithVector (A : @SparseMatrix T) (x : Vec) : Vec :=
  map (fun row => rowTimesVector row x) A.

(** The rows of the given states, in order. *)
Definition rowsOfStates (A : @SparseMatrix T) (rowGrouping : list nat) (states : list nat)
    : SparseMatrix :=
  flat_map (fun s => slice A (nth s rowGrouping 0) (nth (S s) rowGrouping 0)) states.

(** The new index of column [c] once the columns outside [constraint] are
    dropped. *)
Definition columnRank (constraint : BitVector) (c : nat) : nat :=
  BV.getNumberOfSetBits (firstn c constraint).

Definition restrictRow (constraint : BitVector) (row : @Row T) : Row :=
  map (fun e => (columnRank constraint (fst e), snd e))
      (filter (fun e => BV.get constraint (fst e)) row).

(** Modelled from the spec: [SparseMatrix::getSubmatrix(constraint,
    rowGrouping)] is missing; "extract the action-row submatrix restricted
    to maybeStates": the rows of the kept states, with the columns of the
    kept states. *)
Definition getSubmatrix (A : @SparseMatrix T) (constraint : BitVector) (rowGrouping : list nat)
    : SparseMatrix :=
  map (restrictRow constraint) (rowsOfStates A rowGrouping (BV.setBits constraint)).

Definition constrainedRowSum (columnConstraint : BitVector) (row : @Row T) : T :=
  fold_right (fun e acc => if BV.get columnConstraint (fst e) then vadd (snd e) acc else acc)
             constGetZero row.

(** Modelled from the spec: [SparseMatrix::getConstrainedRowSumVector] is
    missing; "right-hand side b = row-sum of probability mass entering
    probability-1 states", one entry per row of the kept states. *)
Definition getConstrainedRowSumVector (A : @SparseMatrix T) (rowConstraint : BitVector)
    (rowGrouping : list nat) (columnConstraint : BitVector) (numberOfRows : nat) : Vec :=
  overwritePrefix (repeat constGetZero numberOfRows)
    (map (constrainedRowSum columnConstraint)
         (rowsOfStates A rowGrouping (BV.setBits rowConstraint))).

Definition entryAt (row : @Row T) (c : nat) : T :=
  match find (fun e => Nat.eqb (fst e) c) row with
  | Some e => snd e
  | None => constGetZero
  end.

(** Modelled from the spec: [SparseMatrix::getPointwiseProductRowSumVector]
    is missing; "the row-summed pointwise product of transition
    probabilities and transition rewards". *)
Fixpoint getPointwiseProductRowSumVector (A R : @SparseMatrix T) : Vec :=
  match A with
  | [] => []
  | row :: A' =>
      fold_right (fun e acc => vadd (vmul (snd e) (entryAt (hd [] R) (fst e))) acc)
                 constGetZero row
      :: getPointwiseProductRowSumVector A' (tl R)
  end.

(** Replaces the rows [from .. to - 1] of the matrix by [row]. *)
Definition replaceRows (A : @SparseMatrix T) (from to : nat) (row : Row) : SparseMatrix :=
  firstn from A ++ map (fun _ => row) (slice A from to) ++ skipn (Nat.max from to) A.

(** Modelled from the spec: [SparseMatrix::makeRowsAbsorbing(rows,
    rowGrouping)] is missing; it "forces rows of psi-states to be
    self-looping": every row of a state in [rows] becomes the single entry
    (state, 1). *)
Definition makeRowsAbsorbing (A : @SparseMatrix T) (rows : BitVector) (rowGrouping : list nat)
    : SparseMatrix :=
  fold_left (fun M s => replaceRows M (nth s rowGrouping 0) (nth (S s) rowGrouping 0)
                                    [(s, constGetOne)])
            (BV.setBits rows) A.

(** Modelled from the spec: [GmmxxLinearEquationSolver::
    performMatrixVectorMultiplication(A, x, b, n)] is missing; [n] times
    [x := A x (+ b)], no reduction over row groups. *)
Fixpoint gmmxxPerformMatrixVectorMultiplication (A : @SparseMatrix T) (x : Vec)
    (b : option Vec) (n : nat) : Vec :=
  match n with
  | 0 => x
  | S n' =>
      let y := multiplyWithVector A x in
      gmmxxPerformMatrixVectorMultiplication A
        (match b with Some b' => addVectorsInPlace y b' | None => y end) b n'
  end.

End Utilities.

(* ================================================================== *)
(** ** The collaborators and the model *)
(* ================================================================== *)

(** The graph routines of [storm::utility::graph] the checker calls.  They
    take the transition matrix, the row grouping, the backward transitions
    and the phi- and psi-states; the bounded variants also take
    [useStepBound] and [maximalSteps]. *)
Class GraphUtility (T : Type) : Type := {
  performProb01Min :
    @SparseMatrix T -> list nat -> @SparseMatrix T -> BitVector -> BitVector -> BitVector * BitVector;
  performProb01Max :
    @SparseMatrix T -> list nat -> @SparseMatrix T -> BitVector -> BitVector -> BitVector * BitVector;
  performProbGreater0A :
    @SparseMatrix T -> list nat -> @SparseMatrix T -> BitVector -> BitVector -> bool -> nat -> BitVector;
  performProbGreater0E :
    @SparseMatrix T -> list nat -> @SparseMatrix T -> BitVector -> BitVector -> bool -> nat -> BitVector;
  performProb1A :
    @SparseMatrix T -> list nat -> @SparseMatrix T -> BitVector -> BitVector -> BitVector;
  performProb1E :
    @SparseMatrix T -> list nat -> @SparseMatrix T -> BitVector -> BitVector -> BitVector
}.

(** [AbstractNondeterministicLinearEquationSolver<Type>]: the vector the
    solver leaves in [x]. *)
Class NondeterministicLinearEquationSolver (T : Type) : Type := {
  solveEquationSystem :
    bool -> @SparseMatrix T -> @Vec T -> @Vec T -> list nat -> @Vec T;
  performMatrixVectorMultiplication :
    bool -> @SparseMatrix T -> @Vec T -> list nat -> option (@Vec T) -> nat -> @Vec T
}.

(** [storm::models::Mdp<Type>] as the checker reads it. *)
Record Mdp (T : Type) : Type := {
  getNumberOfStates : nat;
  getTransitionMatrix : @SparseMatrix T;
  getNondeterministicChoiceIndices : list nat;
  getBackwardTransitions : @SparseMatrix T;
  getInitialStates : BitVector;
  stateRewardVector : option (@Vec T);
  transitionRewardMatrix : option (@SparseMatrix T)
}.

Definition hasStateRewards {T} (m : Mdp T) : bool :=
  match stateRewardVector m with Some _ => true | None => false end.

Definition hasTransitionRewards {T} (m : Mdp T) : bool :=
  match transitionRewardMatrix m with Some _ => true | None => false end.

(** Only read where [hasStateRewards] / [hasTransitionRewards] holds. *)
Definition getStateRewardVector {T} (m : Mdp T) : @Vec T :=
  match stateRewardVector m with Some v => v | None => [] end.

Definition getTransitionRewardMatrix {T} (m : Mdp T) : @SparseMatrix T :=
  match transitionRewardMatrix m with Some R => R | None => [] end.

(** The same model with another transition-reward component. *)
Definition withTransitionRewardMatrix {T} (m : Mdp T) (R : option (@SparseMatrix T)) : Mdp T :=
  {| getNumberOfStates := getNumberOfStates m;
     getTransitionMatrix := getTransitionMatrix m;
     getNondeterministicChoiceIndices := getNondeterministicChoiceIndices m;
     getBackwardTransitions := getBackwardTransitions m;
     getInitialStates := getInitialStates m;
     stateRewardVector := stateRewardVector m;
     transitionRewardMatrix := R |}.

(** [storm::storage::TotalScheduler]: the chosen local row per state. *)
Definition TotalScheduler := list nat.

(** What [checkNoBoundOperator] reads of an [AbstractNoBoundOperator]:
    the two flags and the member [check], called on this checker with the
    qualitative flag. *)
Record AbstractNoBoundOperator (T : Type) : Type := {
  isOptimalityOperator : bool;
  isMinimumOperator : bool;
  check : bool -> @M T (@Vec T)
}.

(* ================================================================== *)
(** ** SparseMdpPrctlModelChecker *)
(* ================================================================== *)

Section SparseMdpPrctlModelChecker.

Context {T : Type} `{VT : ValueType T} {Graph : GraphUtility T}
        {Solver : NondeterministicLinearEquationSolver T}.

Local Open Scope checker_scope.

(** The checker's calls on [nondeterministicLinearEquationSolver]. *)
Definition callSolveEquationSystem (minimize : bool) (A : SparseMatrix) (x b : Vec)
    (rowGroups : list nat) : M Vec :=
  logCall (SolveEquationSystem minimize A x b rowGroups) ;;;
  ret (solveEquationSystem minimize A x b rowGroups).

Definition callPerformMatrixVectorMultiplication (minimize : bool) (A : SparseMatrix) (x : Vec)
    (rowGroups : list nat) (b : option Vec) (n : nat) : M Vec :=
  logCall (PerformMatrixVectorMultiplication minimize A x rowGroups b n) ;;;
  ret (performMatrixVectorMultiplication minimize A x rowGroups b n).

(** The call on the local [GmmxxLinearEquationSolver] of
    [computeExtremalScheduler]. *)
Definition callGmmxxPerformMatrixVectorMultiplication (A : SparseMatrix) (x : Vec) (n : nat)
    : M Vec :=
  logCall (GmmxxMatrixVectorMultiplication A x n) ;;;
  ret (gmmxxPerformMatrixVectorMultiplication A x None n).

Definition optimalityMessage : string :=
  "Formula does not specify neither min nor max optimality, which is not meaningful over nondeterministic models.".

Definition checkNoBoundOperator (formula : AbstractNoBoundOperator T) : M Vec :=
  if negb (isOptimalityOperator formula) then
    throw (InvalidArgumentException optimalityMessage)
  else
    push (isMinimumOperator formula) ;;;
    result <- check formula false ;;
    pop ;;;
    ret result.

(** The size of [temporaryResult] is [nondeterministicChoiceIndices.size() - 1]
    in [size_t]: on an empty index vector it wraps around to the largest
    value, and the constructor of the vector, the first statement of the
    function, throws [std::length_error]. *)
Definition computeExtremalScheduler (minimize : bool) (transitionMatrix : SparseMatrix)
    (nondeterministicChoiceIndices : list nat) (result : Vec)
    (stateRewardVector : option Vec) (transitionRewardMatrix : option SparseMatrix)
    : M TotalScheduler :=
  if length nondeterministicChoiceIndices =? 0 then
    throw LengthError
  else
    let temporaryResult := repeat constGetZero (length nondeterministicChoiceIndices - 1) in
    nondeterministicResult <- callGmmxxPerformMatrixVectorMultiplication transitionMatrix result 1 ;;
    let nondeterministicResult :=
      match stateRewardVector, transitionRewardMatrix with
      | None, None => nondeterministicResult
      | _, Some rewardMatrix =>
          let totalRewardVector := getPointwiseProductRowSumVector transitionMatrix rewardMatrix in
          let totalRewardVector :=
            match stateRewardVector with
            | Some stateRewardVector' =>
                let stateRewards :=
                  selectVectorValuesRepeatedly (repeat constGetZero (length totalRewardVector))
                    (BV.full (length stateRewardVector')) nondeterministicChoiceIndices
                    stateRewardVector' in
                addVectorsInPlace totalRewardVector stateRewards
            | None => totalRewardVector
            end in
          addVectorsInPlace nondeterministicResult totalRewardVector
      | Some stateRewardVector', None =>
          let totalRewardVector :=
            selectVectorValuesRepeatedly (repeat constGetZero (length nondeterministicResult))
              (BV.full (length stateRewardVector')) nondeterministicChoiceIndices
              stateRewardVector' in
          addVectorsInPlace nondeterministicResult totalRewardVector
      end in
    let choices := repeat 0 (length result) in
    let choices :=
      if minimize then
        snd (reduceVectorMin nondeterministicResult temporaryResult nondeterministicChoiceIndices choices)
      else
        snd (reduceVectorMax nondeterministicResult temporaryResult nondeterministicChoiceIndices choices) in
    ret choices.

Definition computeUnboundedUntilProbabilities (minimize : bool) (transitionMatrix : SparseMatrix)
    (nondeterministicChoiceIndices : list nat) (backwardTransitions : SparseMatrix)
    (initialStates phiStates psiStates : BitVector) (qualitative : bool)
    : M (Vec * TotalScheduler) :=
  let numberOfStates := BV.size phiStates in
  let statesWithProbability01 :=
    if minimize then
      performProb01Min transitionMatrix nondeterministicChoiceIndices backwardTransitions
        phiStates psiStates
    else
      performProb01Max transitionMatrix nondeterministicChoiceIndices backwardTransitions
        phiStates psiStates in
  let statesWithProbability0 := fst statesWithProbability01 in
  let statesWithProbability1 := snd statesWithProbability01 in
  let maybeStates := BV.complement (BV.bor statesWithProbability0 statesWithProbability1) in
  let result := repeat constGetZero numberOfStates in
  result <-
    (if BV.isDisjointFrom initialStates maybeStates || qualitative then
       ret (setVectorValues result maybeStates constHalf)
     else
       let submatrix := getSubmatrix transitionMatrix maybeStates nondeterministicChoiceIndices in
       let subNondeterministicChoiceIndices :=
         getConstrainedOffsetVector nondeterministicChoiceIndices maybeStates in
       let b := getConstrainedRowSumVector transitionMatrix maybeStates
                  nondeterministicChoiceIndices statesWithProbability1 (length submatrix) in
       let x := repeat constGetZero (BV.getNumberOfSetBits maybeStates) in
       x <- callSolveEquationSystem minimize submatrix x b subNondeterministicChoiceIndices ;;
       ret (setVectorValuesFrom result maybeStates x)) ;;
  let result := setVectorValues result statesWithProbability0 constGetZero in
  let result := setVectorValues result statesWithProbability1 constGetOne in
  scheduler <- computeExtremalScheduler minimize transitionMatrix nondeterministicChoiceIndices
                 result None None ;;
  ret (result, scheduler).

Variable model : Mdp T.

Definition checkUntil (minimize : bool) (phiStates psiStates : BitVector) (qualitative : bool)
    : M (Vec * TotalScheduler) :=
  computeUnboundedUntilProbabilities minimize (getTransitionMatrix model)
    (getNondeterministicChoiceIndices model) (getBackwardTransitions model)
    (getInitialStates model) phiStates psiStates qualitative.

Definition checkBoundedUntil (phiStates psiStates : BitVector) (stepBound : nat)
    (qualitative : bool) : M Vec :=
  let result := repeat constGetZero (getNumberOfStates model) in
  minimize <- top ;;
  let statesWithProbabilityGreater0 :=
    if minimize then
      performProbGreater0A (getTransitionMatrix model) (getNondeterministicChoiceIndices model)
        (getBackwardTransitions model) phiStates psiStates true stepBound
    else
      performProbGreater0E (getTransitionMatrix model) (getNondeterministicChoiceIndices model)
        (getBackwardTransitions model) phiStates psiStates true stepBound in
  if BV.isDisjointFrom (getInitialStates model) statesWithProbabilityGreater0 then
    ret (setVectorValues result statesWithProbabilityGreater0 constHalf)
  else
    let submatrix := getSubmatrix (getTransitionMatrix model) statesWithProbabilityGreater0
                       (getNondeterministicChoiceIndices model) in
    let subNondeterministicChoiceIndices :=
      getConstrainedOffsetVector (getNondeterministicChoiceIndices model)
        statesWithProbabilityGreater0 in
    let rightStatesInReducedSystem := BV.restrict psiStates statesWithProbabilityGreater0 in
    let submatrix :=
      makeRowsAbsorbing submatrix rightStatesInReducedSystem subNondeterministicChoiceIndices in
    let subresult := repeat constGetZero (BV.getNumberOfSetBits statesWithProbabilityGreater0) in
    let subresult := setVectorValues subresult rightStatesInReducedSystem constGetOne in
    minimize' <- top ;;
    subresult <- callPerformMatrixVectorMultiplication minimize' submatrix subresult
                   subNondeterministicChoiceIndices None stepBound ;;
    let result := setVectorValuesFrom result statesWithProbabilityGreater0 subresult in
    let result := setVectorValues result (BV.complement statesWithProbabilityGreater0)
                    constGetZero in
    ret result.

(** [formula.getBound()] is passed as [bound]. *)
Definition checkInstantaneousReward (bound : nat) (qualitative : bool) : M Vec :=
  if negb (hasStateRewards model) then
    throw (InvalidPropertyException missingStateRewardModelMessage)
  else
    let result := getStateRewardVector model in
    minimize <- top ;;
    callPerformMatrixVectorMultiplication minimize (getTransitionMatrix model) result
      (getNondeterministicChoiceIndices model) None bound.

Definition checkCumulativeReward (bound : nat) (qualitative : bool) : M Vec :=
  if negb (hasStateRewards model) && negb (hasTransitionRewards model) then
    throw (InvalidPropertyException missingRewardModelMessage)
  else
    let totalRewardVector :=
      if hasTransitionRewards model then
        let totalRewardVector :=
          getPointwiseProductRowSumVector (getTransitionMatrix model)
            (getTransitionRewardMatrix model) in
        if hasStateRewards model then
          addVectorsInPlace totalRewardVector (getStateRewardVector model)
        else totalRewardVector
      else getStateRewardVector model in
    let result :=
      if hasStateRewards model then getStateRewardVector model
      else repeat constGetZero (getNumberOfStates model) in
    minimize <- top ;;
    callPerformMatrixVectorMultiplication minimize (getTransitionMatrix model) result
      (getNondeterministicChoiceIndices model) (Some totalRewardVector) bound.

Definition checkReachabilityReward (minimize : bool) (targetStates : BitVector)
    (qualitative : bool) : M (Vec * TotalScheduler) :=
  if negb (hasStateRewards model || hasTransitionRewards model) then
    throw (InvalidPropertyException missingRewardModelMessage)
  else
    let trueStates := BV.full (getNumberOfStates model) in
    let infinityStates :=
      if minimize then
        performProb1A (getTransitionMatrix model) (getNondeterministicChoiceIndices model)
          (getBackwardTransitions model) trueStates targetStates
      else
        performProb1E (getTransitionMatrix model) (getNondeterministicChoiceIndices model)
          (getBackwardTransitions model) trueStates targetStates in
    let infinityStates := BV.complement infinityStates in
    let maybeStates := BV.band (BV.complement targetStates) (BV.complement infinityStates) in
    let result := repeat constGetZero (getNumberOfStates model) in
    result <-
      (if BV.isDisjointFrom (getInitialStates model) maybeStates then
         ret (setVectorValues result maybeStates constGetOne)
       else
         let submatrix := getSubmatrix (getTransitionMatrix model) maybeStates
                            (getNondeterministicChoiceIndices model) in
         let subNondeterministicChoiceIndices :=
           getConstrainedOffsetVector (getNondeterministicChoiceIndices model) maybeStates in
         let b := repeat constGetZero (length submatrix) in
         let b :=
           if hasTransitionRewards model then
             let pointwiseProductRowSumVector :=
               getPointwiseProductRowSumVector (getTransitionMatrix model)
                 (getTransitionRewardMatrix model) in
             let b := selectVectorValues b maybeStates (getNondeterministicChoiceIndices model)
                        pointwiseProductRowSumVector in
             if hasStateRewards model then
               let subStateRewards := repeat constGetZero (length b) in
               let subStateRewards :=
                 selectVectorValuesRepeatedly subStateRewards maybeStates
                   (getNondeterministicChoiceIndices model) (getStateRewardVector model) in
               addVectorsInPlace b subStateRewards
             else b
           else
             selectVectorValuesRepeatedly b maybeStates (getNondeterministicChoiceIndices model)
               (getStateRewardVector model) in
         let x := repeat constGetZero (BV.getNumberOfSetBits maybeStates) in
         x <- callSolveEquationSystem minimize submatrix x b subNondeterministicChoiceIndices ;;
         ret (setVectorValuesFrom result maybeStates x)) ;;
    let result := setVectorValues result targetStates constGetZero in
    let result := setVectorValues result infinityStates constGetInfinity in
    minimize' <- top ;;
    scheduler <- computeExtremalScheduler minimize' (getTransitionMatrix model)
                   (getNondeterministicChoiceIndices model) result
                   (if hasStateRewards model then Some (getStateRewardVector model) else None)
                   (if hasTransitionRewards model then Some (getTransitionRewardMatrix model)
                    else None) ;;
    ret (result, scheduler).

End SparseMdpPrctlModelChecker.

(* ================================================================== *)
(** ** Vocabulary of the scheduler properties *)
(* ================================================================== *)

Section SchedulerVocabulary.

Context {T : Type} `{VT : ValueType T}.

(** A row grouping for [numberOfStates] states over [rowCount] rows: one
    more entry than states, every state owns at least one row, and the last
    entry is the number of rows. *)
Definition wellFormedRowGrouping (rowGrouping : list nat) (numberOfStates rowCount : nat)
    : Prop :=
  length rowGrouping = S numberOfStates
  /\ (forall s, s < numberOfStates -> nth s rowGrouping 0 < nth (S s) rowGrouping 0)
  /\ nth numberOfStates rowGrouping 0 = rowCount.

(** Row groups of at most one row. *)
Definition atMostOneRowPerState (rowGrouping : list nat) : Prop :=
  forall s, nth (S s) rowGrouping 0 - nth s rowGrouping 0 <= 1.

(** The reward a row earns in one step, as [computeExtremalScheduler] adds
    it up from the supplied reward components. *)
Definition totalRewardValues (A : @SparseMatrix T) (rowGrouping : list nat)
    (stateRewards : option Vec) (rewardMatrix : option SparseMatrix) : option Vec :=
  match stateRewards, rewardMatrix with
  | None, None => None
  | _, Some R =>
      let total := getPointwiseProductRowSumVector A R in
      Some (match stateRewards with
            | Some rewards =>
                addVectorsInPlace total
                  (selectVectorValuesRepeatedly (repeat constGetZero (length total))
                     (BV.full (length rewards)) rowGrouping rewards)
            | None => total
            end)
  | Some rewards, None =>
      Some (selectVectorValuesRepeatedly (repeat constGetZero (length A))
              (BV.full (length rewards)) rowGrouping rewards)
  end.

(** The one-step lookahead value of every row: the product of the row with
    the result vector, plus the reward of the row when reward components
    are supplied. *)
Definition lookaheadValues (A : @SparseMatrix T) (rowGrouping : list nat) (result : Vec)
    (stateRewards : option Vec) (rewardMatrix : option SparseMatrix) : Vec :=
  match totalRewardValues A rowGrouping stateRewards rewardMatrix with
  | Some rewards => addVectorsInPlace (multiplyWithVector A result) rewards
  | None => multiplyWithVector A result
  end.

(** [a] is at least as good as [b] in the given direction. *)
Definition atLeastAsGood (minimize : bool) (a b : T) : Prop :=
  if minimize then vle a b else vle b a.

(** [a] is strictly better than [b] in the given direction. *)
Definition strictlyBetter (minimize : bool) (a b : T) : bool :=
  if minimize then vltb a b else vltb b a.

(** The scheduler picks, for every state, a local row index of that state
    whose value is extremal among the rows of the state, and every row
    before the chosen one is strictly worse. *)
Definition isExtremalScheduler (minimize : bool) (rowGrouping : list nat)
    (numberOfStates : nat) (values : Vec) (scheduler : TotalScheduler) : Prop :=
  length scheduler = numberOfStates
  /\ forall s, s < numberOfStates ->
       let first := nth s rowGrouping 0 in
       let count := nth (S s) rowGrouping 0 - first in
       let chosen := nth s scheduler 0 in
       chosen < count
       /\ (forall j, j < count ->
             atLeastAsGood minimize (nth (first + chosen) values constGetZero)
                                    (nth (first + j) values constGetZero))
       /\ (forall j, j < chosen ->
             strictlyBetter minimize (nth (first + chosen) values constGetZero)
                                     (nth (first + j) values constGetZero) = true).

(** The invariant of one pass of [reduceGroup] over the rows of a state:
    [best] is the row at [choice], none of the rows seen passes the filter
    against it, and it passes the filter against every row seen before
    [choice]. *)
Definition groupInvariant (filter : T -> T -> bool) (seen : @Vec T) (best : T)
    (choice : nat) : Prop :=
  choice < length seen
  /\ nth choice seen constGetZero = best
  /\ (forall j, j < length seen -> filter (nth j seen constGetZero) best = false)
  /\ (forall j, j < choice -> filter best (nth j seen constGetZero) = true).

End SchedulerVocabulary.

(* ================================================================== *)
(** ** Reference collaborators *)
(* ================================================================== *)

(** The graph routines and the equation solver live outside the files at
    hand.  The following instances are written from the specification and
    serve to run the checker on concrete models. *)

Section ReferenceCollaborators.

Context {T : Type} `{VT : ValueType T}.

(** Part of the graph routines below: the action rows of state [s]. *)
Definition choicesOf (A : @SparseMatrix T) (rowGrouping : list nat) (s : nat) : list Row :=
  slice A (nth s rowGrouping 0) (nth (S s) rowGrouping 0).

(** Part of the graph routines below: "existential choice semantics"
    ([universal = false]) and "universal choice semantics". *)
Definition overChoices (universal : bool) (p : @Row T -> bool) (rows : list Row) : bool :=
  if universal then forallb p rows else existsb p rows.

Definition hasSuccessorIn (X : BitVector) (row : @Row T) : bool :=
  existsb (fun e => BV.get X (fst e)) row.

Definition allSuccessorsIn (X : BitVector) (row : @Row T) : bool :=
  forallb (fun e => BV.get X (fst e)) row.

(** Part of [performProbGreater0]: one backward step from the set [X],
    giving the psi-states and the phi-states with a successor in [X] under
    some (all) of their choices. *)
Definition greater0Step (universal : bool) (A : @SparseMatrix T) (rowGrouping : list nat)
    (phiStates psiStates X : BitVector) : BitVector :=
  map (fun s => BV.get psiStates s
                || (BV.get phiStates s
                    && overChoices universal (hasSuccessorIn X) (choicesOf A rowGrouping s)))
      (seq 0 (BV.size phiStates)).

(** Modelled from the spec: [graph::performProbGreater0E] and
    [graph::performProbGreater0A] are missing; "backward fixed-point search
    from psiStates through phiStates-restricted predecessors", with
    existential resp. universal choice semantics, cut off after
    [maximalSteps] steps when [useStepBound] is set. *)
Definition performProbGreater0 (universal : bool) (A : @SparseMatrix T) (rowGrouping : list nat)
    (backwardTransitions : @SparseMatrix T) (phiStates psiStates : BitVector)
    (useStepBound : bool) (maximalSteps : nat) : BitVector :=
  Nat.iter (if useStepBound then maximalSteps else BV.size phiStates)
           (greater0Step universal A rowGrouping phiStates psiStates) psiStates.

(** Part of [performProb1]: one backward step of the inner search, where
    a choice counts when all its successors stay in [Y] and one of them is
    in [X]; [prob1Round] runs the inner search to its fixed point. *)
Definition prob1Step (universal : bool) (A : @SparseMatrix T) (rowGrouping : list nat)
    (phiStates psiStates Y X : BitVector) : BitVector :=
  map (fun s => BV.get psiStates s
                || (BV.get phiStates s
                    && overChoices universal
                         (fun row => allSuccessorsIn Y row && hasSuccessorIn X row)
                         (choicesOf A rowGrouping s)))
      (seq 0 (BV.size phiStates)).

Definition prob1Round (universal : bool) (A : @SparseMatrix T) (rowGrouping : list nat)
    (phiStates psiStates Y : BitVector) : BitVector :=
  Nat.iter (BV.size phiStates) (prob1Step universal A rowGrouping phiStates psiStates Y)
           psiStates.

(** Modelled from the spec: [graph::performProb1E] and
    [graph::performProb1A] are missing; the maximal set of states from
    which psi is reached with probability one under some (all) schedulers,
    as a nested backward fixed point starting from all states. *)
Definition performProb1 (universal : bool) (A : @SparseMatrix T) (rowGrouping : list nat)
    (backwardTransitions : @SparseMatrix T) (phiStates psiStates : BitVector) : BitVector :=
  Nat.iter (BV.size phiStates) (prob1Round universal A rowGrouping phiStates psiStates)
           (BV.full (BV.size phiStates)).

(** Modelled from the spec: [graph::performProb01Max] and
    [graph::performProb01Min] are missing; the probability-0 set is the
    complement of the states with positive probability, "with existential
    choice semantics when maximizing and universal choice semantics when
    minimizing". *)
Definition referenceProb01 (universal : bool) (A : @SparseMatrix T) (rowGrouping : list nat)
    (backwardTransitions : @SparseMatrix T) (phiStates psiStates : BitVector)
    : BitVector * BitVector :=
  (BV.complement (performProbGreater0 universal A rowGrouping backwardTransitions
                    phiStates psiStates false 0),
   performProb1 universal A rowGrouping backwardTransitions phiStates psiStates).

Definition referenceGraph : GraphUtility T := {|
  performProb01Min := referenceProb01 true;
  performProb01Max := referenceProb01 false;
  performProbGreater0A := performProbGreater0 true;
  performProbGreater0E := performProbGreater0 false;
  performProb1A := performProb1 true;
  performProb1E := performProb1 false
|}.

(** Part of [referenceSolver]: one synchronous sweep, "each sweep reduces
    all action-rows of a state to the extremal one" after the
    multiplication and the addition of the offset vector. *)
Definition sweep (minimize : bool) (A : @SparseMatrix T) (rowGroups : list nat)
    (b : option Vec) (x : Vec) : Vec :=
  let y := multiplyWithVector A x in
  let y := match b with Some b' => addVectorsInPlace y b' | None => y end in
  if minimize then fst (reduceVectorMin y x rowGroups [])
  else fst (reduceVectorMax y x rowGroups []).

(** Part of [referenceSolver]: the solver "owns its own
    iteration-limit/convergence semantics", an iteration limit and a
    convergence test on two successive iterates. *)
Record SolverSettings : Type := {
  maximalNumberOfIterations : nat;
  converged : @Vec T -> @Vec T -> bool
}.

(** Part of [referenceSolver]: sweeps until the convergence test passes or
    the iteration limit is reached. *)
Fixpoint valueIteration (settings : SolverSettings) (minimize : bool) (A : @SparseMatrix T)
    (rowGroups : list nat) (b : Vec) (fuel : nat) (x : Vec) : Vec :=
  match fuel with
  | 0 => x
  | S fuel' =>
      let x' := sweep minimize A rowGroups (Some b) x in
      if converged settings x x' then x'
      else valueIteration settings minimize A rowGroups b fuel' x'
  end.

(** Modelled from the spec: the solver backend is missing;
    [solveEquationSystem] "solves x = extremal_choice(submatrix x + b)" "to
    the solver's own convergence criterion" by value iteration, and
    [performMatrixVectorMultiplication] performs [n] "synchronous extremal
    reduction sweeps". *)
Definition referenceSolver (settings : SolverSettings) : NondeterministicLinearEquationSolver T := {|
  solveEquationSystem minimize A x b rowGroups :=
    valueIteration settings minimize A rowGroups b (maximalNumberOfIterations settings) x;
  performMatrixVectorMultiplication minimize A x rowGroups b n :=
    Nat.iter n (sweep minimize A rowGroups b) x
|}.

End ReferenceCollaborators.

(* ================================================================== *)
(** ** Rational values *)
(* ================================================================== *)

(** Exact rational numbers extended by infinity, the value type used to run
    the checker. *)
Inductive ExtendedRational : Type :=
| Finite (q : Q)
| Infinite.

Definition er_add (a b : ExtendedRational) : ExtendedRational :=
  match a, b with
  | Finite x, Finite y => Finite (Qred (x + y))
  | _, _ => Infinite
  end.

Definition er_mul (a b : ExtendedRational) : ExtendedRational :=
  match a, b with
  | Finite x, Finite y => Finite (Qred (x * y))
  | _, _ => Infinite
  end.

Definition er_ltb (a b : ExtendedRational) : bool :=
  match a, b with
  | Finite x, Finite y => negb (Qle_bool y x)
  | Finite _, Infinite => true
  | Infinite, _ => false
  end.

#[export] Instance ExtendedRationalValue : ValueType ExtendedRational := {|
  constGetZero := Finite 0%Q;
  constGetOne := Finite 1%Q;
  constGetInfinity := Infinite;
  constHalf := Finite (1 # 2)%Q;
  vadd := er_add;
  vmul := er_mul;
  vltb := er_ltb
|}.

(** A finite value in [0,1]. *)
Definition isProbability (v : ExtendedRational) : Prop :=
  match v with
  | Finite q => (0 <= q /\ q <= 1)%Q
  | Infinite => False
  end.

Definition isNonnegative (v : ExtendedRational) : Prop :=
  match v with
  | Finite q => (0 <= q)%Q
  | Infinite => False
  end.

Definition toQ (v : ExtendedRational) : Q :=
  match v with
  | Finite q => q
  | Infinite => 0%Q
  end.

(** The probability mass of a row. *)
Definition rowMass (row : @Row ExtendedRational) : Q :=
  fold_right (fun e acc => (toQ (snd e) + acc)%Q) 0%Q row.

(** "each row a sub-probability distribution over successor states" *)
Definition subStochasticRow (row : @Row ExtendedRational) : Prop :=
  Forall (fun e => isNonnegative (snd e)) row /\ (rowMass row <= 1)%Q.

Definition subStochastic (A : @SparseMatrix ExtendedRational) : Prop :=
  Forall subStochasticRow A.

(** Two iterates agree when every entry moved by less than [10^-6]. *)
Definition er_close (a b : ExtendedRational) : bool :=
  match a, b with
  | Finite x, Finite y => negb (Qle_bool (1 # 1000000) (Qabs (x - y)))
  | Infinite, Infinite => true
  | _, _ => false
  end.

Fixpoint er_converged (x y : list ExtendedRational) : bool :=
  match x, y with
  | a :: x', b :: y' => er_close a b && er_converged x' y'
  | [], [] => true
  | _, _ => false
  end.

Definition defaultSettings : @SolverSettings ExtendedRational :=
  {| maximalNumberOfIterations := 1000; converged := er_converged |}.

(* ================================================================== *)
(** ** Example models *)
(* ================================================================== *)

Definition q1 : ExtendedRational := Finite 1%Q.

(** The two-state model of the specification: state 0 offers action A (move
    to state 1) and action B (self-loop); state 1 is absorbing. *)
Definition twoStateMdp : Mdp ExtendedRational := {|
  getNumberOfStates := 2;
  getTransitionMatrix := [ [(1, q1)]; [(0, q1)]; [(1, q1)] ];
  getNondeterministicChoiceIndices := [0; 2; 3];
  getBackwardTransitions := [ [(1, q1)]; [(0, q1); (2, q1)] ];
  getInitialStates := [true; false];
  stateRewardVector := None;
  transitionRewardMatrix := None
|}.

Definition emptyState : @CheckerState ExtendedRational :=
  {| minimumOperatorStack := []; solverCalls := [] |}.

(** The checker state inside the scope of one operator. *)
Definition stateWithDirection (minimize : bool) : @CheckerState ExtendedRational :=
  {| minimumOperatorStack := [minimize]; solverCalls := [] |}.

(** The two-state model with a reward of one for every step spent in
    state 0. *)
Definition twoStateRewardMdp : Mdp ExtendedRational := {|
  getNumberOfStates := 2;
  getTransitionMatrix := [ [(1, q1)]; [(0, q1)]; [(1, q1)] ];
  getNondeterministicChoiceIndices := [0; 2; 3];
  getBackwardTransitions := [ [(1, q1)]; [(0, q1); (2, q1)] ];
  getInitialStates := [true; false];
  stateRewardVector := Some [q1; Finite 0%Q];
  transitionRewardMatrix := None
|}.

(** The same model started in the target state 1. *)
Definition twoStateRewardMdpFromTarget : Mdp ExtendedRational := {|
  getNumberOfStates := 2;
  getTransitionMatrix := [ [(1, q1)]; [(0, q1)]; [(1, q1)] ];
  getNondeterministicChoiceIndices := [0; 2; 3];
  getBackwardTransitions := [ [(1, q1)]; [(0, q1); (2, q1)] ];
  getInitialStates := [false; true];
  stateRewardVector := Some [q1; Finite 0%Q];
  transitionRewardMatrix := None
|}.

(** The two-state model with transition rewards only. *)
Definition twoStateTransitionRewardMdp : Mdp ExtendedRational :=
  withTransitionRewardMatrix twoStateMdp (Some [ [(1, q1)]; [(0, q1)]; [] ]).

(** Three states: state 0 chooses between reaching the target state 1 with
    probability 1/2 (else the sink state 2) and reaching it with
    probability 1/4; states 1 and 2 are absorbing. *)
Definition coinMdp : Mdp ExtendedRational := {|
  getNumberOfStates := 3;
  getTransitionMatrix :=
    [ [(1, Finite (1 # 2)); (2, Finite (1 # 2))];
      [(1, Finite (1 # 4)); (2, Finite (3 # 4))];
      [(1, q1)];
      [(2, q1)] ];
  getNondeterministicChoiceIndices := [0; 2; 3; 4];
  getBackwardTransitions :=
    [ []; [(0, Finite (1 # 2)); (1, Finite (1 # 4)); (2, q1)];
      [(0, Finite (1 # 2)); (1, Finite (3 # 4)); (3, q1)] ];
  getInitialStates := [true; false; false];
  stateRewardVector := None;
  transitionRewardMatrix := None
|}.

(** A deterministic chain: state 0 moves to state 1 or to the sink state 2
    with probability 1/2 each. *)
Definition chainMatrix : @SparseMatrix ExtendedRational :=
  [ [(1, Finite (1 # 2)); (2, Finite (1 # 2))]; [(1, q1)]; [(2, q1)] ].

(** State 0 can only loop; the target state 1 is out of its reach. *)
Definition unreachableTargetMdp : Mdp ExtendedRational := {|
  getNumberOfStates := 2;
  getTransitionMatrix := [ [(0, q1)]; [(1, q1)] ];
  getNondeterministicChoiceIndices := [0; 1; 2];
  getBackwardTransitions := [ [(0, q1)]; [(1, q1)] ];
  getInitialStates := [true; false];
  stateRewardVector := None;
  transitionRewardMatrix := None
|}.

Definition referenceSolverInstance : NondeterministicLinearEquationSolver ExtendedRational :=
  referenceSolver defaultSettings.

(** "Pmin=? [ true U psi ]" on the coin model: the subformula check reads
    the direction from the stack. *)
Definition untilOperator : AbstractNoBoundOperator ExtendedRational := {|
  isOptimalityOperator := true;
  isMinimumOperator := true;
  check := fun qualitative =>
    bind top (fun minimize =>
      bind (checkUntil (Graph := referenceGraph) (Solver := referenceSolverInstance)
              coinMdp minimize [true; true; true] [false; true; false] qualitative)
           (fun r => ret (fst r)))
|}.

(** "Rmin=? [ C<=1 ]" on the two-state model, which has no rewards. *)
Definition cumulativeRewardOperator : AbstractNoBoundOperator ExtendedRational := {|
  isOptimalityOperator := true;
  isMinimumOperator := true;
  check := fun qualitative =>
    checkCumulativeReward (Solver := referenceSolverInstance) twoStateMdp 1 qualitative
|}.

(* ================================================================== *)
(** ** SparseMdpPrctlModelChecker: the remaining entry points *)
(* ================================================================== *)

Section FormulaLevelChecks.

Context {T : Type} `{VT : ValueType T} {Graph : GraphUtility T}
        {Solver : NondeterministicLinearEquationSolver T}.

Local Open Scope checker_scope.

Variable model : Mdp T.

(** [checkNext(nextStates, qualitative)].  The call on the solver passes
    four arguments and leaves the additive vector and the number of sweeps
    to the defaults of the solver's declaration, no vector and one sweep. *)
Definition checkNext (nextStates : BitVector) (qualitative : bool) : M Vec :=
  let result := repeat constGetZero (getNumberOfStates model) in
  let result := setVectorValues result nextStates constGetOne in
  minimize <- top ;;
  callPerformMatrixVectorMultiplication minimize (getTransitionMatrix model) result
    (getNondeterministicChoiceIndices model) None 1.

(** The arguments of a call are evaluated one after the other in an order
    the language leaves open.  [firstArgumentFirst] picks the order of two
    arguments. *)
Definition evaluateBoth {A B : Type} (firstArgumentFirst : bool) (a : @M T A) (b : @M T B)
    : @M T (A * B) :=
  if firstArgumentFirst then
    x <- a ;; y <- b ;; ret (x, y)
  else
    y <- b ;; x <- a ;; ret (x, y).

(** The six orders of three arguments. *)
Inductive ArgumentOrder : Type :=
| Order123 | Order132 | Order213 | Order231 | Order312 | Order321.

Definition evaluateThree {A B C : Type} (order : ArgumentOrder) (a : @M T A) (b : @M T B)
    (c : @M T C) : @M T (A * B * C) :=
  match order with
  | Order123 => x <- a ;; y <- b ;; z <- c ;; ret (x, y, z)
  | Order132 => x <- a ;; z <- c ;; y <- b ;; ret (x, y, z)
  | Order213 => y <- b ;; x <- a ;; z <- c ;; ret (x, y, z)
  | Order231 => y <- b ;; z <- c ;; x <- a ;; ret (x, y, z)
  | Order312 => z <- c ;; x <- a ;; y <- b ;; ret (x, y, z)
  | Order321 => z <- c ;; y <- b ;; x <- a ;; ret (x, y, z)
  end.

(** What the checker reads of a [BoundedUntil] formula: the checks of the
    two subformulas on this checker, and the bound. *)
Record BoundedUntil : Type := {
  boundedUntilLeft : @M T BitVector;
  boundedUntilRight : @M T BitVector;
  boundedUntilBound : nat
}.

(** What the checker reads of an [Until] formula. *)
Record Until : Type := {
  untilLeft : @M T BitVector;
  untilRight : @M T BitVector
}.

(** What the checker reads of a [Next] or a [ReachabilityReward] formula:
    the check of the child. *)
Record UnaryPathFormula : Type := {
  childCheck : @M T BitVector
}.

(** [checkBoundedUntil(formula, qualitative)] *)
Definition checkBoundedUntilFormula (leftFirst : bool) (formula : BoundedUntil)
    (qualitative : bool) : M Vec :=
  arguments <- evaluateBoth leftFirst (boundedUntilLeft formula) (boundedUntilRight formula) ;;
  checkBoundedUntil model (fst arguments) (snd arguments) (boundedUntilBound formula)
    qualitative.

(** [checkNext(formula, qualitative)] *)
Definition checkNextFormula (formula : UnaryPathFormula) (qualitative : bool) : M Vec :=
  nextStates <- childCheck formula ;;
  checkNext nextStates qualitative.

(** [checkUntil(formula, qualitative)]: the direction on top of the stack
    and the checks of the two subformulas are the arguments, the first
    component of the pair is returned. *)
Definition checkUntilFormula (order : ArgumentOrder) (formula : Until) (qualitative : bool)
    : M Vec :=
  arguments <- evaluateThree order top (untilLeft formula) (untilRight formula) ;;
  result <- checkUntil model (fst (fst arguments)) (snd (fst arguments)) (snd arguments)
              qualitative ;;
  ret (fst result).

(** [checkReachabilityReward(formula, qualitative)] *)
Definition checkReachabilityRewardFormula (topFirst : bool) (formula : UnaryPathFormula)
    (qualitative : bool) : M Vec :=
  arguments <- evaluateBoth topFirst top (childCheck formula) ;;
  result <- checkReachabilityReward model (fst arguments) (snd arguments) qualitative ;;
  ret (fst result).

End FormulaLevelChecks.


(* ================================================================== *)
(** ** Comparison types and formulas *)
(* ================================================================== *)

Module Logic.

(** [enum class ComparisonType] *)
Inductive ComparisonType : Type :=
| Less
| LessEqual
| Greater
| GreaterEqual.

Definition ComparisonType_eqb (a b : ComparisonType) : bool :=
  match a, b with
  | Less, Less | LessEqual, LessEqual | Greater, Greater | GreaterEqual, GreaterEqual => true
  | _, _ => false
  end.

Definition isStrict (t : ComparisonType) : bool :=
  ComparisonType_eqb t Less || ComparisonType_eqb t Greater.

Definition isLowerBound (t : ComparisonType) : bool :=
  ComparisonType_eqb t Greater || ComparisonType_eqb t GreaterEqual.

Definition invert (t : ComparisonType) : ComparisonType :=
  match t with
  | Less => GreaterEqual
  | LessEqual => Greater
  | Greater => LessEqual
  | GreaterEqual => Less
  end.

Section Formulas.

Variable Threshold : Type.

(** The formula classes that the dispatcher of [AbstractModelChecker]
    tells apart by their [isXFormula()] tests, one constructor per class,
    with the parts the dispatcher reads: the flags [isAnd] and [isOr] of a
    binary formula, the flag [isNot] of a unary one, the bound of a
    probability operator, the subformulas, and the text an atomic
    expression prints as. *)
Inductive Formula : Type :=
| BinaryBooleanStateFormula (isAnd isOr : bool) (leftSubformula rightSubformula : Formula)
| UnaryBooleanStateFormula (isNot : bool) (subformula : Formula)
| BooleanLiteralFormula (value : bool)
| ProbabilityOperatorFormula (bound : option (ComparisonType * Threshold))
    (subformula : Formula)
| RewardOperatorFormula (subformula : Formula)
| ExpectedTimeOperatorFormula (subformula : Formula)
| LongRunAverageOperatorFormula (subformula : Formula)
| AtomicExpressionFormula (expression : string)
| AtomicLabelFormula (label : string)
| BoundedUntilFormula (leftSubformula rightSubformula : Formula)
| ConditionalPathFormula (leftSubformula rightSubformula : Formula)
| EventuallyFormula (subformula : Formula)
| GloballyFormula (subformula : Formula)
| UntilFormula (leftSubformula rightSubformula : Formula)
| NextFormula (subformula : Formula)
| CumulativeRewardFormula
| InstantaneousRewardFormula
| LongRunAverageRewardFormula.

(** [Formula::getTrueFormula()] *)
Definition getTrueFormula : Formula := BooleanLiteralFormula true.

Definition isEventuallyFormula (formula : Formula) : bool :=
  match formula with EventuallyFormula _ => true | _ => false end.

End Formulas.

Arguments BinaryBooleanStateFormula {Threshold} isAnd isOr leftSubformula rightSubformula.
Arguments UnaryBooleanStateFormula {Threshold} isNot subformula.
Arguments BooleanLiteralFormula {Threshold} value.
Arguments ProbabilityOperatorFormula {Threshold} bound subformula.
Arguments RewardOperatorFormula {Threshold} subformula.
Arguments ExpectedTimeOperatorFormula {Threshold} subformula.
Arguments LongRunAverageOperatorFormula {Threshold} subformula.
Arguments AtomicExpressionFormula {Threshold} expression.
Arguments AtomicLabelFormula {Threshold} label.
Arguments BoundedUntilFormula {Threshold} leftSubformula rightSubformula.
Arguments ConditionalPathFormula {Threshold} leftSubformula rightSubformula.
Arguments EventuallyFormula {Threshold} subformula.
Arguments GloballyFormula {Threshold} subformula.
Arguments UntilFormula {Threshold} leftSubformula rightSubformula.
Arguments NextFormula {Threshold} subformula.
Arguments CumulativeRewardFormula {Threshold}.
Arguments InstantaneousRewardFormula {Threshold}.
Arguments LongRunAverageRewardFormula {Threshold}.
Arguments getTrueFormula {Threshold}.
Arguments isEventuallyFormula {Threshold} formula.

End Logic.

(* ================================================================== *)
(** ** AbstractModelChecker: the dispatcher *)
(* ================================================================== *)

(** The first part of [src/modelchecker/AbstractModelChecker.cpp]: the
    dispatcher that recognises the class of a formula and hands it to the
    virtual methods of the checker.  A [CheckTask<FormulaType>] is kept as
    the task (its options) and the formula apart; [substituteFormula]
    keeps the task and exchanges the formula.  A chain of [isXFormula()]
    tests is a [match] on the class. *)
Module AbstractModelChecker.

Import Logic.

(** The exceptions of the dispatcher.  A message that prints a formula is
    kept as its fixed text and the formula. *)
Inductive Exception (Threshold : Type) : Type :=
| InvalidArgumentException (message : string) (formula : option (Formula Threshold))
| NotImplementedException (message : string) (formula : option (Formula Threshold))
| InvalidOperationException (message : string)
| InternalTypeErrorException (message : string)
| OtherException (what : string).

Arguments InvalidArgumentException {Threshold} message formula.
Arguments NotImplementedException {Threshold} message formula.
Arguments InvalidOperationException {Threshold} message.
Arguments InternalTypeErrorException {Threshold} message.
Arguments OtherException {Threshold} what.

Definition notAbleToCheckMessage : string :=
  "The model checker is not able to check the formula".
Definition invalidFormulaMessage : string := "The given formula is invalid.".
Definition notSupportedMessage : string :=
  "This model checker does not support the formula".
Definition expectedQualitativeResultsMessage : string := "Expected qualitative results.".
Definition expectedQualitativeResultMessage : string := "Expected qualitative result.".
Definition nonQuantitativeMessage : string :=
  "Unable to perform comparison operation on non-quantitative result.".

Definition isInvalidArgumentException {Threshold} (e : Exception Threshold) : bool :=
  match e with InvalidArgumentException _ _ => true | _ => false end.

Definition isNotImplementedException {Threshold} (e : Exception Threshold) : bool :=
  match e with NotImplementedException _ _ => true | _ => false end.

Section Dispatcher.

(** [Threshold] is the type of the threshold of a bound, [Qualitative] and
    [Quantitative] are what a qualitative and a quantitative check result
    hold, [State] is the state of the checker object. *)
Context {Threshold Qualitative Quantitative State : Type}.

(** [CheckResult]: qualitative or quantitative. *)
Inductive CheckResult : Type :=
| QualitativeCheckResult (truthValues : Qualitative)
| QuantitativeCheckResult (values : Quantitative).

Definition isQualitative (result : CheckResult) : bool :=
  match result with QualitativeCheckResult _ => true | _ => false end.

Definition isQuantitative (result : CheckResult) : bool :=
  match result with QuantitativeCheckResult _ => true | _ => false end.

(** The operations of the result classes the dispatcher calls: [&=], [|=]
    and [complement] on qualitative results, [compareAgainstBound] on
    quantitative ones. *)
Class ResultOperations : Type := {
  conjunction : Qualitative -> Qualitative -> Qualitative;
  disjunction : Qualitative -> Qualitative -> Qualitative;
  complement : Qualitative -> Qualitative;
  compareAgainstBound : ComparisonType -> Threshold -> Quantitative -> CheckResult
}.

(** What a task carries beside its formula. *)
Record CheckTask : Type := {
  taskComputeProbabilities : bool;
  taskComputeRewards : bool;
  taskBound : option (ComparisonType * Threshold)
}.

Definition isBoundSet (checkTask : CheckTask) : bool :=
  match taskBound checkTask with Some _ => true | None => false end.

Inductive Result (A : Type) : Type :=
| Returned (a : A)
| Thrown (e : Exception Threshold).

Arguments Returned {A} a.
Arguments Thrown {A} e.

(** A method of the checker: it runs on the state of the checker object
    and returns or throws; the state it leaves stays when it throws. *)
Definition MC (A : Type) : Type := State -> Result A * State.

Definition mcRet {A} (a : A) : MC A := fun st => (Returned a, st).

Definition mcBind {A B} (m : MC A) (k : A -> MC B) : MC B :=
  fun st =>
    match m st with
    | (Returned a, st') => k a st'
    | (Thrown e, st') => (Thrown e, st')
    end.

Definition mcThrow {A} (e : Exception Threshold) : MC A := fun st => (Thrown e, st).

(** [STORM_LOG_THROW(condition, exception, message)] *)
Definition STORM_LOG_THROW (condition : bool) (e : Exception Threshold) : MC unit :=
  if condition then mcRet tt else mcThrow e.

(** The virtual methods the dispatcher ends in.  [canHandle] is pure
    virtual; the others have the bodies of [baseMethods]. *)
Record Methods : Type := {
  canHandle : Formula Threshold -> bool;
  computeBoundedUntilProbabilities : CheckTask -> Formula Threshold -> MC CheckResult;
  computeConditionalProbabilities : CheckTask -> Formula Threshold -> MC CheckResult;
  computeGloballyProbabilities : CheckTask -> Formula Threshold -> MC CheckResult;
  computeNextProbabilities : CheckTask -> Formula Threshold -> MC CheckResult;
  computeUntilProbabilities : CheckTask -> Formula Threshold -> MC CheckResult;
  computeCumulativeRewards : CheckTask -> Formula Threshold -> MC CheckResult;
  computeInstantaneousRewards : CheckTask -> Formula Threshold -> MC CheckResult;
  computeReachabilityRewards : CheckTask -> Formula Threshold -> MC CheckResult;
  computeLongRunAverageRewards : CheckTask -> Formula Threshold -> MC CheckResult;
  computeLongRunAverageProbabilities : CheckTask -> Formula Threshold -> MC CheckResult;
  computeExpectedTimes : CheckTask -> Formula Threshold -> MC CheckResult;
  checkAtomicLabelFormula : CheckTask -> Formula Threshold -> MC CheckResult;
  checkBooleanLiteralFormula : CheckTask -> Formula Threshold -> MC CheckResult
}.

(** The body each of these methods has in [AbstractModelChecker]. *)
Definition notImplemented (checkTask : CheckTask) (formula : Formula Threshold)
    : MC CheckResult :=
  mcThrow (NotImplementedException notSupportedMessage (Some formula)).

(** A checker that overrides none of them. *)
Definition baseMethods (canHandle' : Formula Threshold -> bool) : Methods := {|
  canHandle := canHandle';
  computeBoundedUntilProbabilities := notImplemented;
  computeConditionalProbabilities := notImplemented;
  computeGloballyProbabilities := notImplemented;
  computeNextProbabilities := notImplemented;
  computeUntilProbabilities := notImplemented;
  computeCumulativeRewards := notImplemented;
  computeInstantaneousRewards := notImplemented;
  computeReachabilityRewards := notImplemented;
  computeLongRunAverageRewards := notImplemented;
  computeLongRunAverageProbabilities := notImplemented;
  computeExpectedTimes := notImplemented;
  checkAtomicLabelFormula := notImplemented;
  checkBooleanLiteralFormula := notImplemented
|}.

Context {Operations : ResultOperations}.

(** The tests of the formula classes whose answers the file does not
    show: [isStateFormula()], [isPathFormula()],
    [isValidProbabilityPathFormula()] and [isValidRewardPathFormula()]. *)
Variable isStateFormula : Formula Threshold -> bool.
Variable isPathFormula : Formula Threshold -> bool.
Variable isValidProbabilityPathFormula : Formula Threshold -> bool.
Variable isValidRewardPathFormula : Formula Threshold -> bool.

Variable self : Methods.

Notation "x <- m ;; k" := (mcBind m (fun x => k))
  (at level 61, m at next level, right associativity).
Notation "m ;;; k" := (mcBind m (fun _ => k))
  (at level 61, right associativity).

Definition computeEventuallyProbabilities (checkTask : CheckTask)
    (subformula : Formula Threshold) : MC CheckResult :=
  let newFormula := UntilFormula getTrueFormula subformula in
  computeUntilProbabilities self checkTask newFormula.

Definition computeProbabilities (checkTask : CheckTask) (pathFormula : Formula Threshold)
    : MC CheckResult :=
  match pathFormula with
  | BoundedUntilFormula _ _ => computeBoundedUntilProbabilities self checkTask pathFormula
  | ConditionalPathFormula _ _ => computeConditionalProbabilities self checkTask pathFormula
  | EventuallyFormula subformula => computeEventuallyProbabilities checkTask subformula
  | GloballyFormula _ => computeGloballyProbabilities self checkTask pathFormula
  | UntilFormula _ _ => computeUntilProbabilities self checkTask pathFormula
  | NextFormula _ => computeNextProbabilities self checkTask pathFormula
  | _ => mcThrow (InvalidArgumentException invalidFormulaMessage (Some pathFormula))
  end.

Definition computeRewards (checkTask : CheckTask) (rewardPathFormula : Formula Threshold)
    : MC CheckResult :=
  match rewardPathFormula with
  | CumulativeRewardFormula => computeCumulativeRewards self checkTask rewardPathFormula
  | InstantaneousRewardFormula =>
      computeInstantaneousRewards self checkTask rewardPathFormula
  | EventuallyFormula _ => computeReachabilityRewards self checkTask rewardPathFormula
  | LongRunAverageRewardFormula =>
      computeLongRunAverageRewards self checkTask rewardPathFormula
  | _ => mcThrow (InvalidArgumentException invalidFormulaMessage (Some rewardPathFormula))
  end.

Definition checkAtomicExpressionFormula (checkTask : CheckTask) (expression : string)
    : MC CheckResult :=
  checkAtomicLabelFormula self checkTask (AtomicLabelFormula expression).

(** The comparison of a result with a bound, as the four operator methods
    end: without a bound the result is returned as it is. *)
Definition compareIfBound (bound : option (ComparisonType * Threshold))
    (result : CheckResult) : MC CheckResult :=
  match bound with
  | Some (comparisonType, threshold) =>
      STORM_LOG_THROW (isQuantitative result)
        (InvalidOperationException nonQuantitativeMessage) ;;;
      match result with
      | QuantitativeCheckResult values =>
          mcRet (compareAgainstBound comparisonType threshold values)
      | QualitativeCheckResult _ => mcRet result
      end
  | None => mcRet result
  end.

(** The bound is the one of the formula ([stateFormula.hasBound()]). *)
Definition checkProbabilityOperatorFormula (checkTask : CheckTask)
    (bound : option (ComparisonType * Threshold)) (subformula : Formula Threshold)
    : MC CheckResult :=
  STORM_LOG_THROW (isValidProbabilityPathFormula subformula)
    (InvalidArgumentException invalidFormulaMessage None) ;;;
  result <- computeProbabilities checkTask subformula ;;
  compareIfBound bound result.

(** The bound is the one of the task ([checkTask.isBoundSet()]), here and
    in the two methods that follow. *)
Definition checkRewardOperatorFormula (checkTask : CheckTask)
    (subformula : Formula Threshold) : MC CheckResult :=
  STORM_LOG_THROW (isValidRewardPathFormula subformula)
    (InvalidArgumentException invalidFormulaMessage None) ;;;
  result <- computeRewards checkTask subformula ;;
  compareIfBound (taskBound checkTask) result.

Definition checkExpectedTimeOperatorFormula (checkTask : CheckTask)
    (subformula : Formula Threshold) : MC CheckResult :=
  STORM_LOG_THROW (isEventuallyFormula subformula)
    (InvalidArgumentException invalidFormulaMessage None) ;;;
  result <- computeExpectedTimes self checkTask subformula ;;
  compareIfBound (taskBound checkTask) result.

Definition checkLongRunAverageOperatorFormula (checkTask : CheckTask)
    (subformula : Formula Threshold) : MC CheckResult :=
  STORM_LOG_THROW (isStateFormula subformula)
    (InvalidArgumentException invalidFormulaMessage None) ;;;
  result <- computeLongRunAverageProbabilities self checkTask subformula ;;
  compareIfBound (taskBound checkTask) result.

(** The methods below call [this->check] on subformulas; [check] is the
    function they call. *)
Definition checkBinaryBooleanStateFormula
    (check : CheckTask -> Formula Threshold -> MC CheckResult) (checkTask : CheckTask)
    (isAnd isOr : bool) (leftSubformula rightSubformula : Formula Threshold)
    : MC CheckResult :=
  STORM_LOG_THROW (isStateFormula leftSubformula && isStateFormula rightSubformula)
    (InvalidArgumentException invalidFormulaMessage None) ;;;
  leftResult <- check checkTask leftSubformula ;;
  rightResult <- check checkTask rightSubformula ;;
  STORM_LOG_THROW (isQualitative leftResult && isQualitative rightResult)
    (InternalTypeErrorException expectedQualitativeResultsMessage) ;;;
  match leftResult, rightResult with
  | QualitativeCheckResult l, QualitativeCheckResult r =>
      if isAnd then mcRet (QualitativeCheckResult (conjunction l r))
      else if isOr then mcRet (QualitativeCheckResult (disjunction l r))
      else mcThrow (InvalidArgumentException invalidFormulaMessage
                      (Some (BinaryBooleanStateFormula isAnd isOr
                               leftSubformula rightSubformula)))
  | _, _ => mcRet leftResult
  end.

Definition checkUnaryBooleanStateFormula
    (check : CheckTask -> Formula Threshold -> MC CheckResult) (checkTask : CheckTask)
    (isNot : bool) (subformula : Formula Threshold) : MC CheckResult :=
  subResult <- check checkTask subformula ;;
  STORM_LOG_THROW (isQualitative subResult)
    (InternalTypeErrorException expectedQualitativeResultMessage) ;;;
  match subResult with
  | QualitativeCheckResult r =>
      if isNot then mcRet (QualitativeCheckResult (complement r))
      else mcThrow (InvalidArgumentException invalidFormulaMessage
                      (Some (UnaryBooleanStateFormula isNot subformula)))
  | _ => mcRet subResult
  end.

Definition checkStateFormula
    (check : CheckTask -> Formula Threshold -> MC CheckResult) (checkTask : CheckTask)
    (stateFormula : Formula Threshold) : MC CheckResult :=
  match stateFormula with
  | BinaryBooleanStateFormula isAnd isOr leftSubformula rightSubformula =>
      checkBinaryBooleanStateFormula check checkTask isAnd isOr
        leftSubformula rightSubformula
  | UnaryBooleanStateFormula isNot subformula =>
      checkUnaryBooleanStateFormula check checkTask isNot subformula
  | BooleanLiteralFormula _ => checkBooleanLiteralFormula self checkTask stateFormula
  | ProbabilityOperatorFormula bound subformula =>
      checkProbabilityOperatorFormula checkTask bound subformula
  | RewardOperatorFormula subformula => checkRewardOperatorFormula checkTask subformula
  | ExpectedTimeOperatorFormula subformula =>
      checkExpectedTimeOperatorFormula checkTask subformula
  | LongRunAverageOperatorFormula subformula =>
      checkLongRunAverageOperatorFormula checkTask subformula
  | AtomicExpressionFormula expression => checkAtomicExpressionFormula checkTask expression
  | AtomicLabelFormula _ => checkAtomicLabelFormula self checkTask stateFormula
  | _ => mcThrow (InvalidArgumentException invalidFormulaMessage (Some stateFormula))
  end.

Fixpoint check (checkTask : CheckTask) (formula : Formula Threshold) {struct formula}
    : MC CheckResult :=
  STORM_LOG_THROW (canHandle self formula)
    (InvalidArgumentException notAbleToCheckMessage (Some formula)) ;;;
  if isStateFormula formula then
    checkStateFormula check checkTask formula
  else if isPathFormula formula then
    if taskComputeProbabilities checkTask then computeProbabilities checkTask formula
    else if taskComputeRewards checkTask then computeRewards checkTask formula
    else mcThrow (InvalidArgumentException invalidFormulaMessage (Some formula))
  else mcThrow (InvalidArgumentException invalidFormulaMessage (Some formula)).

(** *** Vocabulary for the Boolean connectives *)

(** The formulas built from labels, atomic expressions and literals with
    [And], [Or] and [Not], every part of which is a state formula that the
    checker can handle. *)
Fixpoint isHandledBooleanCombination (formula : Formula Threshold) : bool :=
  canHandle self formula && isStateFormula formula &&
  match formula with
  | BinaryBooleanStateFormula isAnd isOr leftSubformula rightSubformula =>
      (isAnd || isOr) && isHandledBooleanCombination leftSubformula
      && isHandledBooleanCombination rightSubformula
  | UnaryBooleanStateFormula isNot subformula =>
      isNot && isHandledBooleanCombination subformula
  | BooleanLiteralFormula _ | AtomicExpressionFormula _ | AtomicLabelFormula _ => true
  | _ => false
  end.

(** The truth values of such a formula over the truth values of its
    leaves: [And] before [Or], as the method tests them. *)
Fixpoint truthValuesOf (ofLabel : string -> Qualitative) (ofLiteral : bool -> Qualitative)
    (formula : Formula Threshold) : Qualitative :=
  match formula with
  | BinaryBooleanStateFormula isAnd isOr leftSubformula rightSubformula =>
      if isAnd
      then conjunction (truthValuesOf ofLabel ofLiteral leftSubformula)
             (truthValuesOf ofLabel ofLiteral rightSubformula)
      else disjunction (truthValuesOf ofLabel ofLiteral leftSubformula)
             (truthValuesOf ofLabel ofLiteral rightSubformula)
  | UnaryBooleanStateFormula _ subformula =>
      complement (truthValuesOf ofLabel ofLiteral subformula)
  | BooleanLiteralFormula value => ofLiteral value
  | AtomicExpressionFormula expression => ofLabel expression
  | AtomicLabelFormula label => ofLabel label
  | _ => ofLiteral false
  end.

(** What a returned result of [check] presupposes of a formula: the
    checker can handle it, and where it is a Boolean connective, the
    connective is one the method knows, the operands of a binary one are
    state formulas, and the operands satisfy the same. *)
Fixpoint isAcceptedByCheck (formula : Formula Threshold) : bool :=
  canHandle self formula &&
  match formula with
  | BinaryBooleanStateFormula isAnd isOr leftSubformula rightSubformula =>
      (isAnd || isOr) && isStateFormula leftSubformula && isStateFormula rightSubformula
      && isAcceptedByCheck leftSubformula && isAcceptedByCheck rightSubformula
  | UnaryBooleanStateFormula isNot subformula => isNot && isAcceptedByCheck subformula
  | _ => true
  end.

Definition isBooleanConnective (formula : Formula Threshold) : bool :=
  match formula with
  | BinaryBooleanStateFormula _ _ _ _ | UnaryBooleanStateFormula _ _ => true
  | _ => false
  end.

End Dispatcher.

Arguments Returned {Threshold A} a.
Arguments Thrown {Threshold A} e.

(** *** A small checker *)

(** A checker over the labels of one state: a qualitative result is a
    truth value, a quantitative one a number, and the state of the checker
    is the list of the labels it has been asked for, latest first. *)
Definition exampleOperations : @ResultOperations nat bool nat := {|
  conjunction := andb;
  disjunction := orb;
  complement := negb;
  compareAgainstBound := fun comparisonType threshold values =>
    QualitativeCheckResult
      (match comparisonType with
       | Less => values <? threshold
       | LessEqual => values <=? threshold
       | Greater => threshold <? values
       | GreaterEqual => threshold <=? values
       end)
|}.

Definition exampleLabelling (label : string) : bool := String.eqb label "a".

Definition exampleMethods : @Methods nat bool nat (list string) := {|
  canHandle := fun _ => true;
  computeBoundedUntilProbabilities := notImplemented;
  computeConditionalProbabilities := notImplemented;
  computeGloballyProbabilities := notImplemented;
  computeNextProbabilities := notImplemented;
  computeUntilProbabilities := fun _ _ => mcRet (QuantitativeCheckResult 1);
  computeCumulativeRewards := notImplemented;
  computeInstantaneousRewards := notImplemented;
  computeReachabilityRewards := notImplemented;
  computeLongRunAverageRewards := notImplemented;
  computeLongRunAverageProbabilities := notImplemented;
  computeExpectedTimes := notImplemented;
  checkAtomicLabelFormula := fun _ formula st =>
    match formula with
    | AtomicLabelFormula label =>
        (Returned (QualitativeCheckResult (exampleLabelling label)), label :: st)
    | _ => (Thrown (OtherException "not a label"), st)
    end;
  checkBooleanLiteralFormula := fun _ formula st =>
    match formula with
    | BooleanLiteralFormula value => (Returned (QualitativeCheckResult value), st)
    | _ => (Thrown (OtherException "not a literal"), st)
    end
|}.

(** The classes derived from [StateFormula]. *)
Definition exampleIsStateFormula (formula : Formula nat) : bool :=
  match formula with
  | BinaryBooleanStateFormula _ _ _ _ | UnaryBooleanStateFormula _ _
  | BooleanLiteralFormula _ | ProbabilityOperatorFormula _ _ | RewardOperatorFormula _
  | ExpectedTimeOperatorFormula _ | LongRunAverageOperatorFormula _
  | AtomicExpressionFormula _ | AtomicLabelFormula _ => true
  | _ => false
  end.

Definition exampleIsPathFormula (formula : Formula nat) : bool :=
  negb (exampleIsStateFormula formula).

Definition exampleIsValidProbabilityPathFormula (formula : Formula nat) : bool :=
  match formula with
  | BoundedUntilFormula _ _ | ConditionalPathFormula _ _ | EventuallyFormula _
  | GloballyFormula _ | UntilFormula _ _ | NextFormula _ => true
  | _ => false
  end.

Definition exampleIsValidRewardPathFormula (formula : Formula nat) : bool :=
  match formula with
  | CumulativeRewardFormula | InstantaneousRewardFormula | EventuallyFormula _
  | LongRunAverageRewardFormula => true
  | _ => false
  end.

Definition exampleCheck : @CheckTask nat -> Formula nat -> @MC nat (list string) CheckResult :=
  check (Operations := exampleOperations) exampleIsStateFormula exampleIsPathFormula
    exampleIsValidProbabilityPathFormula exampleIsValidRewardPathFormula exampleMethods.

Definition exampleTask : @CheckTask nat := {|
  taskComputeProbabilities := true;
  taskComputeRewards := false;
  taskBound := None
|}.

(** [a & !(b | true)] *)
Definition exampleFormula : Formula nat :=
  BinaryBooleanStateFormula true false (AtomicLabelFormula "a")
    (UnaryBooleanStateFormula true
       (BinaryBooleanStateFormula false true (AtomicExpressionFormula "b")
          (BooleanLiteralFormula true))).

(** [P>=1 [ F a ]] *)
Definition exampleEventually : Formula nat :=
  ProbabilityOperatorFormula (Some (GreaterEqual, 1))
    (EventuallyFormula (AtomicLabelFormula "a")).

End AbstractModelChecker.

(* ================================================================== *)
(** * Properties *)
(* ================================================================== *)

Unset Implicit Arguments.

(** ** Bit vectors and vectors *)

Lemma get_complement_true (bv : BitVector) (s : nat) :
  BV.get (BV.complement bv) s = true -> BV.get bv s = false /\ s < BV.size bv.
Proof.
  unfold BV.get, BV.complement, BV.size. revert s.
  induction bv as [|b bv IH]; intros [|s] H; simpl in *; try discriminate.
  - split; [destruct b; [discriminate | reflexivity] | lia].
  - destruct (IH s H) as [H1 H2]. split; [assumption | lia].
Qed.

Lemma get_complement_false (bv : BitVector) (s : nat) :
  s < BV.size bv -> BV.get bv s = false -> BV.get (BV.complement bv) s = true.
Proof.
  unfold BV.get, BV.complement, BV.size. revert s.
  induction bv as [|b bv IH]; intros [|s] L H; simpl in *; try lia.
  - subst b. reflexivity.
  - apply IH; [lia | assumption].
Qed.

Lemma get_bor_false (a b : BitVector) (s : nat) :
  s < BV.size (BV.bor a b) -> BV.get (BV.bor a b) s = false ->
  BV.get a s = false /\ BV.get b s = false.
Proof.
  unfold BV.get, BV.size. revert b s.
  induction a as [|x a IH]; intros [|y b] [|s] L H; simpl in *; try lia.
  - apply orb_false_elim in H. assumption.
  - apply IH; [lia | assumption].
Qed.

Lemma isDisjointFrom_get (a b : BitVector) :
  BV.isDisjointFrom a b = true ->
  forall s, BV.get a s = true -> BV.get b s = false.
Proof.
  unfold BV.get. revert b.
  induction a as [|x a IH]; intros [|y b] H [|s] Ha; simpl in *;
    try reflexivity; try discriminate.
  - subst x. apply andb_true_iff in H. destruct y; [destruct H; discriminate | reflexivity].
  - apply andb_true_iff in H. now apply IH.
Qed.

Lemma get_band_true (a b : BitVector) (s : nat) :
  BV.get (BV.band a b) s = true -> BV.get a s = true /\ BV.get b s = true.
Proof.
  unfold BV.get. revert b s.
  induction a as [|x a IH]; intros [|y b] [|s] H; simpl in *; try discriminate.
  - apply andb_true_iff in H. assumption.
  - apply IH. assumption.
Qed.

Section VectorFacts.

Context {T : Type} `{VT : ValueType T}.

Lemma setVectorValues_length (v : @Vec T) (p : BitVector) (x : T) :
  length (setVectorValues v p x) = length v.
Proof.
  revert p. induction v as [|a v IH]; intros [|b p]; simpl; try reflexivity.
  now rewrite IH.
Qed.

Lemma setVectorValues_set (v : @Vec T) (p : BitVector) (x d : T) (s : nat) :
  s < length v -> BV.get p s = true -> nth s (setVectorValues v p x) d = x.
Proof.
  unfold BV.get. revert p s.
  induction v as [|a v IH]; intros [|b p] [|s] L H; simpl in *; try lia; try discriminate.
  - now subst b.
  - apply IH; [lia | assumption].
Qed.

Lemma setVectorValues_unset (v : @Vec T) (p : BitVector) (x d : T) (s : nat) :
  BV.get p s = false -> nth s (setVectorValues v p x) d = nth s v d.
Proof.
  unfold BV.get. revert p s.
  induction v as [|a v IH]; intros [|b p] [|s] H; simpl in *; try reflexivity.
  - now subst b.
  - now apply IH.
Qed.

Lemma setVectorValuesFrom_length (v : @Vec T) (p : BitVector) (xs : Vec) :
  length (setVectorValuesFrom v p xs) = length v.
Proof.
  revert p xs. induction v as [|a v IH]; intros [|[|] p] xs; simpl; try reflexivity.
  - now rewrite IH.
  - now rewrite IH.
Qed.

Lemma setVectorValuesFrom_unset (v : @Vec T) (p : BitVector) (xs : Vec) (d : T) (s : nat) :
  BV.get p s = false -> nth s (setVectorValuesFrom v p xs) d = nth s v d.
Proof.
  unfold BV.get. revert p xs s.
  induction v as [|a v IH]; intros [|[|] p] xs [|s] H; simpl in *;
    try reflexivity; try discriminate.
  - now apply IH.
  - now apply IH.
Qed.

Lemma nth_repeat_zero (n s : nat) : nth s (repeat (constGetZero : T) n) constGetZero = constGetZero.
Proof.
  revert s. induction n as [|n IH]; intros [|s]; simpl; auto.
Qed.

End VectorFacts.

(** ** Error paths and the direction stack *)

Section ErrorPaths.

Context {T : Type} `{VT : ValueType T} {Graph : GraphUtility T}
        {Solver : NondeterministicLinearEquationSolver T}.

(** C3. A P/R operator without bound that declares neither min nor max
    makes [checkNoBoundOperator] throw InvalidArgument at once: whatever
    the subformula check would do, the outcome is the exception and the
    checker state (direction stack and solver requests) is the one the
    call started in, so nothing was pushed, checked or solved and no
    vector is produced. *)
Theorem C3_no_direction_invalid_argument
    (isMinimum : bool) (subformulaCheck : bool -> @M T (@Vec T)) (st : CheckerState) :
  let formula := {| isOptimalityOperator := false;
                    isMinimumOperator := isMinimum;
                    check := subformulaCheck |} in
  checkNoBoundOperator formula st
    = (Throws (InvalidArgumentException optimalityMessage), st)
  /\ isInvalidArgument (InvalidArgumentException optimalityMessage) = true.
Proof.
  split; reflexivity.
Qed.

(** C2 (as amended).  With a declared direction, [checkNoBoundOperator]
    pushes the indicator and runs the subformula check.  When that check
    returns, the indicator is popped: the call returns the same vector and
    the stack below the top the check left; a check that leaves the stack
    as it found it gives back the depth the call started with.  When the
    check throws, the exception leaves [checkNoBoundOperator] without the
    pop: the state is the one the check left, with the pushed indicator
    still on the stack.  Without a declared direction nothing is pushed. *)
Theorem C2_push_pop_balanced_on_return
    (formula : AbstractNoBoundOperator T) (st : CheckerState) :
  (isOptimalityOperator formula = false ->
     depth (snd (checkNoBoundOperator formula st)) = depth st)
  /\ (isOptimalityOperator formula = true ->
      forall (v : Vec) (st' : CheckerState),
        check formula false (pushed (isMinimumOperator formula) st) = (Returns v, st') ->
        minimumOperatorStack st' = isMinimumOperator formula :: minimumOperatorStack st ->
        checkNoBoundOperator formula st
          = (Returns v, {| minimumOperatorStack := minimumOperatorStack st;
                           solverCalls := solverCalls st' |})
        /\ depth (snd (checkNoBoundOperator formula st)) = depth st)
  /\ (isOptimalityOperator formula = true ->
      forall (e : Exception) (st' : CheckerState),
        check formula false (pushed (isMinimumOperator formula) st) = (Throws e, st') ->
        checkNoBoundOperator formula st = (Throws e, st')).
Proof.
  unfold checkNoBoundOperator, depth, bind, push, pop, ret, throw, pushed.
  split; [|split].
  - intros Hopt. rewrite Hopt. reflexivity.
  - intros Hopt v st' Hcheck Hstack. rewrite Hopt. cbn [negb].
    rewrite Hcheck. cbv beta iota. rewrite Hstack. split; reflexivity.
  - intros Hopt e st' Hcheck. rewrite Hopt. cbn [negb].
    rewrite Hcheck. reflexivity.
Qed.

Variable model : Mdp T.

(** C1. On a model with neither state rewards nor transition rewards the
    cumulative-reward solver and the reachability-reward solver throw the
    "Missing reward model" exception: the outcome carries no vector, and
    the checker state is untouched, so no solver request was made. *)
Theorem C1_missing_reward_model
    (bound : nat) (minimize : bool) (targetStates : BitVector) (qualitative : bool)
    (st : CheckerState) :
  stateRewardVector model = None ->
  transitionRewardMatrix model = None ->
  checkCumulativeReward model bound qualitative st
    = (Throws (InvalidPropertyException missingRewardModelMessage), st)
  /\ checkReachabilityReward model minimize targetStates qualitative st
    = (Throws (InvalidPropertyException missingRewardModelMessage), st)
  /\ isMissingRewardModel (InvalidPropertyException missingRewardModelMessage) = true.
Proof.
  intros Hs Ht.
  unfold checkCumulativeReward, checkReachabilityReward, hasStateRewards, hasTransitionRewards.
  rewrite Hs, Ht. repeat split; reflexivity.
Qed.

End ErrorPaths.

(** ** The reward solvers *)

Section RewardSolvers.

Context {T : Type} `{VT : ValueType T} {Graph : GraphUtility T}
        {Solver : NondeterministicLinearEquationSolver T}.

Variable model : Mdp T.

(** C10. [checkInstantaneousReward] asks for the state-reward vector only:
    without one it throws the "Missing (state-based) reward model"
    exception before anything else happens, also when the model carries a
    transition-reward matrix; and replacing the transition-reward matrix
    of a model by any other (or none) never changes its outcome. *)
Theorem C10_instantaneous_reward_needs_state_rewards
    (rewardMatrix : option SparseMatrix) (bound : nat) (qualitative : bool)
    (st : CheckerState) :
  checkInstantaneousReward (withTransitionRewardMatrix model rewardMatrix) bound qualitative st
    = checkInstantaneousReward model bound qualitative st
  /\ (stateRewardVector model = None ->
      checkInstantaneousReward (withTransitionRewardMatrix model rewardMatrix) bound qualitative st
        = (Throws (InvalidPropertyException missingStateRewardModelMessage), st)).
Proof.
  split.
  - reflexivity.
  - intros Hs. unfold checkInstantaneousReward, hasStateRewards. simpl.
    rewrite Hs. reflexivity.
Qed.

Lemma computeExtremalScheduler_returns (minimize : bool) (A : SparseMatrix) (groups : list nat)
    (result : Vec) (stateRewards : option Vec) (rewardMatrix : option SparseMatrix)
    (st : CheckerState) :
  groups <> [] ->
  exists scheduler : TotalScheduler,
    computeExtremalScheduler minimize A groups result stateRewards rewardMatrix st
      = (Returns scheduler, logged (GmmxxMatrixVectorMultiplication A result 1) st).
Proof.
  intros Hgroups. destruct groups as [|g groups]; [contradiction|].
  unfold computeExtremalScheduler, callGmmxxPerformMatrixVectorMultiplication, bind, logCall, ret.
  eexists. reflexivity.
Qed.


(** [computeExtremalScheduler] throws at once or returns after the one
    multiplication. *)
Lemma computeExtremalScheduler_cases (minimize : bool) (A : SparseMatrix) (groups : list nat)
    (result : Vec) (stateRewards : option Vec) (rewardMatrix : option SparseMatrix)
    (st : CheckerState) :
  computeExtremalScheduler minimize A groups result stateRewards rewardMatrix st
    = (Throws LengthError, st)
  \/ exists scheduler : TotalScheduler,
       computeExtremalScheduler minimize A groups result stateRewards rewardMatrix st
         = (Returns scheduler, logged (GmmxxMatrixVectorMultiplication A result 1) st).
Proof.
  destruct groups as [|g groups].
  - left. reflexivity.
  - right. apply computeExtremalScheduler_returns. discriminate.
Qed.

(** C9. [checkReachabilityReward] does not look at its qualitative flag:
    both values of the flag give the same outcome and the same checker
    state.  On a model with a reward component and a non-empty index
    vector, with a non-empty direction stack, the call returns; the
    equation solver is asked exactly when the initial states meet the
    maybe-states, and otherwise every maybe-state holds the value one. *)
Theorem C9_reachability_reward_ignores_qualitative
    (minimize : bool) (targetStates : BitVector) (st : CheckerState) :
  checkReachabilityReward model minimize targetStates true st
    = checkReachabilityReward model minimize targetStates false st
  /\ (hasStateRewards model || hasTransitionRewards model = true ->
      getNondeterministicChoiceIndices model <> [] ->
      forall (m : bool) (rest : list bool) (qualitative : bool),
      minimumOperatorStack st = m :: rest ->
      let A := getTransitionMatrix model in
      let groups := getNondeterministicChoiceIndices model in
      let trueStates := BV.full (getNumberOfStates model) in
      let infinityStates :=
        BV.complement
          (if minimize
           then performProb1A A groups (getBackwardTransitions model) trueStates targetStates
           else performProb1E A groups (getBackwardTransitions model) trueStates targetStates) in
      let maybeStates := BV.band (BV.complement targetStates) (BV.complement infinityStates) in
      exists (result : Vec) (scheduler : TotalScheduler),
        if BV.isDisjointFrom (getInitialStates model) maybeStates then
          checkReachabilityReward model minimize targetStates qualitative st
            = (Returns (result, scheduler),
               logged (GmmxxMatrixVectorMultiplication A result 1) st)
          /\ forall s, s < getNumberOfStates model -> BV.get maybeStates s = true ->
                       nth s result constGetZero = constGetOne
        else
          exists (x b : Vec),
            checkReachabilityReward model minimize targetStates qualitative st
              = (Returns (result, scheduler),
                 logged (GmmxxMatrixVectorMultiplication A result 1)
                   (logged (SolveEquationSystem minimize
                              (getSubmatrix A maybeStates groups) x b
                              (getConstrainedOffsetVector groups maybeStates)) st))).
Proof.
  split; [reflexivity|].
  intros Hrew Hgroups m rest qualitative Est A groups trueStates infinityStates maybeStates.
  unfold checkReachabilityReward.
  rewrite Hrew. cbn [negb].
  fold A groups trueStates. fold infinityStates. fold maybeStates.
  destruct (BV.isDisjointFrom (getInitialStates model) maybeStates) eqn:Edis.
  - set (result := setVectorValues
                     (setVectorValues
                        (setVectorValues (repeat constGetZero (getNumberOfStates model))
                           maybeStates constGetOne) targetStates constGetZero)
                     infinityStates constGetInfinity).
    destruct (computeExtremalScheduler_returns m A groups result
                (if hasStateRewards model then Some (getStateRewardVector model) else None)
                (if hasTransitionRewards model then Some (getTransitionRewardMatrix model)
                 else None) st Hgroups) as [scheduler Hs].
    exists result, scheduler. split.
    + unfold bind, ret, top. rewrite Est. cbv beta iota. fold result. rewrite Hs. reflexivity.
    + intros s Ls Hm. unfold result.
      destruct (get_band_true _ _ _ Hm) as [Ht Hi].
      apply get_complement_true in Ht. apply get_complement_true in Hi.
      rewrite setVectorValues_unset by apply Hi.
      rewrite setVectorValues_unset by apply Ht.
      apply setVectorValues_set; [now rewrite repeat_length | exact Hm].
  - unfold bind, ret, top, callSolveEquationSystem, logCall, bind, ret.
    cbv beta iota. cbn [minimumOperatorStack logged]. rewrite Est. cbv beta iota.
    match goal with
    | |- context [computeExtremalScheduler ?mm ?AA ?gg ?rr ?sr ?tr ?ss] =>
        destruct (computeExtremalScheduler_returns mm AA gg rr sr tr ss Hgroups)
          as [scheduler Hs];
        exists rr, scheduler
    end.
    eexists. eexists. rewrite Hs. reflexivity.
Qed.

End RewardSolvers.

(** ** Until probabilities *)

Section OrderFacts.

Context {T : Type} {VT : ValueType T} {OVT : @OrderedValueType T VT}.

Lemma vle_refl (a : T) : vle a a.
Proof. apply vltb_irrefl. Qed.

Lemma vle_trans (a b c : T) : vle a b -> vle b c -> vle a c.
Proof.
  unfold vle. intros Hab Hbc.
  destruct (vltb c a) eqn:E; [|reflexivity].
  rewrite (vltb_cotrans c b a E Hbc) in Hab. discriminate.
Qed.

Lemma zero_inUnitInterval : inUnitInterval (constGetZero : T).
Proof.
  split; [apply vle_refl|].
  apply vle_trans with constHalf; [apply zero_le_half | apply half_le_one].
Qed.

Lemma half_inUnitInterval : inUnitInterval (constHalf : T).
Proof. split; [apply zero_le_half | apply half_le_one]. Qed.

Lemma one_inUnitInterval : inUnitInterval (constGetOne : T).
Proof.
  split; [|apply vle_refl].
  apply vle_trans with constHalf; [apply zero_le_half | apply half_le_one].
Qed.

Lemma inUnitIntervalb_spec (v : T) : inUnitIntervalb v = true <-> inUnitInterval v.
Proof.
  unfold inUnitIntervalb, inUnitInterval, vle.
  rewrite andb_true_iff, !negb_true_iff. tauto.
Qed.

Lemma forallb_inUnitIntervalb (l : list T) :
  forallb inUnitIntervalb l = true <-> Forall inUnitInterval l.
Proof.
  rewrite forallb_forall, Forall_forall.
  split; intros Hall x Hx; apply inUnitIntervalb_spec, Hall, Hx.
Qed.

End OrderFacts.

Section VectorInvariants.

Context {T : Type} `{VT : ValueType T}.

Variable P : T -> Prop.

Lemma repeat_Forall (x : T) (n : nat) : P x -> Forall P (repeat x n).
Proof. intros Hx. induction n; simpl; constructor; assumption. Qed.

Lemma setVectorValues_Forall (v : @Vec T) (p : BitVector) (x : T) :
  P x -> Forall P v -> Forall P (setVectorValues v p x).
Proof.
  intros Hx. revert p.
  induction v as [|a v IH]; intros [|b p] Hv; simpl; try assumption.
  inversion Hv; subst. constructor; [destruct b; assumption | now apply IH].
Qed.

Lemma setVectorValuesFrom_Forall (v : @Vec T) (p : BitVector) (xs : Vec) :
  P constGetZero -> Forall P v -> Forall P xs -> Forall P (setVectorValuesFrom v p xs).
Proof.
  intros H0. revert p xs.
  induction v as [|a v IH]; intros [|[|] p] xs Hv Hxs; simpl; try assumption;
    inversion Hv; subst.
  - constructor.
    + destruct xs; simpl; [assumption | now inversion Hxs].
    + apply IH; [assumption | destruct xs; simpl; [constructor | now inversion Hxs]].
  - constructor; [assumption | now apply IH].
Qed.

End VectorInvariants.

Section UntilProbabilities.

Context {T : Type} `{VT : ValueType T} {Graph : GraphUtility T}
        {Solver : NondeterministicLinearEquationSolver T}.

(** C4. When the qualitative flag is set or no initial state is a
    maybe-state, [computeUnboundedUntilProbabilities], on a non-empty
    index vector, returns without a request to the equation solver it was
    given: the only request recorded is the one-step multiplication of the
    scheduler extraction on its local Gmmxx solver.  Every maybe-state of
    the returned vector holds the literal 0.5. *)
Theorem C4_qualitative_sentinel
    (minimize : bool) (A : SparseMatrix) (groups : list nat) (backward : SparseMatrix)
    (initialStates phiStates psiStates : BitVector) (qualitative : bool) (st : CheckerState) :
  let statesWithProbability01 :=
    if minimize then performProb01Min A groups backward phiStates psiStates
    else performProb01Max A groups backward phiStates psiStates in
  let maybeStates :=
    BV.complement (BV.bor (fst statesWithProbability01) (snd statesWithProbability01)) in
  BV.isDisjointFrom initialStates maybeStates || qualitative = true ->
  groups <> [] ->
  exists (result : Vec) (scheduler : TotalScheduler),
    computeUnboundedUntilProbabilities minimize A groups backward initialStates phiStates
      psiStates qualitative st
      = (Returns (result, scheduler), logged (GmmxxMatrixVectorMultiplication A result 1) st)
    /\ isNondeterministicSolverCall (GmmxxMatrixVectorMultiplication A result 1) = false
    /\ forall s, s < BV.size phiStates -> BV.get maybeStates s = true ->
                 nth s result constGetZero = constHalf.
Proof.
  intros s01 maybeStates Hskip Hgroups.
  unfold computeUnboundedUntilProbabilities.
  fold s01. fold maybeStates. rewrite Hskip.
  set (result := setVectorValues
                   (setVectorValues
                      (setVectorValues (repeat constGetZero (BV.size phiStates))
                         maybeStates constHalf) (fst s01) constGetZero)
                   (snd s01) constGetOne).
  destruct (computeExtremalScheduler_returns minimize A groups result None None st Hgroups)
    as [scheduler Hs].
  exists result, scheduler. split; [|split].
  - unfold bind, ret. cbv beta iota. fold result. rewrite Hs. reflexivity.
  - reflexivity.
  - intros s Ls Hm. unfold result.
    destruct (get_complement_true _ _ Hm) as [Hor Lor].
    destruct (get_bor_false _ _ _ Lor Hor) as [H0 H1].
    rewrite setVectorValues_unset by exact H1.
    rewrite setVectorValues_unset by exact H0.
    apply setVectorValues_set; [now rewrite repeat_length | exact Hm].
Qed.

(** The assembly of the result vector of
    [computeUnboundedUntilProbabilities], for a non-empty index vector,
    disjoint known sets and, where the solver is asked, a solver answer in
    the unit interval. *)
Lemma computeUnboundedUntilProbabilities_assembly {OVT : @OrderedValueType T VT}
    (minimize : bool) (A : SparseMatrix) (groups : list nat) (backward : SparseMatrix)
    (initialStates phiStates psiStates : BitVector) (qualitative : bool) (st : CheckerState) :
  let statesWithProbability01 :=
    if minimize then performProb01Min A groups backward phiStates psiStates
    else performProb01Max A groups backward phiStates psiStates in
  let statesWithProbability0 := fst statesWithProbability01 in
  let statesWithProbability1 := snd statesWithProbability01 in
  let maybeStates := BV.complement (BV.bor statesWithProbability0 statesWithProbability1) in
  let submatrix := getSubmatrix A maybeStates groups in
  groups <> [] ->
  (forall s, BV.get statesWithProbability0 s = true ->
             BV.get statesWithProbability1 s = false) ->
  (BV.isDisjointFrom initialStates maybeStates || qualitative = false ->
   Forall inUnitInterval
     (solveEquationSystem minimize submatrix
        (repeat constGetZero (BV.getNumberOfSetBits maybeStates))
        (getConstrainedRowSumVector A maybeStates groups statesWithProbability1
           (length submatrix))
        (getConstrainedOffsetVector groups maybeStates))) ->
  exists (result : Vec) (scheduler : TotalScheduler) (st' : CheckerState),
    computeUnboundedUntilProbabilities minimize A groups backward initialStates phiStates
      psiStates qualitative st = (Returns (result, scheduler), st')
    /\ length result = BV.size phiStates
    /\ forall s, s < BV.size phiStates ->
         inUnitInterval (nth s result constGetZero)
         /\ (BV.get statesWithProbability0 s = true -> nth s result constGetZero = constGetZero)
         /\ (BV.get statesWithProbability1 s = true -> nth s result constGetZero = constGetOne).
Proof.
  intros s01 prob0 prob1 maybeStates submatrix Hgroups Hdisjoint Hsolver.
  unfold computeUnboundedUntilProbabilities.
  fold s01. fold prob0 prob1. fold maybeStates. fold submatrix.
  set (zeros := repeat constGetZero (BV.size phiStates)).
  assert (Hzeros : Forall inUnitInterval zeros)
    by (apply repeat_Forall, zero_inUnitInterval).
  assert (Hgeneric : forall inner : Vec,
             Forall inUnitInterval inner -> length inner = BV.size phiStates ->
             let result := setVectorValues (setVectorValues inner prob0 constGetZero)
                             prob1 constGetOne in
             length result = BV.size phiStates
             /\ forall s, s < BV.size phiStates ->
                  inUnitInterval (nth s result constGetZero)
                  /\ (BV.get prob0 s = true -> nth s result constGetZero = constGetZero)
                  /\ (BV.get prob1 s = true -> nth s result constGetZero = constGetOne)).
  { intros inner Hin Hlen result.
    assert (Hres : Forall inUnitInterval result).
    { unfold result. apply setVectorValues_Forall; [apply one_inUnitInterval|].
      apply setVectorValues_Forall; [apply zero_inUnitInterval | exact Hin]. }
    assert (Hl : length result = BV.size phiStates)
      by (unfold result; now rewrite !setVectorValues_length).
    split; [exact Hl|]. intros s Ls. split; [|split].
    - rewrite Forall_forall in Hres. apply Hres, nth_In. now rewrite Hl.
    - intros H0. unfold result.
      rewrite setVectorValues_unset by (now apply Hdisjoint).
      apply setVectorValues_set; [now rewrite Hlen | exact H0].
    - intros H1. unfold result.
      apply setVectorValues_set; [now rewrite setVectorValues_length, Hlen | exact H1]. }
  destruct (BV.isDisjointFrom initialStates maybeStates || qualitative).
  - clear Hsolver. set (inner := setVectorValues zeros maybeStates constHalf).
    destruct (Hgeneric inner) as [Hl Hs].
    { apply setVectorValues_Forall; [apply half_inUnitInterval | exact Hzeros]. }
    { unfold inner, zeros. now rewrite setVectorValues_length, repeat_length. }
    unfold bind, ret. cbv beta iota. fold inner.
    match goal with
    | |- context [computeExtremalScheduler ?mm ?AA ?gg ?rr ?sr ?tr] =>
      destruct (computeExtremalScheduler_returns mm AA gg rr sr tr st Hgroups)
        as [scheduler Hsched]
    end.
    eexists. exists scheduler. eexists. split; [|split; [exact Hl | exact Hs]].
    rewrite Hsched. reflexivity.
  - specialize (Hsolver eq_refl).
    match type of Hsolver with Forall _ ?x =>
      set (inner := setVectorValuesFrom zeros maybeStates x) end.
    destruct (Hgeneric inner) as [Hl Hs].
    { apply setVectorValuesFrom_Forall;
        [apply zero_inUnitInterval | exact Hzeros | exact Hsolver]. }
    { unfold inner, zeros. now rewrite setVectorValuesFrom_length, repeat_length. }
    unfold bind, ret, callSolveEquationSystem, logCall, bind, ret. cbv beta iota. fold inner.
    match goal with
    | |- context [computeExtremalScheduler ?mm ?AA ?gg ?rr ?sr ?tr] =>
      destruct (computeExtremalScheduler_returns mm AA gg rr sr tr
                  (logged (SolveEquationSystem minimize submatrix
                             (repeat constGetZero (BV.getNumberOfSetBits maybeStates))
                             (getConstrainedRowSumVector A maybeStates groups prob1
                                (length submatrix))
                             (getConstrainedOffsetVector groups maybeStates)) st) Hgroups)
        as [scheduler Hsched]
    end.
    eexists. exists scheduler. eexists. split; [|split; [exact Hl | exact Hs]].
    rewrite Hsched. reflexivity.
Qed.


(** C5. On a non-empty index vector [computeUnboundedUntilProbabilities]
    returns a vector with one entry per state; every entry lies in [0,1],
    the states of the computed probability-0 set hold zero and the states
    of the computed probability-1 set hold one.  The two sets come from
    the graph routine and are taken to be disjoint; where the equation
    solver is asked (an initial state is a maybe-state and the check is
    not qualitative), the values on the maybe-states are its answer, taken
    to lie in [0,1]. *)
Theorem C5_until_result_in_unit_interval {OVT : @OrderedValueType T VT}
    (minimize : bool) (A : SparseMatrix) (groups : list nat) (backward : SparseMatrix)
    (initialStates phiStates psiStates : BitVector) (qualitative : bool) (st : CheckerState) :
  let statesWithProbability01 :=
    if minimize then performProb01Min A groups backward phiStates psiStates
    else performProb01Max A groups backward phiStates psiStates in
  let statesWithProbability0 := fst statesWithProbability01 in
  let statesWithProbability1 := snd statesWithProbability01 in
  let maybeStates := BV.complement (BV.bor statesWithProbability0 statesWithProbability1) in
  let submatrix := getSubmatrix A maybeStates groups in
  groups <> [] ->
  BV.isDisjointFrom statesWithProbability0 statesWithProbability1 = true ->
  (BV.isDisjointFrom initialStates maybeStates || qualitative = false ->
   forallb inUnitIntervalb
     (solveEquationSystem minimize submatrix
        (repeat constGetZero (BV.getNumberOfSetBits maybeStates))
        (getConstrainedRowSumVector A maybeStates groups statesWithProbability1
           (length submatrix))
        (getConstrainedOffsetVector groups maybeStates)) = true) ->
  exists (result : Vec) (scheduler : TotalScheduler) (st' : CheckerState),
    computeUnboundedUntilProbabilities minimize A groups backward initialStates phiStates
      psiStates qualitative st = (Returns (result, scheduler), st')
    /\ length result = BV.size phiStates
    /\ forall s, s < BV.size phiStates ->
         inUnitInterval (nth s result constGetZero)
         /\ (BV.get statesWithProbability0 s = true -> nth s result constGetZero = constGetZero)
         /\ (BV.get statesWithProbability1 s = true -> nth s result constGetZero = constGetOne).
Proof.
  intros s01 prob0 prob1 maybeStates submatrix Hgroups Hdisjoint Hsolver.
  apply computeUnboundedUntilProbabilities_assembly.
  - exact Hgroups.
  - apply isDisjointFrom_get. exact Hdisjoint.
  - intros Hsolve. apply forallb_inUnitIntervalb. apply Hsolver. exact Hsolve.
Qed.

End UntilProbabilities.

(** ** Bounded until *)

Section BoundedUntil.

Context {T : Type} `{VT : ValueType T} {Graph : GraphUtility T}
        {Solver : NondeterministicLinearEquationSolver T}.

Variable model : Mdp T.

(** C6 (as amended).  With the direction [m] on top of the stack,
    [checkBoundedUntil] computes the states with positive probability of
    reaching psi within [stepBound] steps, universally when minimizing and
    existentially when maximizing.  When an initial state is among them,
    it sends one request to the solver: [stepBound] sweeps in direction [m]
    on the submatrix of the kept states with the rows of the psi-states
    made absorbing, started from the vector that is one on the psi-states
    and zero elsewhere; the kept states receive the solver's values and
    every discarded state receives zero.  When no initial state is among
    them, no request is sent: the kept states receive 0.5 and the others
    zero. *)
Theorem C6_bounded_until_sweeps
    (phiStates psiStates : BitVector) (stepBound : nat) (qualitative : bool)
    (st : CheckerState) (m : bool) (rest : list bool) :
  minimumOperatorStack st = m :: rest ->
  let A := getTransitionMatrix model in
  let groups := getNondeterministicChoiceIndices model in
  let kept :=
    if m then performProbGreater0A A groups (getBackwardTransitions model)
                phiStates psiStates true stepBound
    else performProbGreater0E A groups (getBackwardTransitions model)
           phiStates psiStates true stepBound in
  let subGroups := getConstrainedOffsetVector groups kept in
  let psiKept := BV.restrict psiStates kept in
  let submatrix := makeRowsAbsorbing (getSubmatrix A kept groups) psiKept subGroups in
  let seed := setVectorValues (repeat constGetZero (BV.getNumberOfSetBits kept))
                psiKept constGetOne in
  let zeros := repeat constGetZero (getNumberOfStates model) in
  if BV.isDisjointFrom (getInitialStates model) kept then
    checkBoundedUntil model phiStates psiStates stepBound qualitative st
      = (Returns (setVectorValues zeros kept constHalf), st)
  else
    exists result : Vec,
      checkBoundedUntil model phiStates psiStates stepBound qualitative st
        = (Returns result,
           logged (PerformMatrixVectorMultiplication m submatrix seed subGroups None stepBound)
                  st)
      /\ result = setVectorValues
                    (setVectorValuesFrom zeros kept
                       (performMatrixVectorMultiplication m submatrix seed subGroups None
                          stepBound))
                    (BV.complement kept) constGetZero
      /\ (forall k, k < BV.getNumberOfSetBits kept ->
            nth k seed constGetZero
              = if BV.get psiKept k then constGetOne else constGetZero)
      /\ (forall s, BV.get kept s = false -> nth s result constGetZero = constGetZero).
Proof.
  intros Est A groups kept subGroups psiKept submatrix seed zeros.
  unfold checkBoundedUntil, bind, top. rewrite Est. cbv beta iota.
  fold A groups. fold kept.
  destruct (BV.isDisjointFrom (getInitialStates model) kept).
  - reflexivity.
  - fold subGroups psiKept. fold submatrix. fold seed. fold zeros. rewrite Est.
    eexists. split; [reflexivity|]. split; [reflexivity|]. split.
    + intros k Lk. destruct (BV.get psiKept k) eqn:E.
      * apply setVectorValues_set; [now rewrite repeat_length | exact E].
      * unfold seed. rewrite setVectorValues_unset by exact E. apply nth_repeat_zero.
    + intros s Hs.
      destruct (BV.get (BV.complement kept) s) eqn:E.
      * destruct (Nat.lt_ge_cases s (getNumberOfStates model)) as [L|L].
        -- apply setVectorValues_set;
             [unfold zeros; now rewrite setVectorValuesFrom_length, repeat_length | exact E].
        -- apply nth_overflow. unfold zeros.
           now rewrite setVectorValues_length, setVectorValuesFrom_length, repeat_length.
      * rewrite setVectorValues_unset by exact E.
        rewrite setVectorValuesFrom_unset by exact Hs. apply nth_repeat_zero.
Qed.

End BoundedUntil.

(** ** Reduction over row groups and the extremal scheduler *)

Section Slices.

Context {A : Type}.

Lemma slice_length (l : list A) (from to : nat) :
  to <= length l -> length (slice l from to) = to - from.
Proof.
  intros H. unfold slice. rewrite length_firstn, length_skipn. lia.
Qed.

Lemma slice_nth (l : list A) (from to j : nat) (d : A) :
  j < to - from -> nth j (slice l from to) d = nth (from + j) l d.
Proof.
  intros H. unfold slice. rewrite nth_firstn.
  destruct (Nat.ltb_spec j (to - from)) as [_|L]; [|lia].
  apply nth_skipn.
Qed.

Lemma overwritePrefix_same_length (v w : list A) :
  length v = length w -> overwritePrefix v w = w.
Proof.
  intros H. unfold overwritePrefix.
  rewrite firstn_all2 by lia. rewrite skipn_all2 by lia. apply app_nil_r.
Qed.

End Slices.

Section Reduction.

Context {T : Type} `{VT : ValueType T}.

Variable filter : T -> T -> bool.
Hypothesis filter_irrefl : forall a, filter a a = false.
Hypothesis filter_trans :
  forall a b c, filter a b = true -> filter b c = true -> filter a c = true.
Hypothesis filter_cotrans :
  forall a b c, filter a c = true -> filter a b = false -> filter b c = true.

Lemma reduceGroup_invariant (rows seen : Vec) (best : T) (choice : nat) :
  groupInvariant filter seen best choice ->
  groupInvariant filter (seen ++ rows)
    (fst (reduceGroup filter best choice (length seen) rows))
    (snd (reduceGroup filter best choice (length seen) rows)).
Proof.
  revert seen best choice.
  induction rows as [|v rows IH]; intros seen best choice Inv.
  - simpl. rewrite app_nil_r. exact Inv.
  - destruct Inv as (Hc & Hn & Hall & Hbefore).
    assert (Hlen : length (seen ++ [v]) = S (length seen))
      by (rewrite length_app; simpl; lia).
    replace (seen ++ v :: rows) with ((seen ++ [v]) ++ rows)
      by (rewrite <- app_assoc; reflexivity).
    simpl. destruct (filter v best) eqn:E; rewrite <- Hlen; apply IH; repeat split.
    + lia.
    + rewrite app_nth2 by lia. now rewrite Nat.sub_diag.
    + intros j Lj. rewrite Hlen in Lj.
      destruct (Nat.eq_dec j (length seen)) as [->|Nj].
      * rewrite app_nth2 by lia. rewrite Nat.sub_diag. simpl. apply filter_irrefl.
      * rewrite app_nth1 by lia.
        destruct (filter (nth j seen constGetZero) v) eqn:F; [|reflexivity].
        rewrite <- (Hall j ltac:(lia)). symmetry. now apply filter_trans with v.
    + intros j Lj. rewrite app_nth1 by lia.
      destruct (filter v (nth j seen constGetZero)) eqn:F; [reflexivity|].
      rewrite <- (Hall j Lj). now apply filter_cotrans with v.
    + lia.
    + rewrite app_nth1 by lia. exact Hn.
    + intros j Lj. rewrite Hlen in Lj.
      destruct (Nat.eq_dec j (length seen)) as [->|Nj].
      * rewrite app_nth2 by lia. rewrite Nat.sub_diag. simpl. exact E.
      * rewrite app_nth1 by lia. apply Hall. lia.
    + intros j Lj. rewrite app_nth1 by lia. now apply Hbefore.
Qed.

(** The rows of a non-empty group reduce to an extremal row, the first one
    among equals. *)
Lemma reduceState_invariant (source : Vec) (rowGrouping : list nat) (s : nat) :
  nth s rowGrouping 0 < nth (S s) rowGrouping 0 ->
  nth (S s) rowGrouping 0 <= length source ->
  groupInvariant filter (slice source (nth s rowGrouping 0) (nth (S s) rowGrouping 0))
    (fst (reduceState filter source rowGrouping s))
    (snd (reduceState filter source rowGrouping s)).
Proof.
  intros Hne Hin. unfold reduceState.
  pose proof (slice_length source (nth s rowGrouping 0) (nth (S s) rowGrouping 0) Hin) as Hl.
  destruct (slice source (nth s rowGrouping 0) (nth (S s) rowGrouping 0)) as [|v rows].
  - simpl in Hl. lia.
  - apply (reduceGroup_invariant rows [v] v 0).
    repeat split; simpl; try lia.
    intros [|j] Lj; [apply filter_irrefl | lia].
Qed.

End Reduction.

Section ExtremalScheduler.

Context {T : Type} {VT : ValueType T} {OVT : @OrderedValueType T VT} {Graph : GraphUtility T}
        {Solver : NondeterministicLinearEquationSolver T}.

Lemma addVectorsInPlace_length (target summand : @Vec T) :
  length (addVectorsInPlace target summand) = length target.
Proof.
  revert summand. induction target as [|t target IH]; intros [|s summand]; simpl; auto.
Qed.

Lemma lookaheadValues_length (A : SparseMatrix) (groups : list nat) (result : Vec)
    (stateRewards : option Vec) (rewardMatrix : option SparseMatrix) :
  length (lookaheadValues A groups result stateRewards rewardMatrix) = length A.
Proof.
  unfold lookaheadValues, multiplyWithVector.
  destruct (totalRewardValues A groups stateRewards rewardMatrix);
    [rewrite addVectorsInPlace_length|]; apply length_map.
Qed.

Lemma grouping_monotone (groups : list nat) (n rows : nat) :
  wellFormedRowGrouping groups n rows ->
  forall s, s < n -> nth (S s) groups 0 <= rows.
Proof.
  intros (Hlen & Hinc & Hlast) s Ls.
  assert (Hup : forall k, s + k < n -> nth (S s) groups 0 <= nth (S (s + k)) groups 0).
  { induction k as [|k IH]; intros Lk.
    - rewrite Nat.add_0_r. lia.
    - specialize (IH ltac:(lia)). specialize (Hinc (s + S k) Lk).
      replace (s + S k) with (S (s + k)) in * by lia. lia. }
  specialize (Hup (n - 1 - s) ltac:(lia)).
  replace (S (s + (n - 1 - s))) with n in Hup by lia. lia.
Qed.

Lemma strictlyBetter_irrefl (minimize : bool) (a : T) : strictlyBetter minimize a a = false.
Proof. destruct minimize; apply vltb_irrefl. Qed.

Lemma strictlyBetter_trans (minimize : bool) (a b c : T) :
  strictlyBetter minimize a b = true -> strictlyBetter minimize b c = true ->
  strictlyBetter minimize a c = true.
Proof.
  destruct minimize; simpl; intros H1 H2.
  - now apply vltb_trans with b.
  - now apply vltb_trans with b.
Qed.

Lemma strictlyBetter_cotrans (minimize : bool) (a b c : T) :
  strictlyBetter minimize a c = true -> strictlyBetter minimize a b = false ->
  strictlyBetter minimize b c = true.
Proof.
  destruct minimize; simpl; intros H1 H2.
  - now apply vltb_cotrans with a.
  - destruct (vltb c b) eqn:E; [reflexivity|].
    rewrite (vltb_cotrans c b a H1 E) in H2. discriminate.
Qed.

(** A well-formed row grouping has one more entry than states. *)
Lemma wellFormedRowGrouping_nonempty (groups : list nat) (n rows : nat) :
  wellFormedRowGrouping groups n rows -> groups <> [].
Proof. intros (Hlen & _) ->. discriminate. Qed.

(** What [computeExtremalScheduler] returns on a non-empty index vector:
    the choices of the reduction of the lookahead values in the given
    direction. *)
Lemma computeExtremalScheduler_value (minimize : bool) (A : SparseMatrix) (groups : list nat)
    (result : Vec) (stateRewards : option Vec) (rewardMatrix : option SparseMatrix)
    (st : CheckerState) :
  groups <> [] ->
  computeExtremalScheduler minimize A groups result stateRewards rewardMatrix st
    = (Returns (snd (reduceVector (strictlyBetter minimize)
                       (lookaheadValues A groups result stateRewards rewardMatrix)
                       (repeat constGetZero (length groups - 1)) groups
                       (repeat 0 (length result)))),
       logged (GmmxxMatrixVectorMultiplication A result 1) st).
Proof.
  intros Hgroups.
  unfold computeExtremalScheduler.
  replace (length groups =? 0) with false
    by (destruct groups; [contradiction | reflexivity]).
  unfold callGmmxxPerformMatrixVectorMultiplication, bind, logCall, ret.
  unfold lookaheadValues, totalRewardValues, reduceVectorMin, reduceVectorMax.
  cbn [gmmxxPerformMatrixVectorMultiplication].
  replace (length (multiplyWithVector A result)) with (length A)
    by (unfold multiplyWithVector; now rewrite length_map).
  destruct minimize, stateRewards, rewardMatrix; reflexivity.
Qed.

Lemma reduceVector_extremal (minimize : bool) (groups : list nat) (n : nat)
    (values target : Vec) :
  wellFormedRowGrouping groups n (length values) ->
  isExtremalScheduler minimize groups n values
    (snd (reduceVector (strictlyBetter minimize) values target groups (repeat 0 n))).
Proof.
  intros WF. pose proof (grouping_monotone groups n (length values) WF) as Hmono.
  destruct WF as (Hlen & Hinc & Hlast).
  unfold reduceVector. cbn [snd]. rewrite Hlen.
  replace (S n - 1) with n by lia.
  rewrite overwritePrefix_same_length
    by (now rewrite repeat_length, !length_map, length_seq).
  split; [now rewrite !length_map, length_seq|].
  intros s Ls first count chosen.
  assert (Hchosen : chosen = snd (reduceState (strictlyBetter minimize) values groups s)).
  { unfold chosen. rewrite map_map.
    rewrite (nth_indep _ 0 (snd (reduceState (strictlyBetter minimize) values groups 0)))
      by (now rewrite length_map, length_seq).
    rewrite (map_nth (fun x => snd (reduceState (strictlyBetter minimize) values groups x))).
    now rewrite seq_nth. }
  destruct (reduceState_invariant (strictlyBetter minimize)
              (strictlyBetter_irrefl minimize) (strictlyBetter_trans minimize)
              (strictlyBetter_cotrans minimize) values groups s (Hinc s Ls) (Hmono s Ls))
    as (Hc & Hn & Hall & Hbefore).
  rewrite <- Hchosen in Hc, Hn, Hbefore.
  rewrite slice_length in Hc, Hall by (now apply Hmono).
  fold first in Hc, Hn, Hall, Hbefore. fold count in Hc, Hall.
  rewrite slice_nth in Hn by exact Hc.
  split; [exact Hc|]. split.
  - intros j Lj. specialize (Hall j Lj).
    rewrite slice_nth in Hall by exact Lj. rewrite <- Hn in Hall.
    unfold atLeastAsGood, vle. destruct minimize; exact Hall.
  - intros j Lj. specialize (Hbefore j Lj).
    rewrite slice_nth in Hbefore by (unfold count in Hc; fold first; lia).
    rewrite <- Hn in Hbefore. exact Hbefore.
Qed.

Lemma computeUnboundedUntilProbabilities_shape
    (minimize : bool) (A : SparseMatrix) (groups : list nat) (backward : SparseMatrix)
    (initialStates phiStates psiStates : BitVector) (qualitative : bool) (st : CheckerState) :
  exists (result : Vec) (st1 : CheckerState),
    length result = BV.size phiStates
    /\ computeUnboundedUntilProbabilities minimize A groups backward initialStates phiStates
         psiStates qualitative st
       = bind (computeExtremalScheduler minimize A groups result None None)
              (fun scheduler => ret (result, scheduler)) st1.
Proof.
  unfold computeUnboundedUntilProbabilities.
  destruct (BV.isDisjointFrom initialStates _ || qualitative).
  - eexists. exists st. split; [|reflexivity].
    now rewrite !setVectorValues_length, repeat_length.
  - eexists. eexists. split; [|reflexivity].
    now rewrite !setVectorValues_length, setVectorValuesFrom_length, repeat_length.
Qed.

(** C7. On a well-formed row grouping (every state owns at least one row)
    the scheduler of [computeUnboundedUntilProbabilities] has one entry per
    state; the entry is a local row index of the state, the one-step
    lookahead value of the chosen row, computed from the returned vector,
    is minimal (when minimizing) resp. maximal (when maximizing) among the
    rows of the state, and every row of the state before the chosen one is
    strictly worse, so the first extremal row is taken.  The same holds
    for every call of [computeExtremalScheduler], where the lookahead
    value of a row includes the rewards of the supplied components. *)
Theorem C7_scheduler_is_extremal
    (minimize : bool) (A : SparseMatrix) (groups : list nat) (backward : SparseMatrix)
    (initialStates phiStates psiStates : BitVector) (qualitative : bool) (st : CheckerState) :
  wellFormedRowGrouping groups (BV.size phiStates) (length A) ->
  (exists (result : Vec) (scheduler : TotalScheduler) (st' : CheckerState),
     computeUnboundedUntilProbabilities minimize A groups backward initialStates phiStates
       psiStates qualitative st = (Returns (result, scheduler), st')
     /\ isExtremalScheduler minimize groups (BV.size phiStates)
          (multiplyWithVector A result) scheduler)
  /\ (forall (result : Vec) (stateRewards : option Vec) (rewardMatrix : option SparseMatrix),
        length result = BV.size phiStates ->
        exists scheduler : TotalScheduler,
          computeExtremalScheduler minimize A groups result stateRewards rewardMatrix st
            = (Returns scheduler, logged (GmmxxMatrixVectorMultiplication A result 1) st)
          /\ isExtremalScheduler minimize groups (BV.size phiStates)
               (lookaheadValues A groups result stateRewards rewardMatrix) scheduler).
Proof.
  intros WF.
  assert (General : forall (result : Vec) (stateRewards : option Vec)
                      (rewardMatrix : option SparseMatrix) (st0 : CheckerState),
             length result = BV.size phiStates ->
             exists scheduler : TotalScheduler,
               computeExtremalScheduler minimize A groups result stateRewards rewardMatrix st0
                 = (Returns scheduler,
                    logged (GmmxxMatrixVectorMultiplication A result 1) st0)
               /\ isExtremalScheduler minimize groups (BV.size phiStates)
                    (lookaheadValues A groups result stateRewards rewardMatrix) scheduler).
  { intros result stateRewards rewardMatrix st0 Hlen.
    eexists.
    split; [apply computeExtremalScheduler_value;
            exact (wellFormedRowGrouping_nonempty _ _ _ WF)|].
    rewrite Hlen. apply reduceVector_extremal.
    now rewrite lookaheadValues_length. }
  split.
  - destruct (computeUnboundedUntilProbabilities_shape minimize A groups backward
                initialStates phiStates psiStates qualitative st)
      as (result & st1 & Hlen & Hshape).
    destruct (General result None None st1 Hlen) as (scheduler & Hrun & Hext).
    exists result, scheduler. eexists. split; [|exact Hext].
    rewrite Hshape. unfold bind. rewrite Hrun. reflexivity.
  - intros result stateRewards rewardMatrix Hlen.
    apply General. exact Hlen.
Qed.

End ExtremalScheduler.

(** ** Deterministic models *)

Section DeterministicModels.

Context {T : Type} `{VT : ValueType T}.

Lemma overChoices_singleton (universal : bool) (p : @Row T -> bool) (row : Row) :
  overChoices universal p [row] = p row.
Proof.
  destruct universal; simpl; [apply andb_true_r | apply orb_false_r].
Qed.

(** With one row per state, the rows of state [s] are the single row [s]. *)
Lemma choicesOf_deterministic (A : @SparseMatrix T) (s : nat) :
  s < length A ->
  choicesOf A (seq 0 (S (length A))) s = [nth s A []].
Proof.
  intros L. unfold choicesOf, slice.
  rewrite !seq_nth by lia. simpl. replace (S s - s) with 1 by lia.
  revert s L. induction A as [|row A IH]; intros s L; simpl in *; [lia|].
  destruct s as [|s]; [reflexivity|].
  apply IH. lia.
Qed.

Lemma overChoices_deterministic (A : @SparseMatrix T) (p : Row -> bool) (s : nat) :
  s < length A ->
  overChoices true p (choicesOf A (seq 0 (S (length A))) s)
    = overChoices false p (choicesOf A (seq 0 (S (length A))) s).
Proof.
  intros L. rewrite choicesOf_deterministic by exact L.
  now rewrite !overChoices_singleton.
Qed.

Lemma iter_ext {X : Type} (f g : X -> X) (n : nat) (x : X) :
  (forall y, f y = g y) -> Nat.iter n f x = Nat.iter n g x.
Proof.
  intros H. induction n as [|n IH]; simpl; [reflexivity|].
  now rewrite IH, H.
Qed.

Section Graph.

Variable A : @SparseMatrix T.
Variable backward : @SparseMatrix T.
Variables phiStates psiStates : BitVector.
Hypothesis phi_size : BV.size phiStates = length A.

Lemma greater0Step_deterministic (X : BitVector) :
  greater0Step true A (seq 0 (S (length A))) phiStates psiStates X
    = greater0Step false A (seq 0 (S (length A))) phiStates psiStates X.
Proof.
  unfold greater0Step. apply map_ext_in. intros s Hs.
  apply in_seq in Hs. rewrite overChoices_deterministic by lia. reflexivity.
Qed.

Lemma performProbGreater0_deterministic (useStepBound : bool) (maximalSteps : nat) :
  performProbGreater0 true A (seq 0 (S (length A))) backward phiStates psiStates
    useStepBound maximalSteps
  = performProbGreater0 false A (seq 0 (S (length A))) backward phiStates psiStates
      useStepBound maximalSteps.
Proof.
  unfold performProbGreater0. apply iter_ext, greater0Step_deterministic.
Qed.

Lemma prob1Step_deterministic (Y X : BitVector) :
  prob1Step true A (seq 0 (S (length A))) phiStates psiStates Y X
    = prob1Step false A (seq 0 (S (length A))) phiStates psiStates Y X.
Proof.
  unfold prob1Step. apply map_ext_in. intros s Hs.
  apply in_seq in Hs. rewrite overChoices_deterministic by lia. reflexivity.
Qed.

Lemma performProb1_deterministic :
  performProb1 true A (seq 0 (S (length A))) backward phiStates psiStates
    = performProb1 false A (seq 0 (S (length A))) backward phiStates psiStates.
Proof.
  unfold performProb1. apply iter_ext. intros Y.
  unfold prob1Round. apply iter_ext, prob1Step_deterministic.
Qed.

Lemma referenceProb01_deterministic :
  referenceProb01 true A (seq 0 (S (length A))) backward phiStates psiStates
    = referenceProb01 false A (seq 0 (S (length A))) backward phiStates psiStates.
Proof.
  unfold referenceProb01.
  now rewrite performProbGreater0_deterministic, performProb1_deterministic.
Qed.

End Graph.

Lemma offsetsFrom_atMostOne (sizes : list nat) (current : nat) :
  Forall (fun n => n <= 1) sizes ->
  atMostOneRowPerState (current :: offsetsFrom current sizes).
Proof.
  revert current. induction sizes as [|k sizes IH]; intros current Hs s.
  - destruct s as [|[|s]]; simpl; lia.
  - inversion Hs; subst. destruct s as [|s].
    + simpl. lia.
    + apply (IH (current + k) H2 s).
Qed.

Lemma getConstrainedOffsetVector_deterministic (n : nat) (constraint : BitVector) :
  atMostOneRowPerState (getConstrainedOffsetVector (seq 0 (S n)) constraint).
Proof.
  unfold getConstrainedOffsetVector. apply offsetsFrom_atMostOne.
  apply Forall_forall. intros k Hk. apply in_map_iff in Hk.
  destruct Hk as (p & <- & _).
  destruct (Nat.lt_ge_cases p n) as [L|L].
  - rewrite !seq_nth by lia. lia.
  - rewrite (nth_overflow (seq 0 (S n)) 0 (n := S p)) by (rewrite length_seq; lia). lia.
Qed.

Lemma reduceState_atMostOne (f g : T -> T -> bool) (source : Vec) (rowGrouping : list nat)
    (s : nat) :
  atMostOneRowPerState rowGrouping ->
  reduceState f source rowGrouping s = reduceState g source rowGrouping s.
Proof.
  intros H. unfold reduceState.
  assert (L : length (slice source (nth s rowGrouping 0) (nth (S s) rowGrouping 0)) <= 1).
  { unfold slice. rewrite length_firstn. specialize (H s). lia. }
  destruct (slice source (nth s rowGrouping 0) (nth (S s) rowGrouping 0)) as [|v [|w rows]];
    simpl in *; try reflexivity; lia.
Qed.

Lemma reduceVector_atMostOne (f g : T -> T -> bool) (source target : Vec)
    (rowGrouping : list nat) (choices : list nat) :
  atMostOneRowPerState rowGrouping ->
  reduceVector f source target rowGrouping choices
    = reduceVector g source target rowGrouping choices.
Proof.
  intros H. unfold reduceVector.
  rewrite (map_ext _ _ (fun s => reduceState_atMostOne f g source rowGrouping s H)).
  reflexivity.
Qed.

Lemma sweep_atMostOne (A : @SparseMatrix T) (rowGroups : list nat) (b : option Vec) (x : Vec) :
  atMostOneRowPerState rowGroups ->
  sweep true A rowGroups b x = sweep false A rowGroups b x.
Proof.
  intros H. unfold sweep, reduceVectorMin, reduceVectorMax.
  now rewrite (reduceVector_atMostOne (fun a b => vltb a b) (fun a b => vltb b a)) by exact H.
Qed.

Lemma valueIteration_atMostOne (settings : SolverSettings) (A : @SparseMatrix T)
    (rowGroups : list nat) (b : Vec) (fuel : nat) (x : Vec) :
  atMostOneRowPerState rowGroups ->
  valueIteration settings true A rowGroups b fuel x
    = valueIteration settings false A rowGroups b fuel x.
Proof.
  intros H. revert x. induction fuel as [|fuel IH]; intros x; cbn [valueIteration];
    [reflexivity|].
  rewrite (sweep_atMostOne A rowGroups (Some b) x H).
  destruct (converged settings x _); [reflexivity | apply IH].
Qed.

(** C8. On a deterministic model (one row per state, so the row grouping
    is 0, 1, ..., n) [computeUnboundedUntilProbabilities] returns the same
    result vector for minimize = true and minimize = false, for all
    phi- and psi-states.  The graph routines and the solver are the
    reference collaborators: with one choice per state existential and
    universal choice coincide, and so do the min- and max-reduction of a
    sweep. *)
Theorem C8_deterministic_min_max_agree
    (settings : SolverSettings) (A backward : @SparseMatrix T)
    (initialStates phiStates psiStates : BitVector) (qualitative : bool)
    (stMin stMax : CheckerState) :
  BV.size phiStates = length A ->
  exists (result : Vec) (schedulerMin schedulerMax : TotalScheduler)
         (stMin' stMax' : CheckerState),
    computeUnboundedUntilProbabilities (Graph := referenceGraph)
      (Solver := referenceSolver settings) true A (seq 0 (S (length A))) backward
      initialStates phiStates psiStates qualitative stMin
      = (Returns (result, schedulerMin), stMin')
    /\ computeUnboundedUntilProbabilities (Graph := referenceGraph)
         (Solver := referenceSolver settings) false A (seq 0 (S (length A))) backward
         initialStates phiStates psiStates qualitative stMax
       = (Returns (result, schedulerMax), stMax').
Proof.
  intros Hsize.
  unfold computeUnboundedUntilProbabilities.
  cbn [performProb01Min performProb01Max referenceGraph].
  rewrite (referenceProb01_deterministic A backward phiStates psiStates Hsize).
  set (s01 := referenceProb01 false A (seq 0 (S (length A))) backward phiStates psiStates).
  set (maybeStates := BV.complement (BV.bor (fst s01) (snd s01))).
  unfold bind, ret, callSolveEquationSystem, logCall, bind, ret.
  destruct (BV.isDisjointFrom initialStates maybeStates || qualitative); cbv beta iota.
  - rewrite !computeExtremalScheduler_value by discriminate.
    do 5 eexists. split; reflexivity.
  - cbn [solveEquationSystem referenceSolver].
    rewrite valueIteration_atMostOne
      by apply getConstrainedOffsetVector_deterministic.
    rewrite !computeExtremalScheduler_value by discriminate.
    do 5 eexists. split; reflexivity.
Qed.

End DeterministicModels.

(** ** The rational instance *)

Lemma er_ltb_irrefl (a : ExtendedRational) : er_ltb a a = false.
Proof.
  destruct a as [x|]; simpl; [|reflexivity].
  apply negb_false_iff, Qle_bool_iff, Qle_refl.
Qed.

Lemma er_ltb_Finite (x y : Q) : er_ltb (Finite x) (Finite y) = true <-> (x < y)%Q.
Proof.
  simpl. rewrite negb_true_iff. split.
  - intros H. apply Qnot_le_lt. intros L. apply Qle_bool_iff in L. congruence.
  - intros H. destruct (Qle_bool y x) eqn:E; [|reflexivity].
    apply Qle_bool_iff in E. exfalso. exact (Qlt_not_le _ _ H E).
Qed.

Lemma er_ltb_Finite_false (x y : Q) : er_ltb (Finite x) (Finite y) = false <-> (y <= x)%Q.
Proof.
  simpl. rewrite negb_false_iff. apply Qle_bool_iff.
Qed.

Lemma er_ltb_trans (a b c : ExtendedRational) :
  er_ltb a b = true -> er_ltb b c = true -> er_ltb a c = true.
Proof.
  destruct a as [x|], b as [y|], c as [z|]; try (simpl; congruence).
  rewrite !er_ltb_Finite. apply Qlt_trans.
Qed.

Lemma er_ltb_cotrans (a b c : ExtendedRational) :
  er_ltb a c = true -> er_ltb a b = false -> er_ltb b c = true.
Proof.
  destruct a as [x|], b as [y|], c as [z|]; try (simpl; congruence).
  rewrite !er_ltb_Finite, er_ltb_Finite_false. intros H1 H2.
  now apply Qle_lt_trans with x.
Qed.

Lemma ExtendedRationalOrdered : @OrderedValueType ExtendedRational ExtendedRationalValue.
Proof.
  constructor.
  - exact er_ltb_irrefl.
  - exact er_ltb_trans.
  - exact er_ltb_cotrans.
  - reflexivity.
  - reflexivity.
Defined.

(** ** The reference graph routines return disjoint sets *)

Section ReferenceGraphFacts.

Context {T : Type} `{VT : ValueType T}.

Lemma get_map_seq (f : nat -> bool) (n s : nat) :
  BV.get (map f (seq 0 n)) s = if s <? n then f s else false.
Proof.
  unfold BV.get. destruct (Nat.ltb_spec s n) as [L|L].
  - rewrite (nth_indep _ false (f 0)) by (now rewrite length_map, length_seq).
    rewrite map_nth. now rewrite seq_nth.
  - apply nth_overflow. now rewrite length_map, length_seq.
Qed.

Lemma overChoices_monotone (universal : bool) (p q : @Row T -> bool) (rows : list Row) :
  (forall row, p row = true -> q row = true) ->
  overChoices universal p rows = true -> overChoices universal q rows = true.
Proof.
  intros Hpq. destruct universal; simpl.
  - rewrite !forallb_forall. intros H row Hin. apply Hpq, H, Hin.
  - rewrite !existsb_exists. intros (row & Hin & Hp). exists row. split; [exact Hin | now apply Hpq].
Qed.

Lemma hasSuccessorIn_monotone (X X' : BitVector) (row : @Row T) :
  (forall s, BV.get X s = true -> BV.get X' s = true) ->
  hasSuccessorIn X row = true -> hasSuccessorIn X' row = true.
Proof.
  intros Hsub. unfold hasSuccessorIn. rewrite !existsb_exists.
  intros (e & Hin & He). exists e. split; [exact Hin | now apply Hsub].
Qed.

Variable universal : bool.
Variable A : @SparseMatrix T.
Variable rowGrouping : list nat.
Variable backward : @SparseMatrix T.
Variables phiStates psiStates : BitVector.

Lemma prob1Step_subset (Y X X' : BitVector) :
  (forall s, BV.get X s = true -> BV.get X' s = true) ->
  forall s, BV.get (prob1Step universal A rowGrouping phiStates psiStates Y X) s = true ->
            BV.get (greater0Step universal A rowGrouping phiStates psiStates X') s = true.
Proof.
  intros Hsub s. unfold prob1Step, greater0Step. rewrite !get_map_seq.
  destruct (s <? BV.size phiStates); [|discriminate].
  destruct (BV.get psiStates s); [reflexivity|]. simpl.
  destruct (BV.get phiStates s); [|discriminate]. simpl.
  apply overChoices_monotone. intros row Hrow.
  apply andb_true_iff in Hrow. destruct Hrow as [_ Hrow].
  now apply hasSuccessorIn_monotone with X.
Qed.

Lemma prob1Round_subset (Y : BitVector) (n : nat) :
  forall s,
    BV.get (Nat.iter n (prob1Step universal A rowGrouping phiStates psiStates Y) psiStates) s
      = true ->
    BV.get (Nat.iter n (greater0Step universal A rowGrouping phiStates psiStates) psiStates) s
      = true.
Proof.
  induction n as [|n IH]; simpl; [auto|].
  apply prob1Step_subset. exact IH.
Qed.

(** The probability-1 states have positive probability. *)
Lemma performProb1_subset (s : nat) :
  BV.get (performProb1 universal A rowGrouping backward phiStates psiStates) s = true ->
  BV.get (performProbGreater0 universal A rowGrouping backward phiStates psiStates false 0) s
    = true.
Proof.
  unfold performProb1, performProbGreater0.
  destruct (BV.size phiStates) as [|n] eqn:En.
  - simpl. unfold BV.get. destruct s; discriminate.
  - rewrite Nat.iter_succ. unfold prob1Round at 1. rewrite En.
    apply prob1Round_subset.
Qed.

Lemma referenceProb01_get_disjoint (s : nat) :
  BV.get (fst (referenceProb01 universal A rowGrouping backward phiStates psiStates)) s = true ->
  BV.get (snd (referenceProb01 universal A rowGrouping backward phiStates psiStates)) s = false.
Proof.
  unfold referenceProb01. cbn [fst snd]. intros H0.
  apply get_complement_true in H0. destruct H0 as [H0 _].
  destruct (BV.get (performProb1 universal A rowGrouping backward phiStates psiStates) s) eqn:E;
    [|reflexivity].
  apply performProb1_subset in E. congruence.
Qed.

End ReferenceGraphFacts.

(** ** Value iteration keeps probabilities in the unit interval *)

Section ReductionPreserves.

Context {T : Type} `{VT : ValueType T}.

Variable P : T -> Prop.

Lemma Forall_firstn_list (n : nat) (l : list T) : Forall P l -> Forall P (firstn n l).
Proof.
  revert n. induction l as [|a l IH]; intros [|n] H; simpl; try constructor;
    inversion H; subst; [assumption | now apply IH].
Qed.

Lemma Forall_skipn_list (n : nat) (l : list T) : Forall P l -> Forall P (skipn n l).
Proof.
  revert n. induction l as [|a l IH]; intros [|n] H; simpl; try assumption.
  inversion H; subst. now apply IH.
Qed.

Lemma reduceGroup_preserves (filter : T -> T -> bool) (rows : Vec) (best : T)
    (choice local : nat) :
  P best -> Forall P rows -> P (fst (reduceGroup filter best choice local rows)).
Proof.
  revert best choice local.
  induction rows as [|v rows IH]; intros best choice local Hb Hr; simpl; [exact Hb|].
  inversion Hr; subst. destruct (filter v best); now apply IH.
Qed.

Lemma reduceState_preserves (filter : T -> T -> bool) (source : Vec) (rowGrouping : list nat)
    (s : nat) :
  P constGetZero -> Forall P source -> P (fst (reduceState filter source rowGrouping s)).
Proof.
  intros H0 Hs. unfold reduceState.
  assert (Hslice : Forall P (slice source (nth s rowGrouping 0) (nth (S s) rowGrouping 0)))
    by (unfold slice; now apply Forall_firstn_list, Forall_skipn_list).
  destruct (slice source (nth s rowGrouping 0) (nth (S s) rowGrouping 0)) as [|v rows];
    [exact H0|].
  inversion Hslice; subst. now apply reduceGroup_preserves.
Qed.

Lemma reduceVector_preserves (filter : T -> T -> bool) (source target : Vec)
    (rowGrouping : list nat) (choices : list nat) :
  P constGetZero -> Forall P source -> Forall P target ->
  Forall P (fst (reduceVector filter source target rowGrouping choices)).
Proof.
  intros H0 Hs Ht. unfold reduceVector, overwritePrefix. cbn [fst].
  apply Forall_app. split.
  - apply Forall_firstn_list. rewrite map_map. apply Forall_forall.
    intros x Hx. apply in_map_iff in Hx. destruct Hx as (s & <- & _).
    now apply reduceState_preserves.
  - now apply Forall_skipn_list.
Qed.

End ReductionPreserves.

Lemma isProbability_inUnitInterval (v : ExtendedRational) :
  isProbability v <-> inUnitInterval v.
Proof.
  unfold inUnitInterval, vle. destruct v as [q|]; cbn [isProbability vltb ExtendedRationalValue].
  - change (constGetZero : ExtendedRational) with (Finite 0).
    change (constGetOne : ExtendedRational) with (Finite 1).
    rewrite !er_ltb_Finite_false. tauto.
  - simpl. split; [tauto | intros [_ H]; discriminate].
Qed.

Lemma isProbability_nth (x : list ExtendedRational) (k : nat) :
  Forall isProbability x -> isProbability (nth k x (Finite 0)).
Proof.
  intros H. destruct (Nat.lt_ge_cases k (length x)) as [L|L].
  - rewrite Forall_forall in H. apply H, nth_In, L.
  - rewrite nth_overflow by exact L. simpl. split; [apply Qle_refl | discriminate].
Qed.

(** One row of the reduced system: the mass that stays among the
    maybe-states, weighted by the current values, plus the mass that enters
    the probability-1 states does not exceed the mass of the row. *)
Lemma reduced_row_bound (maybeStates prob1 : BitVector) (x : list ExtendedRational)
    (row : @Row ExtendedRational) :
  (forall c, BV.get maybeStates c = true -> BV.get prob1 c = false) ->
  Forall isProbability x ->
  Forall (fun e => isNonnegative (snd e)) row ->
  exists u w : Q,
    rowTimesVector (restrictRow maybeStates row) x = Finite u
    /\ constrainedRowSum prob1 row = Finite w
    /\ (0 <= u)%Q /\ (0 <= w)%Q /\ (u + w <= rowMass row)%Q.
Proof.
  intros Hdisjoint Hx Hrow.
  induction row as [|[c v] row IH].
  - exists 0%Q, 0%Q. repeat split; simpl; lra.
  - inversion Hrow as [|e r Hv Hrest]; subst. cbn [snd] in Hv.
    destruct (IH Hrest) as (u & w & Hu & Hw & Hu0 & Hw0 & Hsum).
    destruct v as [p|]; [|contradiction]. simpl in Hv.
    unfold restrictRow, constrainedRowSum in *. cbn [filter fold_right fst snd map rowMass toQ].
    fold (rowMass row).
    destruct (BV.get maybeStates c) eqn:Em.
    + rewrite (Hdisjoint c Em). cbn [map fst snd]. unfold rowTimesVector in *.
      cbn [fold_right fst snd]. rewrite Hu.
      pose proof (isProbability_nth x (columnRank maybeStates c) Hx) as Hk.
      change (constGetZero : ExtendedRational) with (Finite 0).
      destruct (nth (columnRank maybeStates c) x (Finite 0)) as [xk|]; [|contradiction].
      simpl in Hk. destruct Hk as [Hk0 Hk1].
      assert (Hprod0 : (0 <= p * xk)%Q) by now apply Qmult_le_0_compat.
      assert (Hprod1 : (p * xk <= p * 1)%Q)
        by (apply Qmult_le_compat_nonneg; split; auto; apply Qle_refl).
      eexists. exists w. split; [reflexivity|]. split; [exact Hw|].
      rewrite !Qred_correct. repeat split; try assumption; lra.
    + destruct (BV.get prob1 c) eqn:E1.
      * rewrite Hw. eexists u, _. split; [exact Hu|]. split; [reflexivity|].
        rewrite !Qred_correct. repeat split; try assumption; lra.
      * exists u, w. repeat split; try assumption. lra.
Qed.

Lemma In_slice {X : Type} (l : list X) (from to : nat) (x : X) :
  In x (slice l from to) -> In x l.
Proof.
  unfold slice. intros H.
  assert (H1 : In x (skipn from l)).
  { revert H. generalize (skipn from l) (to - from). intros l' n. revert n.
    induction l' as [|a l' IH]; intros [|n] H; simpl in *; try contradiction.
    destruct H as [H|H]; [now left | right; now apply IH with n]. }
  clear H. revert from H1. induction l as [|a l IH]; intros [|from] H; simpl in *;
    try contradiction; try assumption.
  right. now apply IH with from.
Qed.

Lemma In_rowsOfStates {T : Type} (A : @SparseMatrix T) (rowGrouping states : list nat)
    (row : @Row T) :
  In row (rowsOfStates A rowGrouping states) -> In row A.
Proof.
  unfold rowsOfStates. rewrite in_flat_map. intros (s & _ & H).
  now apply In_slice in H.
Qed.

Lemma addVectorsInPlace_map {X : Type} (f g : X -> ExtendedRational) (l : list X) :
  addVectorsInPlace (map f l) (map g l) = map (fun r => vadd (f r) (g r)) l.
Proof.
  induction l as [|a l IH]; simpl; [reflexivity | now rewrite IH].
Qed.

Section ReferenceSolverFacts.

Variable A : @SparseMatrix ExtendedRational.
Variable groups : list nat.
Variables maybeStates prob1 : BitVector.

Hypothesis A_subStochastic : subStochastic A.
Hypothesis maybe_not_prob1 :
  forall c, BV.get maybeStates c = true -> BV.get prob1 c = false.

(** The right-hand side of one sweep of the reduced system stays in the
    unit interval. *)
Lemma reduced_system_step (x : list ExtendedRational) :
  Forall isProbability x ->
  Forall isProbability
    (addVectorsInPlace
       (multiplyWithVector (getSubmatrix A maybeStates groups) x)
       (getConstrainedRowSumVector A maybeStates groups prob1
          (length (getSubmatrix A maybeStates groups)))).
Proof.
  intros Hx. unfold getConstrainedRowSumVector, getSubmatrix, multiplyWithVector.
  rewrite overwritePrefix_same_length by (now rewrite repeat_length, !length_map).
  rewrite map_map, addVectorsInPlace_map.
  apply Forall_forall. intros y Hy. apply in_map_iff in Hy. destruct Hy as (row & <- & Hin).
  apply In_rowsOfStates in Hin.
  unfold subStochastic in A_subStochastic. rewrite Forall_forall in A_subStochastic.
  destruct (A_subStochastic row Hin) as [Hnonneg Hmass].
  destruct (reduced_row_bound maybeStates prob1 x row maybe_not_prob1 Hx Hnonneg)
    as (u & w & -> & -> & Hu & Hw & Hsum).
  cbn [vadd ExtendedRationalValue er_add isProbability].
  rewrite Qred_correct. split; lra.
Qed.

Lemma reduced_system_sweep (minimize : bool) (x : list ExtendedRational) :
  Forall isProbability x ->
  Forall isProbability
    (sweep minimize (getSubmatrix A maybeStates groups)
       (getConstrainedOffsetVector groups maybeStates)
       (Some (getConstrainedRowSumVector A maybeStates groups prob1
                (length (getSubmatrix A maybeStates groups)))) x).
Proof.
  intros Hx. unfold sweep, reduceVectorMin, reduceVectorMax.
  destruct minimize; apply reduceVector_preserves;
    try (simpl; split; [apply Qle_refl | discriminate]);
    try exact Hx; now apply reduced_system_step.
Qed.

Lemma reduced_system_valueIteration (settings : SolverSettings) (minimize : bool)
    (fuel : nat) (x : list ExtendedRational) :
  Forall isProbability x ->
  Forall isProbability
    (valueIteration settings minimize (getSubmatrix A maybeStates groups)
       (getConstrainedOffsetVector groups maybeStates)
       (getConstrainedRowSumVector A maybeStates groups prob1
          (length (getSubmatrix A maybeStates groups))) fuel x).
Proof.
  revert x. induction fuel as [|fuel IH]; intros x Hx; cbn [valueIteration]; [exact Hx|].
  pose proof (reduced_system_sweep minimize x Hx) as Hs.
  destruct (converged settings x _); [exact Hs | now apply IH].
Qed.

End ReferenceSolverFacts.

(** On a sub-stochastic matrix the reference solver answers the reduced
    until-system with values in the unit interval. *)
Lemma referenceSolver_in_unit_interval (settings : SolverSettings) (minimize : bool)
    (A : @SparseMatrix ExtendedRational) (groups : list nat) (prob0 prob1 : BitVector) :
  subStochastic A ->
  let maybeStates := BV.complement (BV.bor prob0 prob1) in
  Forall inUnitInterval
    (solveEquationSystem (NondeterministicLinearEquationSolver := referenceSolver settings)
       minimize (getSubmatrix A maybeStates groups)
       (repeat constGetZero (BV.getNumberOfSetBits maybeStates))
       (getConstrainedRowSumVector A maybeStates groups prob1
          (length (getSubmatrix A maybeStates groups)))
       (getConstrainedOffsetVector groups maybeStates)).
Proof.
  intros HA maybeStates. cbn [solveEquationSystem referenceSolver].
  eapply Forall_impl; [intros v; apply isProbability_inUnitInterval|].
  apply reduced_system_valueIteration.
  - exact HA.
  - intros c Hc. apply get_complement_true in Hc. destruct Hc as [Hor L].
    now destruct (get_bor_false prob0 prob1 c L Hor).
  - apply repeat_Forall. simpl. split; [apply Qle_refl | discriminate].
Qed.

(** For the reference collaborators the two assumptions on the collaborators
    hold on every sub-stochastic model with a non-empty index vector: the
    until-probabilities lie in the unit interval, are zero on the
    probability-0 set and one on the probability-1 set. *)
Corollary until_probabilities_of_subStochastic_model
    (settings : SolverSettings) (minimize : bool) (A backward : @SparseMatrix ExtendedRational)
    (groups : list nat) (initialStates phiStates psiStates : BitVector) (qualitative : bool)
    (st : CheckerState) :
  subStochastic A ->
  groups <> [] ->
  let prob01 := referenceProb01 minimize A groups backward phiStates psiStates in
  exists (result : Vec) (scheduler : TotalScheduler) (st' : CheckerState),
    computeUnboundedUntilProbabilities (Graph := referenceGraph)
      (Solver := referenceSolver settings) minimize A groups backward initialStates
      phiStates psiStates qualitative st = (Returns (result, scheduler), st')
    /\ length result = BV.size phiStates
    /\ forall s, s < BV.size phiStates ->
         inUnitInterval (nth s result constGetZero)
         /\ (BV.get (fst prob01) s = true -> nth s result constGetZero = constGetZero)
         /\ (BV.get (snd prob01) s = true -> nth s result constGetZero = constGetOne).
Proof.
  intros HA Hgroups prob01.
  pose proof (computeUnboundedUntilProbabilities_assembly (OVT := ExtendedRationalOrdered)
                (Graph := referenceGraph) (Solver := referenceSolver settings)
                minimize A groups backward initialStates phiStates psiStates qualitative st)
    as Hassembly.
  cbv zeta in Hassembly.
  replace (if minimize
           then performProb01Min A groups backward phiStates psiStates
           else performProb01Max A groups backward phiStates psiStates)
    with prob01 in Hassembly by (destruct minimize; reflexivity).
  apply Hassembly.
  - exact Hgroups.
  - apply referenceProb01_get_disjoint.
  - intros _. apply referenceSolver_in_unit_interval. exact HA.
Qed.

(** ** Concrete runs *)

(** The runs below use the reference graph routines and the reference
    solver with its default settings. *)
#[local] Existing Instance referenceGraph.
#[local] Existing Instance referenceSolverInstance.

(** The scenario of the specification: maximizing gives [1,1] and picks
    action A (row 0) in state 0; minimizing gives [0,1] and picks action B
    (row 1). *)
Example twoStateMdp_maximize :
  fst (checkUntil twoStateMdp false [true; true] [false; true] false emptyState)
    = Returns ([Finite 1; Finite 1], [0; 0]).
Proof. reflexivity. Qed.

Example twoStateMdp_minimize :
  fst (checkUntil twoStateMdp true [true; true] [false; true] false emptyState)
    = Returns ([Finite 0; Finite 1], [1; 0]).
Proof. reflexivity. Qed.

(** On the coin model the two directions differ in state 0: the maximal
    probability is 1/2 (row 0), the minimal one 1/4 (row 1). *)
Example coinMdp_maximize :
  fst (checkUntil coinMdp false [true; true; true] [false; true; false] false emptyState)
    = Returns ([Finite (1 # 2); Finite 1; Finite 0], [0; 0; 0]).
Proof. vm_compute. reflexivity. Qed.

Example coinMdp_minimize :
  fst (checkUntil coinMdp true [true; true; true] [false; true; false] false emptyState)
    = Returns ([Finite (1 # 4); Finite 1; Finite 0], [1; 0; 0]).
Proof. vm_compute. reflexivity. Qed.

(** Three sweeps of bounded until on the coin model, maximizing. *)
Example coinMdp_bounded_until :
  fst (checkBoundedUntil coinMdp [true; true; true] [false; true; false] 3 false
         (stateWithDirection false))
    = Returns [Finite (1 # 2); Finite 1; Finite 0].
Proof. vm_compute. reflexivity. Qed.

(** C1, at the two-state model, which carries no reward component. *)
Lemma C1_missing_reward_model_witness :
  stateRewardVector twoStateMdp = None
  /\ transitionRewardMatrix twoStateMdp = None
  /\ checkCumulativeReward twoStateMdp 1 false (stateWithDirection true)
     = (Throws (InvalidPropertyException missingRewardModelMessage), stateWithDirection true)
  /\ checkReachabilityReward twoStateMdp true [false; true] false (stateWithDirection true)
     = (Throws (InvalidPropertyException missingRewardModelMessage), stateWithDirection true).
Proof.
  split; [reflexivity|]. split; [reflexivity|].
  destruct (C1_missing_reward_model twoStateMdp 1 true [false; true] false
              (stateWithDirection true) eq_refl eq_refl) as (H1 & H2 & _).
  split; [exact H1 | exact H2].
Defined.

(** C2 as stated fails: the subformula check of "Rmin=? [ C<=1 ]" throws on
    a model without rewards, and the indicator pushed for the operator is
    still on the stack when the exception leaves [checkNoBoundOperator]. *)
Lemma C2_exception_leaves_stack_deeper :
  fst (checkNoBoundOperator cumulativeRewardOperator emptyState)
    = Throws (InvalidPropertyException missingRewardModelMessage)
  /\ minimumOperatorStack (snd (checkNoBoundOperator cumulativeRewardOperator emptyState))
     = [true]
  /\ depth (snd (checkNoBoundOperator cumulativeRewardOperator emptyState))
     <> depth emptyState.
Proof.
  split; [reflexivity|]. split; [reflexivity|].
  vm_compute. discriminate.
Qed.

(** C2 as amended, at "Pmin=? [ true U psi ]" on the coin model (the check
    returns and the stack is back at its depth) and at the reward operator
    above (the check throws). *)
Lemma C2_push_pop_balanced_on_return_witness :
  depth (snd (checkNoBoundOperator untilOperator emptyState)) = depth emptyState
  /\ checkNoBoundOperator cumulativeRewardOperator emptyState
     = (Throws (InvalidPropertyException missingRewardModelMessage), pushed true emptyState).
Proof.
  destruct (C2_push_pop_balanced_on_return untilOperator emptyState) as (_ & Hreturn & _).
  destruct (C2_push_pop_balanced_on_return cumulativeRewardOperator emptyState)
    as (_ & _ & Hthrow).
  split.
  - eapply (fun v st' H1 H2 => proj2 (Hreturn eq_refl v st' H1 H2)).
    + lazy. reflexivity.
    + reflexivity.
  - apply Hthrow; reflexivity.
Defined.

(** C4, at the coin model checked qualitatively: the maybe-state 0 holds
    1/2 and the equation solver was not asked. *)
Lemma C4_qualitative_sentinel_witness :
  exists (result : Vec) (scheduler : TotalScheduler),
    computeUnboundedUntilProbabilities true (getTransitionMatrix coinMdp)
      (getNondeterministicChoiceIndices coinMdp) (getBackwardTransitions coinMdp)
      (getInitialStates coinMdp) [true; true; true] [false; true; false] true emptyState
      = (Returns (result, scheduler),
         logged (GmmxxMatrixVectorMultiplication (getTransitionMatrix coinMdp) result 1)
                emptyState)
    /\ isNondeterministicSolverCall
         (GmmxxMatrixVectorMultiplication (getTransitionMatrix coinMdp) result 1) = false
    /\ forall s, s < 3 -> BV.get [true; false; false] s = true ->
                 nth s result constGetZero = Finite (1 # 2).
Proof.
  exact (C4_qualitative_sentinel true (getTransitionMatrix coinMdp)
           (getNondeterministicChoiceIndices coinMdp) (getBackwardTransitions coinMdp)
           (getInitialStates coinMdp) [true; true; true] [false; true; false] true
           emptyState eq_refl ltac:(discriminate)).
Defined.

(** C5, at the coin model: the solver is asked for state 0 and answers
    1/4. *)
Lemma C5_until_result_in_unit_interval_witness :
  exists (result : Vec) (scheduler : TotalScheduler) (st' : CheckerState),
    computeUnboundedUntilProbabilities true (getTransitionMatrix coinMdp)
      (getNondeterministicChoiceIndices coinMdp) (getBackwardTransitions coinMdp)
      (getInitialStates coinMdp) [true; true; true] [false; true; false] false emptyState
      = (Returns (result, scheduler), st')
    /\ length result = 3
    /\ forall s, s < 3 ->
         inUnitInterval (nth s result constGetZero)
         /\ (BV.get [false; false; true] s = true -> nth s result constGetZero = Finite 0)
         /\ (BV.get [false; true; false] s = true -> nth s result constGetZero = Finite 1).
Proof.
  exact (C5_until_result_in_unit_interval (OVT := ExtendedRationalOrdered) true
           (getTransitionMatrix coinMdp)
           (getNondeterministicChoiceIndices coinMdp) (getBackwardTransitions coinMdp)
           (getInitialStates coinMdp) [true; true; true] [false; true; false] false
           emptyState ltac:(discriminate) eq_refl (fun _ => eq_refl)).
Defined.

(** C6 as stated fails: on a model whose initial state cannot reach the
    target, with step bound 3, no sweep is requested and the target state,
    which is kept and is a psi-state, holds 1/2 instead of one. *)
Lemma C6_early_exit_skips_sweeps :
  checkBoundedUntil unreachableTargetMdp [true; true] [false; true] 3 false
    (stateWithDirection false)
    = (Returns [Finite 0; Finite (1 # 2)], stateWithDirection false)
  /\ solverCalls (snd (checkBoundedUntil unreachableTargetMdp [true; true] [false; true] 3
                         false (stateWithDirection false))) = []
  /\ performProbGreater0E (getTransitionMatrix unreachableTargetMdp)
       (getNondeterministicChoiceIndices unreachableTargetMdp)
       (getBackwardTransitions unreachableTargetMdp) [true; true] [false; true] true 3
     = [false; true]
  /\ nth 1 [Finite 0; Finite (1 # 2)] constGetZero <> constGetOne.
Proof.
  split; [reflexivity|]. split; [reflexivity|]. split; [reflexivity|].
  simpl. discriminate.
Qed.

(** C6 as amended, at the coin model when maximizing: one request of three
    sweeps, and the sink state 2, which is discarded, holds zero. *)
Lemma C6_bounded_until_sweeps_witness :
  minimumOperatorStack (stateWithDirection false) = [false]
  /\ exists result : Vec,
       checkBoundedUntil coinMdp [true; true; true] [false; true; false] 3 false
         (stateWithDirection false)
       = (Returns result,
          logged (PerformMatrixVectorMultiplication false
                    [ [(1, Finite (1 # 2))]; [(1, Finite (1 # 4))]; [(1, q1)] ]
                    [Finite 0; Finite 1] [0; 2; 3] None 3)
                 (stateWithDirection false))
       /\ result = [Finite (1 # 2); Finite 1; Finite 0]
       /\ (forall k, k < 2 ->
             nth k [Finite 0; Finite 1] constGetZero
               = if BV.get [false; true] k then constGetOne else constGetZero)
       /\ (forall s, BV.get [true; true; false] s = false ->
             nth s result constGetZero = constGetZero).
Proof.
  split; [reflexivity|].
  exact (C6_bounded_until_sweeps coinMdp [true; true; true] [false; true; false] 3 false
           (stateWithDirection false) false [] eq_refl).
Defined.

(** C7, at the coin model: minimizing picks the second row of state 0. *)
Lemma C7_scheduler_is_extremal_witness :
  wellFormedRowGrouping (getNondeterministicChoiceIndices coinMdp) 3
    (length (getTransitionMatrix coinMdp))
  /\ exists (result : Vec) (scheduler : TotalScheduler) (st' : CheckerState),
       computeUnboundedUntilProbabilities true (getTransitionMatrix coinMdp)
         (getNondeterministicChoiceIndices coinMdp) (getBackwardTransitions coinMdp)
         (getInitialStates coinMdp) [true; true; true] [false; true; false] false emptyState
       = (Returns (result, scheduler), st')
       /\ isExtremalScheduler true (getNondeterministicChoiceIndices coinMdp) 3
            (multiplyWithVector (getTransitionMatrix coinMdp) result) scheduler.
Proof.
  assert (WF : wellFormedRowGrouping (getNondeterministicChoiceIndices coinMdp)
                 (BV.size [true; true; true]) (length (getTransitionMatrix coinMdp))).
  { split; [reflexivity|]. split; [|reflexivity].
    intros [|[|[|s]]] Hs; cbn in *; lia. }
  split; [exact WF|].
  exact (proj1 (C7_scheduler_is_extremal (OVT := ExtendedRationalOrdered) true
                  (getTransitionMatrix coinMdp)
                  (getNondeterministicChoiceIndices coinMdp) (getBackwardTransitions coinMdp)
                  (getInitialStates coinMdp) [true; true; true] [false; true; false] false
                  emptyState WF)).
Defined.

(** C8, at the deterministic chain. *)
Lemma C8_deterministic_min_max_agree_witness :
  BV.size [true; true; true] = length chainMatrix
  /\ exists (result : Vec) (schedulerMin schedulerMax : TotalScheduler)
            (stMin' stMax' : CheckerState),
       computeUnboundedUntilProbabilities (Solver := referenceSolver defaultSettings)
         true chainMatrix [0; 1; 2; 3] [] [true; false; false]
         [true; true; true] [false; true; false] false emptyState
       = (Returns (result, schedulerMin), stMin')
       /\ computeUnboundedUntilProbabilities (Solver := referenceSolver defaultSettings)
            false chainMatrix [0; 1; 2; 3] [] [true; false; false]
            [true; true; true] [false; true; false] false emptyState
          = (Returns (result, schedulerMax), stMax').
Proof.
  split; [reflexivity|].
  exact (C8_deterministic_min_max_agree defaultSettings chainMatrix []
           [true; false; false] [true; true; true] [false; true; false] false
           emptyState emptyState eq_refl).
Defined.

(** C9, at the two-state reward model started in the target state: state 0
    is the only maybe-state, no initial state is a maybe-state, the solver
    is not asked and state 0 holds one. *)
Lemma C9_reachability_reward_ignores_qualitative_witness :
  hasStateRewards twoStateRewardMdpFromTarget
    || hasTransitionRewards twoStateRewardMdpFromTarget = true
  /\ exists (result : Vec) (scheduler : TotalScheduler),
       checkReachabilityReward twoStateRewardMdpFromTarget false [false; true] true
         (stateWithDirection false)
       = (Returns (result, scheduler),
          logged (GmmxxMatrixVectorMultiplication
                    (getTransitionMatrix twoStateRewardMdpFromTarget) result 1)
                 (stateWithDirection false))
       /\ forall s, s < 2 -> BV.get [true; false] s = true ->
                    nth s result constGetZero = Finite 1.
Proof.
  split; [reflexivity|].
  exact (proj2 (C9_reachability_reward_ignores_qualitative twoStateRewardMdpFromTarget
                  false [false; true] (stateWithDirection false))
               eq_refl ltac:(discriminate) false [] true eq_refl).
Defined.

(** C10, at the two-state model with transition rewards and no state
    rewards. *)
Lemma C10_instantaneous_reward_needs_state_rewards_witness :
  stateRewardVector twoStateMdp = None
  /\ hasTransitionRewards twoStateTransitionRewardMdp = true
  /\ checkInstantaneousReward twoStateTransitionRewardMdp 2 false (stateWithDirection false)
     = (Throws (InvalidPropertyException missingStateRewardModelMessage),
        stateWithDirection false).
Proof.
  split; [reflexivity|]. split; [reflexivity|].
  exact (proj2 (C10_instantaneous_reward_needs_state_rewards twoStateMdp
                  (Some [ [(1, q1)]; [(0, q1)]; [] ]) 2 false (stateWithDirection false))
               eq_refl).
Defined.

(* ================================================================== *)
(** * Further properties of the checker *)
(* ================================================================== *)

(** Runs the monadic operations of a checker function on a state. *)
Ltac run_checker :=
  unfold callSolveEquationSystem, callPerformMatrixVectorMultiplication;
  unfold logCall, bind, ret, throw, top;
  cbv beta iota.

(** Splits on the two outcomes of the scheduler extraction in the goal. *)
Ltac scheduler_cases :=
  match goal with
  | |- context [computeExtremalScheduler ?m ?A ?g ?r ?sr ?tr ?s] =>
      let H := fresh "Hscheduler" in
      destruct (computeExtremalScheduler_cases m A g r sr tr s) as [H | [? H]];
      rewrite H
  end.

Section StackFrame.

Context {T : Type} `{VT : ValueType T} {Graph : GraphUtility T}
        {Solver : NondeterministicLinearEquationSolver T}.

Variable model : Mdp T.

Lemma computeUnboundedUntilProbabilities_stack
    (minimize : bool) (A : SparseMatrix) (groups : list nat) (backward : SparseMatrix)
    (initialStates phiStates psiStates : BitVector) (qualitative : bool) (st : CheckerState) :
  minimumOperatorStack
    (snd (computeUnboundedUntilProbabilities minimize A groups backward initialStates
            phiStates psiStates qualitative st))
  = minimumOperatorStack st.
Proof.
  unfold computeUnboundedUntilProbabilities. cbv zeta.
  destruct (BV.isDisjointFrom initialStates _ || qualitative); run_checker;
    scheduler_cases; reflexivity.
Qed.

Lemma checkReachabilityReward_stack
    (minimize : bool) (targetStates : BitVector) (qualitative : bool) (st : CheckerState) :
  minimumOperatorStack (snd (checkReachabilityReward model minimize targetStates qualitative st))
  = minimumOperatorStack st.
Proof.
  unfold checkReachabilityReward.
  destruct (negb (hasStateRewards model || hasTransitionRewards model)); [reflexivity|].
  cbv zeta.
  destruct (BV.isDisjointFrom (getInitialStates model) _); run_checker;
    cbn [minimumOperatorStack logged];
    destruct (minimumOperatorStack st) eqn:Est; cbv beta iota;
    try scheduler_cases; cbn [snd minimumOperatorStack logged];
    exact Est.
Qed.

(** X1. None of the solver entry points touches the direction stack: after
    [checkBoundedUntil], [checkNext], [checkInstantaneousReward],
    [checkCumulativeReward], [checkReachabilityReward] and [checkUntil]
    the stack is the one the call started with, whether the call returns,
    throws or reads an empty stack. *)
Theorem X1_solvers_keep_direction_stack
    (minimize : bool) (phiStates psiStates : BitVector) (bound : nat) (qualitative : bool)
    (st : CheckerState) :
  minimumOperatorStack (snd (checkBoundedUntil model phiStates psiStates bound qualitative st))
    = minimumOperatorStack st
  /\ minimumOperatorStack (snd (checkNext model psiStates qualitative st))
     = minimumOperatorStack st
  /\ minimumOperatorStack (snd (checkInstantaneousReward model bound qualitative st))
     = minimumOperatorStack st
  /\ minimumOperatorStack (snd (checkCumulativeReward model bound qualitative st))
     = minimumOperatorStack st
  /\ minimumOperatorStack
       (snd (checkReachabilityReward model minimize psiStates qualitative st))
     = minimumOperatorStack st
  /\ minimumOperatorStack (snd (checkUntil model minimize phiStates psiStates qualitative st))
     = minimumOperatorStack st.
Proof.
  repeat split.
  - unfold checkBoundedUntil. run_checker. cbv zeta.
    destruct (minimumOperatorStack st) eqn:Est; [exact Est|].
    destruct (BV.isDisjointFrom (getInitialStates model) _); cbv beta iota;
      rewrite ?Est; cbv beta iota; cbn [snd minimumOperatorStack logged]; exact Est.
  - unfold checkNext. run_checker.
    destruct (minimumOperatorStack st) eqn:Est; cbn [snd minimumOperatorStack logged];
      exact Est.
  - unfold checkInstantaneousReward. destruct (negb (hasStateRewards model)); [reflexivity|].
    run_checker.
    destruct (minimumOperatorStack st) eqn:Est; cbn [snd minimumOperatorStack logged];
      exact Est.
  - unfold checkCumulativeReward.
    destruct (negb (hasStateRewards model) && negb (hasTransitionRewards model));
      [reflexivity|].
    run_checker.
    destruct (minimumOperatorStack st) eqn:Est; cbn [snd minimumOperatorStack logged];
      exact Est.
  - apply checkReachabilityReward_stack.
  - apply computeUnboundedUntilProbabilities_stack.
Qed.

End StackFrame.

Section ReducedIndices.

Context {T : Type} `{VT : ValueType T}.

Lemma columnRank_zero (p : BitVector) : columnRank p 0 = 0.
Proof. reflexivity. Qed.

Lemma columnRank_true (p : BitVector) (s : nat) :
  columnRank (true :: p) (S s) = S (columnRank p s).
Proof.
  unfold columnRank, BV.getNumberOfSetBits. cbn [firstn].
  now rewrite count_occ_cons_eq.
Qed.

Lemma columnRank_false (p : BitVector) (s : nat) :
  columnRank (false :: p) (S s) = columnRank p s.
Proof.
  unfold columnRank, BV.getNumberOfSetBits. cbn [firstn].
  now rewrite count_occ_cons_neq.
Qed.

Lemma nth_tl (xs : @Vec T) (k : nat) (d : T) : nth k (tl xs) d = nth (S k) xs d.
Proof. destruct xs as [|x xs]; [destruct k|]; reflexivity. Qed.

(** A set position receives the value whose index is the number of set
    positions before it, the index [getSubmatrix] gives to the column of
    that state. *)
Lemma setVectorValuesFrom_set (v : @Vec T) (p : BitVector) (xs : Vec) (s : nat) :
  s < length v -> BV.get p s = true ->
  nth s (setVectorValuesFrom v p xs) constGetZero = nth (columnRank p s) xs constGetZero.
Proof.
  unfold BV.get. revert p xs s.
  induction v as [|a v IH]; intros [|b p] xs [|s] L H; simpl in *;
    try lia; try discriminate.
  - subst b. destruct xs; reflexivity.
  - destruct b.
    + rewrite columnRank_true. cbn [nth]. rewrite IH by (assumption || lia).
      apply nth_tl.
    + rewrite columnRank_false. cbn [nth]. apply IH; [lia | assumption].
Qed.

End ReducedIndices.

Section NumericBranches.

Context {T : Type} `{VT : ValueType T} {Graph : GraphUtility T}
        {Solver : NondeterministicLinearEquationSolver T}.

(** X2. When [computeUnboundedUntilProbabilities] has to solve (an initial
    state is a maybe-state and the check is not qualitative) on a
    non-empty index vector, it asks the
    solver once, for the system reduced to the maybe-states and started
    from the zero vector, and writes the answer back by position: the
    maybe-state [s] holds the solver's value at the index that counts the
    maybe-states before [s], which is the column [getSubmatrix] gave to
    [s]. *)
Theorem X2_until_values_follow_reduced_index
    (minimize : bool) (A : SparseMatrix) (groups : list nat) (backward : SparseMatrix)
    (initialStates phiStates psiStates : BitVector) (qualitative : bool) (st : CheckerState) :
  let statesWithProbability01 :=
    if minimize then performProb01Min A groups backward phiStates psiStates
    else performProb01Max A groups backward phiStates psiStates in
  let statesWithProbability1 := snd statesWithProbability01 in
  let maybeStates :=
    BV.complement (BV.bor (fst statesWithProbability01) statesWithProbability1) in
  let submatrix := getSubmatrix A maybeStates groups in
  let x0 := repeat constGetZero (BV.getNumberOfSetBits maybeStates) in
  let b := getConstrainedRowSumVector A maybeStates groups statesWithProbability1
             (length submatrix) in
  let subGroups := getConstrainedOffsetVector groups maybeStates in
  BV.isDisjointFrom initialStates maybeStates || qualitative = false ->
  groups <> [] ->
  exists (result : Vec) (scheduler : TotalScheduler),
    computeUnboundedUntilProbabilities minimize A groups backward initialStates phiStates
      psiStates qualitative st
      = (Returns (result, scheduler),
         logged (GmmxxMatrixVectorMultiplication A result 1)
           (logged (SolveEquationSystem minimize submatrix x0 b subGroups) st))
    /\ forall s, s < BV.size phiStates -> BV.get maybeStates s = true ->
         nth s result constGetZero
           = nth (columnRank maybeStates s)
                 (solveEquationSystem minimize submatrix x0 b subGroups) constGetZero.
Proof.
  intros s01 prob1 maybeStates submatrix x0 b subGroups Hsolve Hgroups.
  unfold computeUnboundedUntilProbabilities. cbv zeta.
  fold s01. fold prob1. fold maybeStates. fold submatrix. fold x0 b subGroups.
  rewrite Hsolve. run_checker. rewrite computeExtremalScheduler_value by exact Hgroups.
  eexists. eexists. split; [reflexivity|].
  intros s Ls Hm.
  destruct (get_complement_true _ _ Hm) as [Hor Lor].
  destruct (get_bor_false _ _ _ Lor Hor) as [H0 H1].
  rewrite setVectorValues_unset by exact H1.
  rewrite setVectorValues_unset by exact H0.
  apply setVectorValuesFrom_set; [now rewrite repeat_length | exact Hm].
Qed.

Variable model : Mdp T.

(** X3. When [checkBoundedUntil] has to sweep (an initial state has
    positive probability), every kept state [s] holds the value the solver
    returned at the index that counts the kept states before [s], and the
    result has one entry per state of the model whatever the size of the
    solver's answer. *)
Theorem X3_bounded_until_values_follow_reduced_index
    (phiStates psiStates : BitVector) (stepBound : nat) (qualitative : bool)
    (st : CheckerState) (m : bool) (rest : list bool) :
  minimumOperatorStack st = m :: rest ->
  let A := getTransitionMatrix model in
  let groups := getNondeterministicChoiceIndices model in
  let kept :=
    if m then performProbGreater0A A groups (getBackwardTransitions model)
                phiStates psiStates true stepBound
    else performProbGreater0E A groups (getBackwardTransitions model)
           phiStates psiStates true stepBound in
  let subGroups := getConstrainedOffsetVector groups kept in
  let psiKept := BV.restrict psiStates kept in
  let submatrix := makeRowsAbsorbing (getSubmatrix A kept groups) psiKept subGroups in
  let seed := setVectorValues (repeat constGetZero (BV.getNumberOfSetBits kept))
                psiKept constGetOne in
  BV.isDisjointFrom (getInitialStates model) kept = false ->
  exists result : Vec,
    fst (checkBoundedUntil model phiStates psiStates stepBound qualitative st)
      = Returns result
    /\ length result = getNumberOfStates model
    /\ forall s, s < getNumberOfStates model -> BV.get kept s = true ->
         nth s result constGetZero
           = nth (columnRank kept s)
                 (performMatrixVectorMultiplication m submatrix seed subGroups None stepBound)
                 constGetZero.
Proof.
  intros Est A groups kept subGroups psiKept submatrix seed Hsweep.
  unfold checkBoundedUntil. run_checker. cbv zeta. rewrite Est. cbv beta iota.
  fold A groups. fold kept. rewrite Hsweep. rewrite Est. cbv beta iota.
  fold subGroups psiKept. fold submatrix. fold seed. cbn [fst].
  eexists. split; [reflexivity|]. split.
  - now rewrite setVectorValues_length, setVectorValuesFrom_length, repeat_length.
  - intros s Ls Hk.
    assert (Hc : BV.get (BV.complement kept) s = false).
    { destruct (BV.get (BV.complement kept) s) eqn:E; [|reflexivity].
      apply get_complement_true in E. destruct E as [E _]. congruence. }
    rewrite setVectorValues_unset by exact Hc.
    apply setVectorValuesFrom_set; [now rewrite repeat_length | exact Hk].
Qed.

(** X4. On a model with a non-empty index vector, the vector
    [checkReachabilityReward] returns has one entry per state of the
    model; every state of the infinity set holds infinity, and every
    target state outside the infinity set holds zero. *)
Theorem X4_reachability_reward_assembly
    (minimize : bool) (targetStates : BitVector) (qualitative : bool) (st : CheckerState)
    (m : bool) (rest : list bool) :
  hasStateRewards model || hasTransitionRewards model = true ->
  getNondeterministicChoiceIndices model <> [] ->
  minimumOperatorStack st = m :: rest ->
  let A := getTransitionMatrix model in
  let groups := getNondeterministicChoiceIndices model in
  let infinityStates :=
    BV.complement
      (if minimize
       then performProb1A A groups (getBackwardTransitions model)
              (BV.full (getNumberOfStates model)) targetStates
       else performProb1E A groups (getBackwardTransitions model)
              (BV.full (getNumberOfStates model)) targetStates) in
  exists (result : Vec) (scheduler : TotalScheduler),
    fst (checkReachabilityReward model minimize targetStates qualitative st)
      = Returns (result, scheduler)
    /\ length result = getNumberOfStates model
    /\ forall s, s < getNumberOfStates model ->
         (BV.get infinityStates s = true -> nth s result constGetZero = constGetInfinity)
         /\ (BV.get infinityStates s = false -> BV.get targetStates s = true ->
             nth s result constGetZero = constGetZero).
Proof.
  intros Hrew Hgroups Est A groups infinityStates.
  unfold checkReachabilityReward. rewrite Hrew. cbn [negb]. cbv zeta.
  fold A groups. fold infinityStates.
  assert (Hgeneric : forall inner : Vec,
             length inner = getNumberOfStates model ->
             let result := setVectorValues (setVectorValues inner targetStates constGetZero)
                             infinityStates constGetInfinity in
             length result = getNumberOfStates model
             /\ forall s, s < getNumberOfStates model ->
                  (BV.get infinityStates s = true ->
                   nth s result constGetZero = constGetInfinity)
                  /\ (BV.get infinityStates s = false -> BV.get targetStates s = true ->
                      nth s result constGetZero = constGetZero)).
  { intros inner Hlen result. split.
    - unfold result. now rewrite !setVectorValues_length.
    - intros s Ls. split.
      + intros Hi. apply setVectorValues_set;
          [now rewrite setVectorValues_length, Hlen | exact Hi].
      + intros Hi Ht. unfold result. rewrite setVectorValues_unset by exact Hi.
        apply setVectorValues_set; [now rewrite Hlen | exact Ht]. }
  destruct (BV.isDisjointFrom (getInitialStates model) _); run_checker;
    cbn [minimumOperatorStack logged]; rewrite Est; cbv beta iota;
    rewrite computeExtremalScheduler_value by exact Hgroups; cbn [fst];
    eexists; eexists; (split; [reflexivity|]); apply Hgeneric.
  - now rewrite setVectorValues_length, repeat_length.
  - now rewrite setVectorValuesFrom_length, repeat_length.
Qed.

End NumericBranches.

Section RewardScheduler.

Context {T : Type} {VT : ValueType T} {OVT : @OrderedValueType T VT}
        {Graph : GraphUtility T} {Solver : NondeterministicLinearEquationSolver T}.

Variable model : Mdp T.

(** X5. The scheduler of [checkReachabilityReward] is extracted in the
    direction on top of the direction stack, not in the direction of the
    [minimize] argument that the values were computed for: on a
    well-formed row grouping, every state picks the first row that is
    extremal in the direction [m] of the stack for the one-step lookahead
    (rewards included) on the returned vector. *)
Theorem X5_reachability_scheduler_follows_stack
    (minimize : bool) (targetStates : BitVector) (qualitative : bool) (st : CheckerState)
    (m : bool) (rest : list bool) :
  hasStateRewards model || hasTransitionRewards model = true ->
  minimumOperatorStack st = m :: rest ->
  wellFormedRowGrouping (getNondeterministicChoiceIndices model) (getNumberOfStates model)
    (length (getTransitionMatrix model)) ->
  exists (result : Vec) (scheduler : TotalScheduler),
    fst (checkReachabilityReward model minimize targetStates qualitative st)
      = Returns (result, scheduler)
    /\ isExtremalScheduler m (getNondeterministicChoiceIndices model)
         (getNumberOfStates model)
         (lookaheadValues (getTransitionMatrix model)
            (getNondeterministicChoiceIndices model) result
            (if hasStateRewards model then Some (getStateRewardVector model) else None)
            (if hasTransitionRewards model then Some (getTransitionRewardMatrix model)
             else None))
         scheduler.
Proof.
  intros Hrew Est WF.
  assert (Hext : forall inner : Vec,
             length inner = getNumberOfStates model ->
             isExtremalScheduler m (getNondeterministicChoiceIndices model)
               (getNumberOfStates model)
               (lookaheadValues (getTransitionMatrix model)
                  (getNondeterministicChoiceIndices model) inner
                  (if hasStateRewards model then Some (getStateRewardVector model) else None)
                  (if hasTransitionRewards model
                   then Some (getTransitionRewardMatrix model) else None))
               (snd (reduceVector (strictlyBetter m)
                       (lookaheadValues (getTransitionMatrix model)
                          (getNondeterministicChoiceIndices model) inner
                          (if hasStateRewards model
                           then Some (getStateRewardVector model) else None)
                          (if hasTransitionRewards model
                           then Some (getTransitionRewardMatrix model) else None))
                       (repeat constGetZero
                          (length (getNondeterministicChoiceIndices model) - 1))
                       (getNondeterministicChoiceIndices model)
                       (repeat 0 (length inner))))).
  { intros inner Hlen. rewrite Hlen. apply reduceVector_extremal.
    now rewrite lookaheadValues_length. }
  unfold checkReachabilityReward. rewrite Hrew. cbn [negb]. cbv zeta.
  destruct (BV.isDisjointFrom (getInitialStates model) _); run_checker;
    cbn [minimumOperatorStack logged]; rewrite Est; cbv beta iota;
    rewrite computeExtremalScheduler_value
      by exact (wellFormedRowGrouping_nonempty _ _ _ WF);
    cbn [fst];
    eexists; eexists; (split; [reflexivity|]); apply Hext.
  - now rewrite !setVectorValues_length, repeat_length.
  - now rewrite !setVectorValues_length, setVectorValuesFrom_length, repeat_length.
Qed.

End RewardScheduler.

Section OperatorComposition.

Context {T : Type} `{VT : ValueType T} {Graph : GraphUtility T}
        {Solver : NondeterministicLinearEquationSolver T}.

Variable model : Mdp T.

(** X6. On a model with a non-empty index vector, an operator without
    bound over an until formula whose operands are already known state
    sets computes the until probabilities in the direction the operator
    declares, never qualitatively, and leaves the direction stack as it
    found it: [checkNoBoundOperator] returns the
    vector that [checkUntil] yields for the operator's direction with
    [qualitative = false], in the same final state, whatever order the
    arguments of the call in [checkUntil(formula, qualitative)] are
    evaluated in. *)
Theorem X6_operator_over_until
    (order : ArgumentOrder) (isMinimum : bool) (phiStates psiStates : BitVector)
    (st : CheckerState) :
  getNondeterministicChoiceIndices model <> [] ->
  let formula := {| isOptimalityOperator := true;
                    isMinimumOperator := isMinimum;
                    check := checkUntilFormula model order
                               {| untilLeft := ret phiStates;
                                  untilRight := ret psiStates |} |} in
  exists (result : Vec) (scheduler : TotalScheduler) (st' : CheckerState),
    checkUntil model isMinimum phiStates psiStates false st
      = (Returns (result, scheduler), st')
    /\ checkNoBoundOperator formula st = (Returns result, st').
Proof.
  intros Hgroups formula.
  unfold formula, checkNoBoundOperator, checkUntilFormula, checkUntil,
    computeUnboundedUntilProbabilities, evaluateThree, push, pop.
  cbn [isOptimalityOperator isMinimumOperator check negb untilLeft untilRight].
  cbv zeta.
  destruct order; run_checker; cbn [minimumOperatorStack solverCalls fst snd];
    cbv beta iota;
    destruct (BV.isDisjointFrom (getInitialStates model) _ || false); run_checker;
    rewrite !computeExtremalScheduler_value by exact Hgroups;
    cbn [minimumOperatorStack solverCalls logged fst snd];
    do 3 eexists; split; reflexivity.
Qed.

(** X7. Through the operator the two directions of
    [checkReachabilityReward] agree: on a model with a reward component
    and a non-empty index vector, an operator without bound over a
    reachability-reward formula with a known target set returns the
    vector that [checkReachabilityReward] computes for the operator's
    direction with that same direction on top of the stack, and then
    restores the stack. *)
Theorem X7_operator_over_reachability_reward
    (topFirst : bool) (isMinimum : bool) (targetStates : BitVector) (st : CheckerState) :
  hasStateRewards model || hasTransitionRewards model = true ->
  getNondeterministicChoiceIndices model <> [] ->
  let formula := {| isOptimalityOperator := true;
                    isMinimumOperator := isMinimum;
                    check := checkReachabilityRewardFormula model topFirst
                               {| childCheck := ret targetStates |} |} in
  exists (result : Vec) (scheduler : TotalScheduler) (st' : CheckerState),
    checkReachabilityReward model isMinimum targetStates false (pushed isMinimum st)
      = (Returns (result, scheduler), st')
    /\ checkNoBoundOperator formula st
       = (Returns result, {| minimumOperatorStack := minimumOperatorStack st;
                             solverCalls := solverCalls st' |}).
Proof.
  intros Hrew Hgroups formula.
  unfold formula, checkNoBoundOperator, checkReachabilityRewardFormula,
    checkReachabilityReward, evaluateBoth, push, pop, pushed.
  cbn [isOptimalityOperator isMinimumOperator check negb childCheck].
  rewrite Hrew. cbn [negb]. cbv zeta.
  destruct topFirst; run_checker; cbn [minimumOperatorStack solverCalls fst snd];
    cbv beta iota;
    destruct (BV.isDisjointFrom (getInitialStates model) _); run_checker;
    cbn [minimumOperatorStack solverCalls logged fst snd]; cbv beta iota;
    rewrite !computeExtremalScheduler_value by exact Hgroups;
    cbn [minimumOperatorStack solverCalls logged fst snd];
    do 3 eexists; split; reflexivity.
Qed.

End OperatorComposition.

(* ================================================================== *)
(** * The direction stack outside an operator *)
(* ================================================================== *)

Section EmptyStack.

Context {T : Type} `{VT : ValueType T} {Graph : GraphUtility T}
        {Solver : NondeterministicLinearEquationSolver T}.

Variable model : Mdp T.

(** X13. The entry points that read the direction from the stack have
    undefined behaviour exactly when they get that far with an empty
    stack, that is, when they are called outside [checkNoBoundOperator]:
    [checkBoundedUntil] and [checkNext] always, the three reward methods
    when the model has the reward component they ask for (otherwise they
    throw first).  [checkUntil], which is given its direction, never
    does. *)
Theorem X13_undefined_exactly_on_empty_stack
    (minimize : bool) (phiStates psiStates : BitVector) (bound : nat) (qualitative : bool)
    (st : CheckerState) :
  (fst (checkBoundedUntil model phiStates psiStates bound qualitative st) = Undefined
   <-> minimumOperatorStack st = [])
  /\ (fst (checkNext model psiStates qualitative st) = Undefined
      <-> minimumOperatorStack st = [])
  /\ (fst (checkInstantaneousReward model bound qualitative st) = Undefined
      <-> hasStateRewards model = true /\ minimumOperatorStack st = [])
  /\ (fst (checkCumulativeReward model bound qualitative st) = Undefined
      <-> hasStateRewards model || hasTransitionRewards model = true
          /\ minimumOperatorStack st = [])
  /\ (fst (checkReachabilityReward model minimize psiStates qualitative st) = Undefined
      <-> hasStateRewards model || hasTransitionRewards model = true
          /\ minimumOperatorStack st = [])
  /\ fst (checkUntil model minimize phiStates psiStates qualitative st) <> Undefined.
Proof.
  repeat split.
  - unfold checkBoundedUntil. run_checker. cbv zeta.
    destruct (minimumOperatorStack st) eqn:Est; [reflexivity|].
    destruct (BV.isDisjointFrom (getInitialStates model) _); cbv beta iota;
      rewrite ?Est; cbv beta iota; discriminate.
  - intros Est. unfold checkBoundedUntil. run_checker. cbv zeta. now rewrite Est.
  - unfold checkNext. run_checker.
    destruct (minimumOperatorStack st); [reflexivity | discriminate].
  - intros Est. unfold checkNext. run_checker. now rewrite Est.
  - revert H. unfold checkInstantaneousReward.
    destruct (hasStateRewards model); [reflexivity | discriminate].
  - revert H. unfold checkInstantaneousReward.
    destruct (hasStateRewards model); [|discriminate]. cbn [negb]. run_checker.
    destruct (minimumOperatorStack st); [reflexivity | discriminate].
  - intros [Hr Est]. unfold checkInstantaneousReward. rewrite Hr. cbn [negb].
    run_checker. now rewrite Est.
  - revert H. unfold checkCumulativeReward.
    destruct (hasStateRewards model), (hasTransitionRewards model);
      (reflexivity || discriminate).
  - revert H. unfold checkCumulativeReward.
    destruct (negb (hasStateRewards model) && negb (hasTransitionRewards model));
      [discriminate|].
    run_checker. destruct (minimumOperatorStack st); [reflexivity | discriminate].
  - intros [Hr Est]. unfold checkCumulativeReward.
    replace (negb (hasStateRewards model) && negb (hasTransitionRewards model)) with false
      by (destruct (hasStateRewards model), (hasTransitionRewards model);
          (reflexivity || discriminate)).
    run_checker. now rewrite Est.
  - revert H. unfold checkReachabilityReward.
    destruct (hasStateRewards model || hasTransitionRewards model);
      [reflexivity | discriminate].
  - revert H. unfold checkReachabilityReward.
    destruct (negb (hasStateRewards model || hasTransitionRewards model)); [discriminate|].
    cbv zeta.
    destruct (BV.isDisjointFrom (getInitialStates model) _); run_checker;
      cbn [minimumOperatorStack logged];
      (destruct (minimumOperatorStack st); [reflexivity|]);
      cbv beta iota; scheduler_cases; discriminate.
  - intros [Hr Est]. unfold checkReachabilityReward. rewrite Hr. cbn [negb]. cbv zeta.
    destruct (BV.isDisjointFrom (getInitialStates model) _); run_checker;
      cbn [minimumOperatorStack logged]; now rewrite Est.
  - unfold checkUntil, computeUnboundedUntilProbabilities. cbv zeta.
    destruct (BV.isDisjointFrom (getInitialStates model) _ || qualitative); run_checker;
      scheduler_cases; discriminate.
Qed.

End EmptyStack.

(** ** Concrete runs of the solver entry points *)

(** X2, at the coin model when minimizing: the initial state 0 is the one
    maybe-state, and it holds the solver's only value. *)
Lemma X2_until_values_follow_reduced_index_witness :
  BV.isDisjointFrom (getInitialStates coinMdp) [true; false; false] || false = false
  /\ getNondeterministicChoiceIndices coinMdp <> []
  /\ exists (result : Vec) (scheduler : TotalScheduler),
       computeUnboundedUntilProbabilities true (getTransitionMatrix coinMdp)
         (getNondeterministicChoiceIndices coinMdp) (getBackwardTransitions coinMdp)
         (getInitialStates coinMdp) [true; true; true] [false; true; false] false emptyState
       = (Returns (result, scheduler),
          logged (GmmxxMatrixVectorMultiplication (getTransitionMatrix coinMdp) result 1)
            (logged (SolveEquationSystem true [ []; [] ] [Finite 0]
                       [Finite (1 # 2); Finite (1 # 4)] [0; 2])
                    emptyState))
       /\ forall s, s < 3 -> BV.get [true; false; false] s = true ->
            nth s result constGetZero
              = nth (columnRank [true; false; false] s)
                    (solveEquationSystem true [ []; [] ] [Finite 0]
                       [Finite (1 # 2); Finite (1 # 4)] [0; 2])
                    constGetZero.
Proof.
  assert (Hgroups : getNondeterministicChoiceIndices coinMdp <> []) by discriminate.
  split; [reflexivity|]. split; [exact Hgroups|].
  exact (X2_until_values_follow_reduced_index true (getTransitionMatrix coinMdp)
           (getNondeterministicChoiceIndices coinMdp) (getBackwardTransitions coinMdp)
           (getInitialStates coinMdp) [true; true; true] [false; true; false] false
           emptyState eq_refl Hgroups).
Defined.

(** X3, at the coin model when maximizing with step bound 3: the states 0
    and 1 are kept. *)
Lemma X3_bounded_until_values_follow_reduced_index_witness :
  minimumOperatorStack (stateWithDirection false) = [false]
  /\ BV.isDisjointFrom (getInitialStates coinMdp) [true; true; false] = false
  /\ exists result : Vec,
       fst (checkBoundedUntil coinMdp [true; true; true] [false; true; false] 3 false
              (stateWithDirection false))
         = Returns result
       /\ length result = 3
       /\ forall s, s < 3 -> BV.get [true; true; false] s = true ->
            nth s result constGetZero
              = nth (columnRank [true; true; false] s)
                    (performMatrixVectorMultiplication false
                       [ [(1, Finite (1 # 2))]; [(1, Finite (1 # 4))]; [(1, q1)] ]
                       [Finite 0; Finite 1] [0; 2; 3] None 3)
                    constGetZero.
Proof.
  split; [reflexivity|]. split; [reflexivity|].
  exact (X3_bounded_until_values_follow_reduced_index coinMdp [true; true; true]
           [false; true; false] 3 false (stateWithDirection false) false []
           eq_refl eq_refl).
Defined.

(** X4, at the two-state reward model when minimizing: state 0 is in the
    infinity set, the target state 1 is not. *)
Lemma X4_reachability_reward_assembly_witness :
  hasStateRewards twoStateRewardMdp || hasTransitionRewards twoStateRewardMdp = true
  /\ getNondeterministicChoiceIndices twoStateRewardMdp <> []
  /\ minimumOperatorStack (stateWithDirection true) = [true]
  /\ exists (result : Vec) (scheduler : TotalScheduler),
       fst (checkReachabilityReward twoStateRewardMdp true [false; true] false
              (stateWithDirection true))
         = Returns (result, scheduler)
       /\ length result = 2
       /\ forall s, s < 2 ->
            (BV.get [true; false] s = true -> nth s result constGetZero = Infinite)
            /\ (BV.get [true; false] s = false -> BV.get [false; true] s = true ->
                nth s result constGetZero = Finite 0).
Proof.
  assert (Hgroups : getNondeterministicChoiceIndices twoStateRewardMdp <> [])
    by discriminate.
  split; [reflexivity|]. split; [exact Hgroups|]. split; [reflexivity|].
  exact (X4_reachability_reward_assembly twoStateRewardMdp true [false; true] false
           (stateWithDirection true) true [] eq_refl Hgroups eq_refl).
Defined.

(** X5, at the two-state reward model: the values are computed for the
    maximum while the stack says minimum, and the scheduler is the one of
    the minimum. *)
Lemma X5_reachability_scheduler_follows_stack_witness :
  hasStateRewards twoStateRewardMdp || hasTransitionRewards twoStateRewardMdp = true
  /\ minimumOperatorStack (stateWithDirection true) = [true]
  /\ wellFormedRowGrouping (getNondeterministicChoiceIndices twoStateRewardMdp) 2
       (length (getTransitionMatrix twoStateRewardMdp))
  /\ exists (result : Vec) (scheduler : TotalScheduler),
       fst (checkReachabilityReward twoStateRewardMdp false [false; true] false
              (stateWithDirection true))
         = Returns (result, scheduler)
       /\ isExtremalScheduler true (getNondeterministicChoiceIndices twoStateRewardMdp) 2
            (lookaheadValues (getTransitionMatrix twoStateRewardMdp)
               (getNondeterministicChoiceIndices twoStateRewardMdp) result
               (Some (getStateRewardVector twoStateRewardMdp)) None)
            scheduler.
Proof.
  assert (WF : wellFormedRowGrouping (getNondeterministicChoiceIndices twoStateRewardMdp)
                 (getNumberOfStates twoStateRewardMdp)
                 (length (getTransitionMatrix twoStateRewardMdp))).
  { split; [reflexivity|]. split; [|reflexivity].
    intros [|[|s]] Hs; cbn in *; lia. }
  split; [reflexivity|]. split; [reflexivity|]. split; [exact WF|].
  exact (X5_reachability_scheduler_follows_stack (OVT := ExtendedRationalOrdered)
           twoStateRewardMdp false [false; true] false (stateWithDirection true) true []
           eq_refl eq_refl WF).
Defined.

(** X7, at "Rmin=? [ F target ]" on the two-state reward model. *)
Lemma X7_operator_over_reachability_reward_witness :
  hasStateRewards twoStateRewardMdp || hasTransitionRewards twoStateRewardMdp = true
  /\ getNondeterministicChoiceIndices twoStateRewardMdp <> []
  /\ exists (result : Vec) (scheduler : TotalScheduler) (st' : CheckerState),
       checkReachabilityReward twoStateRewardMdp true [false; true] false
         (pushed true emptyState)
       = (Returns (result, scheduler), st')
       /\ checkNoBoundOperator
            {| isOptimalityOperator := true;
               isMinimumOperator := true;
               check := checkReachabilityRewardFormula twoStateRewardMdp true
                          {| childCheck := ret [false; true] |} |}
            emptyState
          = (Returns result, {| minimumOperatorStack := minimumOperatorStack emptyState;
                                solverCalls := solverCalls st' |}).
Proof.
  assert (Hgroups : getNondeterministicChoiceIndices twoStateRewardMdp <> [])
    by discriminate.
  split; [reflexivity|]. split; [exact Hgroups|].
  exact (X7_operator_over_reachability_reward twoStateRewardMdp true true [false; true]
           emptyState eq_refl Hgroups).
Defined.

(** X6, at "Pmin=? [ phi U psi ]" on the coin model, with the direction
    read first. *)
Lemma X6_operator_over_until_witness :
  getNondeterministicChoiceIndices coinMdp <> []
  /\ exists (result : Vec) (scheduler : TotalScheduler) (st' : CheckerState),
       checkUntil coinMdp true [true; true; true] [false; true; false] false emptyState
       = (Returns (result, scheduler), st')
       /\ checkNoBoundOperator
            {| isOptimalityOperator := true;
               isMinimumOperator := true;
               check := checkUntilFormula coinMdp Order123
                          {| untilLeft := ret [true; true; true];
                             untilRight := ret [false; true; false] |} |}
            emptyState
          = (Returns result, st').
Proof.
  assert (Hgroups : getNondeterministicChoiceIndices coinMdp <> []) by discriminate.
  split; [exact Hgroups|].
  exact (X6_operator_over_until coinMdp Order123 true [true; true; true]
           [false; true; false] emptyState Hgroups).
Defined.

(* ================================================================== *)
(** * Properties of the dispatcher *)
(* ================================================================== *)

Section ComparisonTypes.

Import Logic.

(** X8. [invert] turns a comparison into its negation: inverting twice
    gives the comparison back, and the inverted comparison is a lower
    bound exactly when the comparison is not, and strict exactly when the
    comparison is not. *)
Theorem X8_invert_negates_comparison (t : ComparisonType) :
  invert (invert t) = t
  /\ isLowerBound (invert t) = negb (isLowerBound t)
  /\ isStrict (invert t) = negb (isStrict t).
Proof. destruct t; repeat split. Qed.

End ComparisonTypes.

Section DispatcherProperties.

Import Logic AbstractModelChecker.

Context {Threshold Qualitative Quantitative State : Type}
        {Operations : @ResultOperations Threshold Qualitative Quantitative}.

Variable isStateFormula isPathFormula : Formula Threshold -> bool.
Variable isValidProbabilityPathFormula isValidRewardPathFormula : Formula Threshold -> bool.

Abbreviation checkWith self :=
  (@check Threshold Qualitative Quantitative State Operations isStateFormula isPathFormula
     isValidProbabilityPathFormula isValidRewardPathFormula self).

(** Runs the methods of the dispatcher on a state, up to the calls of
    [check] on subformulas and of the virtual methods. *)
Ltac run_dispatcher :=
  unfold checkStateFormula, checkBinaryBooleanStateFormula, checkUnaryBooleanStateFormula,
    checkProbabilityOperatorFormula, checkRewardOperatorFormula,
    checkExpectedTimeOperatorFormula, checkLongRunAverageOperatorFormula,
    checkAtomicExpressionFormula, computeProbabilities, computeRewards,
    computeEventuallyProbabilities, compareIfBound;
  unfold mcBind, STORM_LOG_THROW, mcRet, mcThrow;
  cbv beta iota zeta.

(** X9. A checker that overrides none of the virtual methods answers no
    formula: whatever [canHandle] and the class tests say, [check] throws
    an [InvalidArgumentException] or a [NotImplementedException] and
    leaves the state of the checker as it was. *)
Theorem X9_base_checker_never_returns
    (canHandle' : Formula Threshold -> bool) (checkTask : CheckTask)
    (formula : Formula Threshold) (st : State) :
  exists e : Exception Threshold,
    checkWith (baseMethods canHandle') checkTask formula st = (Thrown e, st)
    /\ isInvalidArgumentException e || isNotImplementedException e = true.
Proof.
  revert st.
  induction formula as [isAnd isOr l IHl r IHr|isNot sub IHsub| | | | | | | | | | | | | | | | ];
    intros st; cbn [check]; run_dispatcher.
  all: cbn [canHandle baseMethods].
  all: destruct (canHandle' _); [|eexists; split; reflexivity].
  all: destruct (isStateFormula _); [|destruct (isPathFormula _);
         [destruct (taskComputeProbabilities checkTask);
            [|destruct (taskComputeRewards checkTask)]|]].
  all: try (eexists; split; reflexivity).
  - destruct (isStateFormula l && isStateFormula r); [|eexists; split; reflexivity].
    destruct (IHl st) as [e [-> He]]. eexists; split; [reflexivity | exact He].
  - destruct (IHsub st) as [e [-> He]]. eexists; split; [reflexivity | exact He].
  - destruct (isValidProbabilityPathFormula _); [|eexists; split; reflexivity].
    destruct formula; eexists; split; reflexivity.
  - destruct (isValidRewardPathFormula _); [|eexists; split; reflexivity].
    destruct formula; eexists; split; reflexivity.
  - destruct (isEventuallyFormula _); eexists; split; reflexivity.
  - destruct (isStateFormula formula); eexists; split; reflexivity.
Qed.

Variable self : @Methods Threshold Qualitative Quantitative State.

Lemma isHandledBooleanCombination_isStateFormula (formula : Formula Threshold) :
  isHandledBooleanCombination isStateFormula self formula = true ->
  isStateFormula formula = true.
Proof.
  destruct formula; cbn [isHandledBooleanCombination]; intros H;
    repeat match goal with E : _ && _ = true |- _ => apply andb_prop in E; destruct E end;
    try discriminate; assumption.
Qed.

(** X10. On Boolean combinations [check] computes the truth values
    compositionally.  If the label and literal methods of the checker
    always return the qualitative results [ofLabel] and [ofLiteral]
    (whatever they do to the state), then for a formula built from labels,
    atomic expressions and literals with [And], [Or] and [Not], all parts
    of which are state formulas the checker can handle, [check] returns
    the qualitative result obtained by [&=], [|=] and [complement] from
    the results of the leaves, an atomic expression counting as the label
    it prints as. *)
Theorem X10_boolean_combination_truth_values
    (ofLabel : string -> Qualitative) (ofLiteral : bool -> Qualitative) :
  (forall checkTask label st,
     fst (checkAtomicLabelFormula self checkTask (AtomicLabelFormula label) st)
     = Returned (QualitativeCheckResult (ofLabel label))) ->
  (forall checkTask value st,
     fst (checkBooleanLiteralFormula self checkTask (BooleanLiteralFormula value) st)
     = Returned (QualitativeCheckResult (ofLiteral value))) ->
  forall (checkTask : CheckTask) (formula : Formula Threshold) (st : State),
    isHandledBooleanCombination isStateFormula self formula = true ->
    fst (checkWith self checkTask formula st)
    = Returned (QualitativeCheckResult (truthValuesOf ofLabel ofLiteral formula)).
Proof.
  intros Hlabel Hliteral checkTask formula.
  induction formula as [isAnd isOr l IHl r IHr|isNot sub IHsub| | | | | | | | | | | | | | | | ];
    intros st H; cbn [isHandledBooleanCombination] in H;
    repeat match goal with E : _ && _ = true |- _ => apply andb_prop in E; destruct E end;
    try discriminate;
    cbn [check truthValuesOf]; run_dispatcher;
    repeat match goal with E : ?b = true |- _ => is_var b; subst b end;
    repeat match goal with E : _ = true |- _ => rewrite E; clear E end;
    cbv beta iota.
  - rewrite (isHandledBooleanCombination_isStateFormula l),
      (isHandledBooleanCombination_isStateFormula r) by assumption.
    cbv beta iota. cbn [andb]. cbv beta iota.
    specialize (IHl st). destruct (checkWith self checkTask l st) as [rl stl].
    cbn [fst] in IHl. rewrite IHl by assumption.
    specialize (IHr stl). destruct (checkWith self checkTask r stl) as [rr str].
    cbn [fst] in IHr. rewrite IHr by assumption.
    cbn [isQualitative andb].
    destruct isAnd; [reflexivity|]. destruct isOr; [reflexivity | discriminate].
  - specialize (IHsub st). destruct (checkWith self checkTask sub st) as [rs sts].
    cbn [fst] in IHsub. rewrite IHsub by assumption. reflexivity.
  - apply Hliteral.
  - apply Hlabel.
  - apply Hlabel.
Qed.

(** X11. [check] returns a result only for a formula the checker can
    handle; where the formula is a Boolean connective, the connective is
    [And], [Or] or [Not], the operands of a binary connective are state
    formulas, the same holds of the operands in turn, and the result is
    qualitative. *)
Theorem X11_returned_result_presupposes
    (checkTask : CheckTask) (formula : Formula Threshold) (st st' : State)
    (result : CheckResult) :
  checkWith self checkTask formula st = (Returned result, st') ->
  isAcceptedByCheck isStateFormula self formula = true
  /\ (isBooleanConnective formula = true -> isQualitative result = true).
Proof.
  revert st st' result.
  induction formula as [isAnd isOr l IHl r IHr|isNot sub IHsub| | | | | | | | | | | | | | | | ];
    intros st st' result; cbn [check isAcceptedByCheck isBooleanConnective];
    unfold mcBind at 1, STORM_LOG_THROW at 1, mcRet, mcThrow;
    destruct (canHandle self _); try discriminate; cbn [andb];
    intros H; try (split; [reflexivity | discriminate]).
  - destruct (isStateFormula (BinaryBooleanStateFormula _ _ _ _)).
    + revert H. run_dispatcher.
      destruct (isStateFormula l); [|discriminate].
      destruct (isStateFormula r); [|discriminate]. cbn [andb].
      destruct (checkWith self checkTask l st) as [[a|e] st1] eqn:El; [|discriminate].
      destruct (checkWith self checkTask r st1) as [[b|e] st2] eqn:Er; [|discriminate].
      destruct (IHl _ _ _ El) as [-> _]. destruct (IHr _ _ _ Er) as [-> _].
      destruct a as [qa|]; destruct b as [qb|]; cbn [isQualitative andb];
        try discriminate.
      destruct isAnd; [intros H; inversion H; subst; split; intros; reflexivity|].
      destruct isOr; [intros H; inversion H; subst; split; intros; reflexivity|].
      discriminate.
    + exfalso. revert H. run_dispatcher.
      destruct (isPathFormula _); [|discriminate].
      destruct (taskComputeProbabilities checkTask); [discriminate|].
      destruct (taskComputeRewards checkTask); discriminate.
  - destruct (isStateFormula (UnaryBooleanStateFormula _ _)).
    + revert H. run_dispatcher.
      destruct (checkWith self checkTask sub st) as [[a|e] st1] eqn:Es; [|discriminate].
      destruct (IHsub _ _ _ Es) as [-> _].
      destruct a as [qa|]; cbn [isQualitative]; try discriminate.
      destruct isNot; [intros H; inversion H; subst; split; intros; reflexivity|].
      discriminate.
    + exfalso. revert H. run_dispatcher.
      destruct (isPathFormula _); [|discriminate].
      destruct (taskComputeProbabilities checkTask); [discriminate|].
      destruct (taskComputeRewards checkTask); discriminate.
Qed.

(** X12. A probability operator over an eventually formula [F phi] is
    answered by [computeUntilProbabilities] on [true U phi], followed by
    the comparison with the bound of the operator: once the operator
    formula is accepted and [F phi] is a valid probability path formula,
    [check] asks [canHandle] neither about [F phi] nor about the
    rewritten formula, and does not check [phi] itself. *)
Theorem X12_eventually_is_checked_as_until
    (checkTask : CheckTask) (bound : option (ComparisonType * Threshold))
    (subformula : Formula Threshold) (st : State) :
  canHandle self (ProbabilityOperatorFormula bound (EventuallyFormula subformula)) = true ->
  isStateFormula (ProbabilityOperatorFormula bound (EventuallyFormula subformula)) = true ->
  isValidProbabilityPathFormula (EventuallyFormula subformula) = true ->
  checkWith self checkTask (ProbabilityOperatorFormula bound (EventuallyFormula subformula)) st
  = mcBind (computeUntilProbabilities self checkTask
              (UntilFormula getTrueFormula subformula))
      (compareIfBound bound) st.
Proof.
  intros Hc Hs Hv. cbn [check]. rewrite Hc, Hs.
  unfold checkStateFormula, checkProbabilityOperatorFormula. rewrite Hv.
  reflexivity.
Qed.

End DispatcherProperties.

Section DispatcherRuns.

Import Logic AbstractModelChecker.

(** The small checker on [a & !(b | true)]: the result is false, and the
    labels were asked for from left to right. *)
Example exampleFormula_checked :
  exampleCheck exampleTask exampleFormula []
    = (Returned (QualitativeCheckResult false), ["b"; "a"]%string).
Proof. reflexivity. Qed.

(** X10, at the small checker and [a & !(b | true)]. *)
Lemma X10_boolean_combination_truth_values_witness :
  isHandledBooleanCombination exampleIsStateFormula exampleMethods exampleFormula = true
  /\ fst (exampleCheck exampleTask exampleFormula [])
     = Returned (QualitativeCheckResult
                   (truthValuesOf (Operations := exampleOperations) exampleLabelling
                      (fun value => value) exampleFormula)).
Proof.
  split; [reflexivity|].
  exact (X10_boolean_combination_truth_values (Operations := exampleOperations)
           exampleIsStateFormula exampleIsPathFormula exampleIsValidProbabilityPathFormula
           exampleIsValidRewardPathFormula exampleMethods exampleLabelling
           (fun value => value)
           (fun _ _ _ => eq_refl) (fun _ _ _ => eq_refl)
           exampleTask exampleFormula [] eq_refl).
Defined.

(** X11, at the same run. *)
Lemma X11_returned_result_presupposes_witness :
  exampleCheck exampleTask exampleFormula []
    = (Returned (QualitativeCheckResult false), ["b"; "a"]%string)
  /\ isAcceptedByCheck exampleIsStateFormula exampleMethods exampleFormula = true
  /\ (isBooleanConnective exampleFormula = true ->
      isQualitative (Quantitative := nat) (QualitativeCheckResult false) = true).
Proof.
  split; [reflexivity|].
  exact (X11_returned_result_presupposes (Operations := exampleOperations)
           exampleIsStateFormula exampleIsPathFormula exampleIsValidProbabilityPathFormula
           exampleIsValidRewardPathFormula exampleMethods exampleTask exampleFormula
           [] ["b"; "a"]%string (QualitativeCheckResult false) eq_refl).
Defined.

(** X12, at the small checker and [P>=1 [ F a ]]: the until method
    answers 1, which meets the bound. *)
Lemma X12_eventually_is_checked_as_until_witness :
  canHandle exampleMethods exampleEventually = true
  /\ exampleIsStateFormula exampleEventually = true
  /\ exampleIsValidProbabilityPathFormula (EventuallyFormula (AtomicLabelFormula "a")) = true
  /\ exampleCheck exampleTask exampleEventually []
     = mcBind (computeUntilProbabilities exampleMethods exampleTask
                 (UntilFormula getTrueFormula (AtomicLabelFormula "a")))
         (compareIfBound (Operations := exampleOperations) (Some (GreaterEqual, 1))) [].
Proof.
  split; [reflexivity|]. split; [reflexivity|]. split; [reflexivity|].
  exact (X12_eventually_is_checked_as_until (Operations := exampleOperations)
           exampleIsStateFormula exampleIsPathFormula exampleIsValidProbabilityPathFormula
           exampleIsValidRewardPathFormula exampleMethods exampleTask
           (Some (GreaterEqual, 1)) (AtomicLabelFormula "a") [] eq_refl eq_refl eq_refl).
Defined.

End DispatcherRuns.

(* ================================================================== *)
(** * The empty index vector *)
(* ================================================================== *)

Section EmptyIndexVector.

Context {T : Type} `{VT : ValueType T} {Graph : GraphUtility T}
        {Solver : NondeterministicLinearEquationSolver T}.

Variable model : Mdp T.


End EmptyIndexVector.

